(** * PDF2JPG service: a shallow embedding of [main.py] and its properties

    The service is a thin orchestration layer over a file system, a remote
    fetch client, a PDF rasterizer and a ZIP codec.  The embedding keeps the
    control flow of every function of [main.py] (the [try]/[except] blocks,
    the early [return]s, the order of the checks) and threads an explicit
    world (file system and event trace) through a state-and-exception monad.

    The external capabilities (the remote host, [pdf2image], the JPEG and
    ZIP codecs, a failing [shutil.rmtree], the identifier drawn by
    [uuid.uuid4]) are fields of an environment record, so every theorem
    holds for all their behaviours.  The file system is a finite map from
    path strings to nodes.  A write fails exactly when its target is a
    directory; that the parent of a path exists is not tracked, and neither
    are permissions or a full disk.  The service only writes into
    directories it has made before ([TEMP_DIR] at import, the workspace at
    the start of a request); a statement that depends on such a directory
    being there has it as a hypothesis. *)

From Stdlib Require Import Ascii Decimal DecimalString DecimalNat.
From stdpp Require Import base option list strings gmap.

(** ** Python string operations *)

Module Str.

(** [str.lower()], on the ASCII range (the only range where a character
    can lower to one of [. p d f]). *)
Definition lower_ascii (c : ascii) : ascii :=
  let n := nat_of_ascii c in
  if (65 <=? n)%nat && (n <=? 90)%nat then ascii_of_nat (n + 32) else c.

Fixpoint lower (s : string) : string :=
  match s with
  | EmptyString => EmptyString
  | String c r => String (lower_ascii c) (lower r)
  end.

(** [s.startswith(p)] *)
Fixpoint startswith (s p : string) : bool :=
  match p, s with
  | EmptyString, _ => true
  | String _ _, EmptyString => false
  | String a p', String b s' => if Ascii.eqb a b then startswith s' p' else false
  end.

(** [s.endswith(p)]: some tail of [s] is [p]. *)
Fixpoint endswith (s p : string) : bool :=
  if String.eqb s p then true
  else match s with
       | EmptyString => false
       | String _ r => endswith r p
       end.

(** [p in s] *)
Fixpoint contains (s p : string) : bool :=
  if startswith s p then true
  else match s with
       | EmptyString => false
       | String _ r => contains r p
       end.

(** Truthiness of a [str]: the empty string is falsy. *)
Definition truthy (s : string) : bool := negb (String.eqb s "").

(** [str(n)] for a non-negative [int]. *)
Definition of_nat (n : nat) : string := NilZero.string_of_uint (Nat.to_uint n).

Fixpoint zeros (n : nat) : string :=
  match n with
  | O => EmptyString
  | S k => String "0"%char (zeros k)
  end.

(** The format specification [{n:0wd}] for a non-negative [n]: decimal,
    left-padded with zeros to at least [w] characters. *)
Definition format_0d (w n : nat) : string :=
  let d := of_nat n in zeros (w - String.length d) +:+ d.

End Str.

(** ** [os.path] on POSIX *)

Module Path.

(** [os.path.join(a, b)] *)
Definition join (a b : string) : string :=
  if Str.startswith b "/" then b
  else if String.eqb a "" || Str.endswith a "/" then a +:+ b
  else a +:+ "/" +:+ b.

(** [os.path.basename(p)]: what follows the last slash. *)
Fixpoint basename (p : string) : string :=
  match p with
  | EmptyString => EmptyString
  | String c r =>
      if Str.contains r "/" then basename r
      else if Ascii.eqb c "/"%char then r
      else p
  end.

End Path.

(** ** The world: a file system and a trace *)

Abbreviation bytes := (list Byte.byte).

(** A path names a directory or a regular file.  Paths are compared as
    strings; that a parent directory exists is not tracked. *)
Inductive node :=
  | Dir
  | File (data : bytes).

Inductive level := INFO | WARNING | ERROR.

(** An entry of a ZIP archive: its name and its uncompressed content. *)
Record zip_entry := ZipEntry { arcname : string; payload : bytes }.

(** What a run leaves behind besides the file system: the [logger] records
    and the calls made to the external capabilities ([Archive] carries the
    entries handed to the ZIP codec).  [Cleanup] marks an invocation of
    [cleanup_directory].  The most recent event comes first. *)
Inductive event :=
  | Log (lvl : level) (msg : string)
  | HttpGet (url : string)
  | Rasterize (pdf_path output_folder : string) (pdf : option node)
  | Archive (zip_path : string) (entries : list zip_entry)
  | Cleanup (directory : string).

Record world := World { fs : gmap string node; trace : list event }.

(** Python exceptions: FastAPI's [HTTPException] and every other
    [Exception], carrying its [str(e)]. *)
Inductive exn :=
  | HTTPException (status : nat) (detail : string)
  | Exception (msg : string).

Definition str_exn (e : exn) : string :=
  match e with
  | HTTPException s d => Str.of_nat s +:+ ": " +:+ d
  | Exception msg => msg
  end.

Inductive outcome (A : Type) :=
  | Ret (a : A)
  | Raise (e : exn).
Arguments Ret {A} a.
Arguments Raise {A} e.

(** ** The state-and-exception monad *)

Definition M (A : Type) : Type := world -> outcome A * world.

Definition ret {A} (a : A) : M A := fun w => (Ret a, w).

Definition raise {A} (e : exn) : M A := fun w => (Raise e, w).

Definition bind {A B} (m : M A) (k : A -> M B) : M B :=
  fun w => match m w with
           | (Ret a, w') => k a w'
           | (Raise e, w') => (Raise e, w')
           end.

(** [try: m  except Exception as e: h e] *)
Definition try_except {A} (m : M A) (h : exn -> M A) : M A :=
  fun w => match m w with
           | (Ret a, w') => (Ret a, w')
           | (Raise e, w') => h e w'
           end.

Declare Scope py_scope.
Delimit Scope py_scope with py.
Notation "x <- m ;; k" := (bind m (fun x => k))
  (at level 100, m at next level, right associativity) : py_scope.
Notation "m ;; k" := (bind m (fun _ => k))
  (at level 100, right associativity) : py_scope.
Local Open Scope py_scope.

Definition emit (e : event) (w : world) : world :=
  {| fs := fs w; trace := e :: trace w |}.

Definition set_fs (f : gmap string node) (w : world) : world :=
  {| fs := f; trace := trace w |}.

Definition log (lvl : level) (msg : string) : M unit :=
  fun w => (Ret tt, emit (Log lvl msg) w).

(** ** File-system primitives *)

(** [os.path.exists(p)] *)
Definition path_exists (p : string) : M bool :=
  fun w => (Ret (bool_decide (is_Some (fs w !! p))), w).

(** [open(p, 'wb')]: creates or truncates the file.  The directory that
    holds [p] is taken to be there (parents are not tracked): every path the
    service opens lies in a directory it has made before. *)
Definition open_wb (p : string) : M unit :=
  fun w => match fs w !! p with
           | Some Dir => (Raise (Exception ("[Errno 21] Is a directory: " +:+ p)), w)
           | _ => (Ret tt, set_fs (<[p := File []]> (fs w)) w)
           end.

(** [f.write(data)] on the file opened at [p]. *)
Definition file_write (p : string) (data : bytes) : M unit :=
  fun w => match fs w !! p with
           | Some (File d) => (Ret tt, set_fs (<[p := File (d ++ data)]> (fs w)) w)
           | _ => (Raise (Exception ("I/O operation on closed file: " +:+ p)), w)
           end.

(** [with open(p, 'wb') as f: f.write(data)] *)
Definition write_file (p : string) (data : bytes) : M unit :=
  open_wb p ;; file_write p data.

(** [os.remove(p)] *)
Definition os_remove (p : string) : M unit :=
  fun w => match fs w !! p with
           | Some (File _) => (Ret tt, set_fs (delete p (fs w)) w)
           | Some Dir => (Raise (Exception ("[Errno 21] Is a directory: " +:+ p)), w)
           | None => (Raise (Exception ("[Errno 2] No such file or directory: " +:+ p)), w)
           end.

(** [os.makedirs(p, exist_ok=True)], for a path whose parent is there: the
    service makes [TEMP_DIR] when the module is imported and its workspaces
    directly below it, so the call creates the last component only.  (Parents
    are not tracked; a theorem on the paths outside a workspace assumes that
    [TEMP_DIR] is a directory.) *)
Definition makedirs (p : string) : M unit :=
  fun w => match fs w !! p with
           | Some (File _) => (Raise (Exception ("[Errno 17] File exists: " +:+ p)), w)
           | Some Dir => (Ret tt, w)
           | None => (Ret tt, set_fs (<[p := Dir]> (fs w)) w)
           end.

(** The paths that [shutil.rmtree(d)] removes: [d] itself and whatever lies
    below it. *)
Definition dir_prefix (d : string) : string :=
  if Str.endswith d "/" then d else d +:+ "/".

Definition under (d p : string) : bool :=
  String.eqb p d || Str.startswith p (dir_prefix d).

Definition remove_tree (d : string) (f : gmap string node) : gmap string node :=
  filter (fun kv => under d kv.1 = false) f.

(** ** The external capabilities *)

Abbreviation image := bytes (only parsing).

(** The answer of the remote host: the status line, the [Content-Type]
    header, the chunks that [iter_content] yields and, when the transfer
    breaks after them, the error it raises. *)
Record response := Response {
  status_code : nat;
  content_type : option string;
  chunks : list bytes;
  broken : option string
}.

Record env := Env {
  (** [str(uuid.uuid4())] for this request *)
  uuid4 : string;
  (** [requests.get]: a network-level error or a response *)
  http_get : string -> string + response;
  (** [pdf2image.convert_from_path]: an error, or the page images in page
      order; either way with the file system it leaves (it writes into the
      folder) *)
  pdf2image : gmap string node -> string -> string ->
              (string * gmap string node) + (list image * gmap string node);
  (** [Image.save(..., 'JPEG', quality=85, optimize=True)]: the encoder *)
  jpeg_encode : image -> bytes;
  (** [zipfile] with [ZIP_DEFLATED]: an error, with the bytes that the
      archive file holds by then ([ZipFile] writes as it goes, and its
      [__exit__] writes the end record also after an exception), or the
      bytes of the archive *)
  zip_encode : list zip_entry -> (string * bytes) + bytes;
  (** whether [shutil.rmtree] fails on a directory: the error, and what is
      left of the file system *)
  rmtree_fault : gmap string node -> string -> option (string * gmap string node);
  (** [st_size] of a directory *)
  dir_size : string -> nat
}.

Section Capabilities.
Context (E : env).

(** [os.path.getsize(p)] *)
Definition getsize (p : string) : M nat :=
  fun w => match fs w !! p with
           | Some (File d) => (Ret (length d), w)
           | Some Dir => (Ret (dir_size E p), w)
           | None => (Raise (Exception ("[Errno 2] No such file or directory: " +:+ p)), w)
           end.

(** [shutil.rmtree(d)] *)
Definition rmtree (d : string) : M unit :=
  fun w => match fs w !! d with
           | Some Dir =>
               match rmtree_fault E (fs w) d with
               | Some (msg, f) => (Raise (Exception msg), set_fs f w)
               | None => (Ret tt, set_fs (remove_tree d (fs w)) w)
               end
           | Some (File _) => (Raise (Exception ("[Errno 20] Not a directory: " +:+ d)), w)
           | None => (Raise (Exception ("[Errno 2] No such file or directory: " +:+ d)), w)
           end.

(** [requests.get(url, headers=headers, stream=True, timeout=60)] *)
Definition requests_get (url : string) : M response :=
  fun w => match http_get E url with
           | inl msg => (Raise (Exception msg), emit (HttpGet url) w)
           | inr r => (Ret r, emit (HttpGet url) w)
           end.

(** [response.raise_for_status()] *)
Definition raise_for_status (r : response) : M unit :=
  if (400 <=? status_code r) && (status_code r <? 600)
  then raise (Exception (Str.of_nat (status_code r) +:+ " Error"))
  else ret tt.

(** [convert_from_path(pdf_path, dpi=200, output_folder=output_dir,
    fmt='jpeg', thread_count=2)] *)
Definition convert_from_path (pdf_path output_dir : string) : M (list image) :=
  fun w =>
    let w1 := emit (Rasterize pdf_path output_dir (fs w !! pdf_path)) w in
    match pdf2image E (fs w) pdf_path output_dir with
    | inl (msg, f) => (Raise (Exception msg), set_fs f w1)
    | inr (images, f) => (Ret images, set_fs f w1)
    end.

(** [image.save(image_path, 'JPEG', quality=85, optimize=True)] *)
Definition image_save (img : image) (image_path : string) : M unit :=
  write_file image_path (jpeg_encode E img).

End Capabilities.

(** ** The functions of [main.py] *)

Definition TEMP_DIR : string := "temp".

(** [f'page_{n:03d}.jpg'] *)
Definition page_name (n : nat) : string :=
  "page_" +:+ Str.format_0d 3 n +:+ ".jpg".

(** [os.path.join(output_dir, f'page_{n:03d}.jpg')] *)
Definition page_path (output_dir : string) (n : nat) : string :=
  Path.join output_dir (page_name n).

Definition is_empty {A} (l : list A) : bool :=
  match l with [] => true | _ => false end.

Record UploadFile := { filename : string; file : bytes }.

Record FileResponse := {
  fr_path : string;
  fr_media_type : string;
  fr_filename : string;
  fr_background : M unit
}.

Section Service.
Context (E : env).

(** [for chunk in response.iter_content(chunk_size=8192):
       if chunk: f.write(chunk)] *)
Fixpoint write_chunks (output_path : string) (cs : list bytes) : M unit :=
  match cs with
  | [] => ret tt
  | chunk :: rest =>
      (if is_empty chunk then ret tt else file_write output_path chunk) ;;
      write_chunks output_path rest
  end.

Definition iter_content_into (output_path : string) (r : response) : M unit :=
  write_chunks output_path (chunks r) ;;
  match broken r with
  | Some msg => raise (Exception msg)
  | None => ret tt
  end.

(** main.py, lines 23-61 *)
Definition download_pdf_from_url (url output_path : string) : M bool :=
  try_except
    (log INFO ("Descargando PDF desde: " +:+ url) ;;
     response <- requests_get E url ;;
     raise_for_status response ;;
     let ctype := Str.lower (default "" (content_type response)) in
     (if negb (Str.contains ctype "pdf") && negb (Str.endswith url ".pdf")
      then log WARNING ("Content-Type sospechoso: " +:+ ctype)
      else ret tt) ;;
     open_wb output_path ;;
     iter_content_into output_path response ;;
     size <- getsize E output_path ;;
     if size =? 0 then
       log ERROR "Archivo descargado está vacío" ;;
       ret false
     else
       size' <- getsize E output_path ;;
       log INFO ("PDF descargado exitosamente: " +:+ Str.of_nat size' +:+ " bytes") ;;
       ret true)
    (fun e =>
       log ERROR ("Error descargando PDF: " +:+ str_exn e) ;;
       present <- path_exists output_path ;;
       (if present then os_remove output_path else ret tt) ;;
       ret false).

(** [for i, image in enumerate(images): ...], from index [i] on *)
Fixpoint save_pages (output_dir : string) (images : list image) (i : nat)
    (image_paths : list string) : M (list string) :=
  match images with
  | [] => ret image_paths
  | img :: rest =>
      let image_path := page_path output_dir (i + 1) in
      image_save E img image_path ;;
      log INFO ("Guardada página " +:+ Str.of_nat (i + 1) +:+ ": " +:+ image_path) ;;
      save_pages output_dir rest (S i) (image_paths ++ [image_path])
  end.

(** main.py, lines 63-89 *)
Definition convert_pdf_to_images (pdf_path output_dir : string) : M (list string) :=
  try_except
    (log INFO ("Convirtiendo PDF: " +:+ pdf_path) ;;
     images <- convert_from_path E pdf_path output_dir ;;
     image_paths <- save_pages output_dir images 0 [] ;;
     log INFO ("Conversión completada: " +:+ Str.of_nat (length image_paths) +:+ " imágenes") ;;
     ret image_paths)
    (fun e =>
       log ERROR ("Error convirtiendo PDF: " +:+ str_exn e) ;;
       ret []).

(** [zipf.write(image_path, arcname)]: the entry that is added.  A
    directory is stored as an empty entry whose name gets a slash. *)
Definition zipf_write (image_path name : string) : M zip_entry :=
  fun w => match fs w !! image_path with
           | Some (File d) => (Ret (ZipEntry name d), w)
           | Some Dir => (Ret (ZipEntry (name +:+ "/") []), w)
           | None =>
               (Raise (Exception ("[Errno 2] No such file or directory: " +:+ image_path)), w)
           end.

(** [for i, image_path in enumerate(image_paths): ...], from index [i] on;
    [entries] is what the archive holds so far. *)
Fixpoint zip_pages (image_paths : list string) (i : nat)
    (entries : list zip_entry) : M (list zip_entry) :=
  match image_paths with
  | [] => ret entries
  | image_path :: rest =>
      present <- path_exists image_path ;;
      if present then
        let name := page_name (i + 1) in
        entry <- zipf_write image_path name ;;
        log INFO ("Agregado al ZIP: " +:+ name) ;;
        zip_pages rest (S i) (entries ++ [entry])
      else zip_pages rest (S i) entries
  end.

(** Leaving the [with zipfile.ZipFile(...)] block: the archive is
    written out.  When the codec fails, the file keeps what had been
    written by then and the error is raised.  (The bytes reach the file
    here, not entry by entry: what the file holds while the loop runs can be
    seen only by a run that lists the archive path itself, which the
    theorems on the content of the archive exclude.) *)
Definition zip_close (zip_path : string) (entries : list zip_entry) : M unit :=
  fun w =>
    match zip_encode E entries with
    | inl (msg, residue) =>
        (file_write zip_path residue ;; raise (Exception msg))
          (emit (Archive zip_path entries) w)
    | inr b => file_write zip_path b (emit (Archive zip_path entries) w)
    end.

(** main.py, lines 91-114 *)
Definition create_zip_file (image_paths : list string) (zip_path : string) : M bool :=
  try_except
    (log INFO ("Creando ZIP: " +:+ zip_path) ;;
     open_wb zip_path ;;
     entries <- zip_pages image_paths 0 [] ;;
     zip_close zip_path entries ;;
     present <- path_exists zip_path ;;
     nonempty <- (if present then size <- getsize E zip_path ;; ret (0 <? size)
                  else ret false) ;;
     if nonempty then
       size <- getsize E zip_path ;;
       log INFO ("ZIP creado exitosamente: " +:+ Str.of_nat size +:+ " bytes") ;;
       ret true
     else
       log ERROR "ZIP creado está vacío o no existe" ;;
       ret false)
    (fun e =>
       log ERROR ("Error creando ZIP: " +:+ str_exn e) ;;
       ret false).

(** main.py, lines 116-123 *)
Definition cleanup_directory (directory : string) : M unit :=
  fun w =>
    try_except
      (present <- path_exists directory ;;
       if present then
         rmtree E directory ;;
         log INFO ("Directorio limpiado: " +:+ directory)
       else ret tt)
      (fun e =>
         log WARNING ("No se pudo limpiar directorio " +:+ directory +:+ ": " +:+ str_exn e))
      (emit (Cleanup directory) w).

(** Truthiness of the two optional parameters: an [UploadFile] object is
    always truthy, a [str] is truthy when it is not empty. *)
Definition truthy_pdf (pdf : option UploadFile) : bool :=
  match pdf with Some _ => true | None => false end.

Definition truthy_url (pdf_url : option string) : bool :=
  match pdf_url with Some u => Str.truthy u | None => false end.

(** [not os.path.exists(p) or os.path.getsize(p) == 0] *)
Definition missing_or_empty (p : string) : M bool :=
  present <- path_exists p ;;
  if negb present then ret true
  else size <- getsize E p ;; ret (size =? 0).

Definition workspace : string := Path.join TEMP_DIR (uuid4 E).

(** main.py, lines 183-216: the source is fetched or stored *)
Definition resolve_source (pdf : option UploadFile) (pdf_url : option string)
    (temp_dir : string) : M string :=
  if truthy_url pdf_url then
    let url := default "" pdf_url in
    log INFO ("Procesando URL: " +:+ url) ;;
    let pdf_path := Path.join temp_dir "input.pdf" in
    ok <- download_pdf_from_url url pdf_path ;;
    if negb ok then
      raise (HTTPException 400 "No se pudo descargar el PDF desde la URL")
    else ret pdf_path
  else
    match pdf with
    | None => raise (Exception "'NoneType' object has no attribute 'filename'")
    | Some upload =>
        log INFO ("Procesando archivo: " +:+ filename upload) ;;
        if negb (Str.endswith (Str.lower (filename upload)) ".pdf") then
          raise (HTTPException 400 "El archivo debe ser PDF")
        else
          let pdf_path := Path.join temp_dir "input.pdf" in
          let content := file upload in
          if length content =? 0 then
            raise (HTTPException 400 "El archivo PDF está vacío")
          else
            write_file pdf_path content ;;
            ret pdf_path
    end.

(** main.py, lines 218-223: the gate shared by both sources *)
Definition verify_pdf (pdf_path : string) : M unit :=
  bad_pdf <- missing_or_empty pdf_path ;;
  if bad_pdf then raise (HTTPException 400 "PDF inválido o vacío")
  else ret tt.

(** main.py, lines 225-257: rasterization, archive, response *)
Definition rasterize_and_archive (pdf_path temp_dir : string) : M FileResponse :=
  image_paths <- convert_pdf_to_images pdf_path temp_dir ;;
  if is_empty image_paths then
    raise (HTTPException 500 "No se pudieron generar imágenes del PDF")
  else
    let zip_path := Path.join temp_dir "images.zip" in
    ok <- create_zip_file image_paths zip_path ;;
    if negb ok then raise (HTTPException 500 "No se pudo crear el archivo ZIP")
    else
      bad_zip <- missing_or_empty zip_path ;;
      if bad_zip then raise (HTTPException 500 "El archivo ZIP está vacío o corrupto")
      else
        size <- getsize E zip_path ;;
        log INFO ("Conversión exitosa: " +:+ Str.of_nat (length image_paths)
                  +:+ " imágenes, ZIP: " +:+ Str.of_nat size +:+ " bytes") ;;
        ret {| fr_path := zip_path;
               fr_media_type := "application/zip";
               fr_filename := "converted_images.zip";
               fr_background := cleanup_directory temp_dir |}.

(** main.py, lines 259-271: the two [except] clauses of the handler *)
Definition on_error (temp_dir : string) (e : exn) : M FileResponse :=
  match e with
  | HTTPException _ _ =>
      cleanup_directory temp_dir ;;
      raise e
  | Exception msg =>
      log ERROR ("Error inesperado: " +:+ msg) ;;
      cleanup_directory temp_dir ;;
      raise (HTTPException 500 ("Error interno del servidor: " +:+ msg))
  end.

(** main.py, lines 147-271: the handler of [POST /convert/] *)
Definition convert_pdf (pdf : option UploadFile) (pdf_url : option string)
    : M FileResponse :=
  if negb (truthy_pdf pdf) && negb (truthy_url pdf_url) then
    raise (HTTPException 422 "Debe proporcionar 'pdf' (archivo) o 'pdf_url' (URL)")
  else if truthy_pdf pdf && truthy_url pdf_url then
    raise (HTTPException 422 "Proporcione solo 'pdf' o 'pdf_url', no ambos")
  else
    let temp_dir := workspace in
    makedirs temp_dir ;;
    try_except
      (pdf_path <- resolve_source pdf pdf_url temp_dir ;;
       verify_pdf pdf_path ;;
       rasterize_and_archive pdf_path temp_dir)
      (on_error temp_dir).

(** What the client receives. *)
Inductive http_response :=
  | Download (status : nat) (media_type : string) (name : string) (body : bytes)
  | Failure (status : nat) (detail : string).

Definition status_of (r : http_response) : nat :=
  match r with
  | Download s _ _ _ => s
  | Failure s _ => s
  end.

(** The route as FastAPI serves it: an [HTTPException] becomes its status
    and detail, any other exception a plain 500, and a [FileResponse]
    sends the file and runs its background callable once the body has
    been transmitted. *)
Definition post_convert (pdf : option UploadFile) (pdf_url : option string)
    (w : world) : http_response * world :=
  match convert_pdf pdf pdf_url w with
  | (Ret r, w1) =>
      let body := match fs w1 !! fr_path r with
                  | Some (File d) => d
                  | _ => []
                  end in
      (Download 200 (fr_media_type r) (fr_filename r) body, (fr_background r w1).2)
  | (Raise (HTTPException s d), w1) => (Failure s d, w1)
  | (Raise (Exception _), w1) => (Failure 500 "Internal Server Error", w1)
  end.

End Service.

(** ** Observations on runs *)

(** The entries that the loop of [create_zip_file] adds from index [i] on,
    read off the file system [f]: a listed path that is missing adds
    nothing, and the name comes from the position in the list. *)
Fixpoint zip_listing (f : gmap string node) (image_paths : list string) (i : nat)
    : list zip_entry :=
  match image_paths with
  | [] => []
  | image_path :: rest =>
      match f !! image_path with
      | Some (File d) => [ZipEntry (page_name (i + 1)) d]
      | Some Dir => [ZipEntry (page_name (i + 1) +:+ "/") []]
      | None => []
      end ++ zip_listing f rest (S i)
  end.

(** What may leave the rasterize-and-archive block: a plain exception or
    an [HTTPException] with status 500. *)
Definition server_error (e : exn) : Prop :=
  match e with
  | HTTPException s _ => s = 500
  | Exception _ => True
  end.

(** The status that [on_error] answers with. *)
Definition error_status (e : exn) : nat :=
  match e with
  | HTTPException s _ => s
  | Exception _ => 500
  end.

(** Nothing exists at or below the workspace of this request. *)
Definition fresh_workspace (E : env) (w : world) : Prop :=
  forall p, under (workspace E) p = true -> fs w !! p = None.

Definition is_cleanup (e : event) : bool :=
  match e with Cleanup _ => true | _ => false end.

(** How often [cleanup_directory d] was invoked. *)
Fixpoint cleanups (d : string) (tr : list event) : nat :=
  match tr with
  | [] => 0
  | Cleanup d' :: r => (if String.eqb d' d then 1 else 0) + cleanups d r
  | _ :: r => cleanups d r
  end.

(** [m] extends the trace, and with no [Cleanup] event. *)
Definition no_cleanup {A} (m : M A) : Prop :=
  forall w, exists l, trace (m w).2 = l ++ trace w /\ Forall (fun e => is_cleanup e = false) l.

(** Whatever [m] raises satisfies [P]. *)
Definition raises_only {A} (P : exn -> Prop) (m : M A) : Prop :=
  forall w e w', m w = (Raise e, w') -> P e.

(** The primitives raise plain exceptions only, never an [HTTPException]. *)
Definition plain (e : exn) : Prop :=
  match e with Exception _ => True | HTTPException _ _ => False end.

(** A computation that always returns. *)
Definition total {A} (m : M A) : Prop := forall w, exists a w', m w = (Ret a, w').

(** The errors that leave the [try] block of the handler: a plain
    exception, or an [HTTPException] with status 400 or 500. *)
Definition try_block_error (e : exn) : Prop :=
  match e with
  | HTTPException s _ => s = 400 \/ s = 500
  | Exception _ => True
  end.

(** The record that [cleanup_directory] logs when the removal fails. *)
Definition cleanup_warning (directory msg : string) : event :=
  Log WARNING ("No se pudo limpiar directorio " +:+ directory +:+ ": " +:+ msg).

(** The request names exactly one source. *)
Definition one_source (pdf : option UploadFile) (pdf_url : option string) : bool :=
  xorb (truthy_pdf pdf) (truthy_url pdf_url).

(** The request gets its workspace: it names exactly one source and
    [os.makedirs] succeeds, the workspace path not being a regular file. *)
Definition workspace_created (E : env) (pdf : option UploadFile)
    (pdf_url : option string) (w : world) : Prop :=
  one_source pdf pdf_url = true /\ forall d, fs w !! workspace E <> Some (File d).

Definition neither_detail : string := "Debe proporcionar 'pdf' (archivo) o 'pdf_url' (URL)".
Definition both_detail : string := "Proporcione solo 'pdf' o 'pdf_url', no ambos".

(** ** The claims that the code does not meet, as they are stated *)

(** C1 as stated: whenever the document rasterizes to pages, the paths of
    the pages are returned. *)
Definition pages_returned (E : env) (pdf_path output_dir : string) (w : world) : Prop :=
  forall images f,
    pdf2image E (fs w) pdf_path output_dir = inr (images, f) -> images <> [] ->
    (convert_pdf_to_images E pdf_path output_dir w).1
      = Ret (map (page_path output_dir) (seq 1 (length images))).


(** C3 as stated: once the request is over, its workspace is gone. *)
Definition no_workspace_remains (E : env) (pdf : option UploadFile)
    (pdf_url : option string) (w : world) : Prop :=
  workspace_created E pdf pdf_url w ->
  fs (post_convert E pdf pdf_url w).2 !! workspace E = None.

(** C4 as stated: a failed download leaves no file at the output path. *)
Definition failed_download_leaves_no_file (E : env) (url output_path : string)
    (w : world) : Prop :=
  (download_pdf_from_url E url output_path w).1 = Ret false ->
  fs (download_pdf_from_url E url output_path w).2 !! output_path = None.

(** ** Sample environments and requests *)

Definition sample_pdf : bytes := [Byte.x25; Byte.x50; Byte.x44; Byte.x46].

Definition sample_pages : list image := [[Byte.x01]; [Byte.x02]; [Byte.x03]].

Definition sample_zip (es : list zip_entry) : bytes :=
  Byte.x50 :: Byte.x4b :: concat (map payload es).

(** A host that serves the sample document, a three-page rasterizer that
    writes nothing else, and a removal that works. *)
Definition sample_env : env := {|
  uuid4 := "3f2a";
  http_get := fun _ => inr (Response 200 (Some "application/pdf") [sample_pdf] None);
  pdf2image := fun f _ _ => inr (sample_pages, f);
  jpeg_encode := fun img => img;
  zip_encode := fun es => inr (sample_zip es);
  rmtree_fault := fun _ _ => None;
  dir_size := fun _ => 4096
|}.

(** The same, with a host that answers 200 and an empty body. *)
Definition empty_body_env : env := {|
  uuid4 := "3f2a";
  http_get := fun _ => inr (Response 200 (Some "application/pdf") [] None);
  pdf2image := fun f _ _ => inr (sample_pages, f);
  jpeg_encode := fun img => img;
  zip_encode := fun es => inr (sample_zip es);
  rmtree_fault := fun _ _ => None;
  dir_size := fun _ => 4096
|}.

(** The same as [sample_env], with a removal that fails and removes
    nothing. *)
Definition locked_env : env := {|
  uuid4 := "3f2a";
  http_get := fun _ => inr (Response 200 (Some "application/pdf") [sample_pdf] None);
  pdf2image := fun f _ _ => inr (sample_pages, f);
  jpeg_encode := fun img => img;
  zip_encode := fun es => inr (sample_zip es);
  rmtree_fault := fun f _ => Some ("[Errno 13] Permission denied", f);
  dir_size := fun _ => 4096
|}.

Definition empty_world : world := {| fs := ∅; trace := [] |}.

Definition scans_world : world :=
  {| fs := {[ "scans/cover.jpg" := File [Byte.x01] ]}; trace := [] |}.

(** A session of the running service: the directory of the service and
    the workspace. *)
Definition session_world : world :=
  {| fs := <["temp/3f2a" := Dir]> {[ "temp" := Dir ]}; trace := [] |}.

(** A session of the running service that has stored its document: the
    directory of the service, the workspace and [input.pdf]. *)
Definition stored_world : world :=
  {| fs := <["temp/3f2a/input.pdf" := File sample_pdf]>
             (<["temp/3f2a" := Dir]> {[ "temp" := Dir ]});
     trace := [] |}.

(** The same, with a directory in the place of the second page. *)
Definition taken_world : world :=
  {| fs := <["temp/3f2a/page_002.jpg" := Dir]> (fs stored_world); trace := [] |}.

(** The running service next to a directory of scans. *)
Definition shared_world : world :=
  {| fs := <["scans/cover.jpg" := File [Byte.x01]]>
             (<["scans" := Dir]> {[ "temp" := Dir ]});
     trace := [] |}.

Definition sample_upload : UploadFile := {| filename := "Report.PDF"; file := sample_pdf |}.

Definition text_upload : UploadFile := {| filename := "doc.txt"; file := sample_pdf |}.


(** ** Further observations *)

(** The number that a string of decimal digits denotes, leading zeros
    allowed. *)
Definition decimal_value (s : string) : option nat :=
  option_map Nat.of_uint (NilEmpty.uint_of_string s).

(** What an action may do to the file system when it works inside the
    directory [d]: it leaves every path outside [d] alone, it creates no
    directory, and it keeps [d] in place. *)
Definition confined (d : string) (f f' : gmap string node) : Prop :=
  (forall p, under d p = false -> f' !! p = f !! p) /\
  (forall p, f' !! p = Some Dir -> f !! p = Some Dir) /\
  (f !! d = Some Dir -> f' !! d = Some Dir).

Definition stays_within (d : string) {A} (m : M A) : Prop :=
  forall w, confined d (fs w) (fs (m w).2).

(** The file system that the rasterizer leaves, whether it fails or not. *)
Definition rasterizer_residual (E : env) (f : gmap string node)
    (pdf_path output_dir : string) : gmap string node :=
  match pdf2image E f pdf_path output_dir with
  | inl (_, f') => f'
  | inr (_, f') => f'
  end.

(** An environment whose rasterizer writes regular files only, inside its
    output folder only, and whose failing [rmtree] has touched nothing
    outside the tree it was removing. *)
Definition tidy (E : env) : Prop :=
  (forall f pdf_path output_dir,
     confined output_dir f (rasterizer_residual E f pdf_path output_dir)) /\
  (forall f d msg f',
     rmtree_fault E f d = Some (msg, f') ->
     forall p, under d p = false -> f' !! p = f !! p).

(** The detail that [on_error] answers with. *)
Definition error_detail (e : exn) : string :=
  match e with
  | HTTPException _ detail => detail
  | Exception msg => "Error interno del servidor: " +:+ msg
  end.

(** What a download brings: the bytes of the body, when the host answers
    with a status outside 400-599 and the transfer completes. *)
Definition fetched (E : env) (url : string) : option bytes :=
  match http_get E url with
  | inl _ => None
  | inr r =>
      if (400 <=? status_code r) && (status_code r <? 600) then None
      else match broken r with
           | Some _ => None
           | None => Some (concat (chunks r))
           end
  end.

(** The document that a request brings, when it passes the checks of its
    source: the body that was fetched, if it is not empty, or the content
    of the upload, if its name ends in [.pdf] and it is not empty. *)
Definition source_bytes (E : env) (pdf : option UploadFile)
    (pdf_url : option string) : option bytes :=
  if truthy_url pdf_url then
    match fetched E (default "" pdf_url) with
    | Some (b :: data) => Some (b :: data)
    | _ => None
    end
  else
    match pdf with
    | Some upload =>
        if Str.endswith (Str.lower (filename upload)) ".pdf"
           && negb (is_empty (file upload))
        then Some (file upload) else None
    | None => None
    end.

(** The file system of a fresh workspace in which the document has been
    stored. *)
Definition with_source (E : env) (f : gmap string node) (data : bytes)
    : gmap string node :=
  <[Path.join (workspace E) "input.pdf" := File data]> (<[workspace E := Dir]> f).

(** The entries of the archive of a conversion that has yielded [images],
    numbered from [i + 1] on. *)
Fixpoint page_entries_from (E : env) (i : nat) (images : list image) : list zip_entry :=
  match images with
  | [] => []
  | img :: rest =>
      ZipEntry (page_name (i + 1)) (jpeg_encode E img) :: page_entries_from E (S i) rest
  end.

Definition page_entries (E : env) (images : list image) : list zip_entry :=
  page_entries_from E 0 images.

(** What the client receives once the rasterizer has yielded [images]. *)
Definition conversion_response (E : env) (images : list image) : http_response :=
  match images with
  | [] => Failure 500 "No se pudieron generar imágenes del PDF"
  | _ :: _ =>
      match zip_encode E (page_entries E images) with
      | inr (b :: body) => Download 200 "application/zip" "converted_images.zip" (b :: body)
      | _ => Failure 500 "No se pudo crear el archivo ZIP"
      end
  end.

(** The errors that [resolve_source] raises: one of its three refusals, or
    a plain exception. *)
Definition source_error (e : exn) : Prop :=
  match e with
  | HTTPException s detail =>
      s = 400 /\
      (detail = "No se pudo descargar el PDF desde la URL" \/
       detail = "El archivo debe ser PDF" \/
       detail = "El archivo PDF está vacío")
  | Exception _ => True
  end.

(** The responses of [POST /convert/]: the archive, or one of the failures
    with its detail. *)
Definition catalogued (r : http_response) : Prop :=
  match r with
  | Download s media_type name body =>
      s = 200 /\ media_type = "application/zip" /\ name = "converted_images.zip" /\
      body <> []
  | Failure s detail =>
      (s = 422 /\ (detail = neither_detail \/ detail = both_detail)) \/
      (s = 400 /\
       (detail = "No se pudo descargar el PDF desde la URL" \/
        detail = "El archivo debe ser PDF" \/
        detail = "El archivo PDF está vacío")) \/
      (s = 500 /\
       (detail = "No se pudieron generar imágenes del PDF" \/
        detail = "No se pudo crear el archivo ZIP" \/
        detail = "Internal Server Error" \/
        exists msg, detail = "Error interno del servidor: " +:+ msg))
  end.

(** The detail of the 400 that answers a request whose source brings no
    document: the download has failed or brought nothing, the name of the
    upload does not end in [.pdf], or the upload is empty.  The name is
    tested before the content. *)
Definition refusal_detail (pdf : option UploadFile) (pdf_url : option string) : string :=
  if truthy_url pdf_url then "No se pudo descargar el PDF desde la URL"
  else
    match pdf with
    | Some upload =>
        if Str.endswith (Str.lower (filename upload)) ".pdf"
        then "El archivo PDF está vacío"
        else "El archivo debe ser PDF"
    | None => ""
    end.

(** The same as [sample_env], with a rasterizer that fails. *)
Definition failing_rasterizer_env : env := {|
  uuid4 := "3f2a";
  http_get := fun _ => inr (Response 200 (Some "application/pdf") [sample_pdf] None);
  pdf2image := fun f _ _ => inl ("Unable to get page count.", f);
  jpeg_encode := fun img => img;
  zip_encode := fun es => inr (sample_zip es);
  rmtree_fault := fun _ _ => None;
  dir_size := fun _ => 4096
|}.

(** A world in which the path of the workspace is taken by a file. *)
Definition blocked_world : world :=
  {| fs := {[ "temp/3f2a" := File [Byte.x00] ]}; trace := [] |}.

(** The events of a run are all of one kind: the trace grows by events
    that satisfy [P]. *)
Definition emits_only {A} (P : event -> Prop) (m : M A) : Prop :=
  forall w, exists l, trace (m w).2 = l ++ trace w /\ Forall P l.

(** The events that belong to a request: its log records, a request to
    the URL it names, the rasterization of its stored document into its
    workspace, the archive in its workspace, the cleanup of its
    workspace. *)
Definition request_event (E : env) (pdf_url : option string) (e : event) : Prop :=
  match e with
  | Log _ _ => True
  | HttpGet url => pdf_url = Some url /\ url <> ""
  | Rasterize pdf_path output_folder _ =>
      pdf_path = Path.join (workspace E) "input.pdf" /\ output_folder = workspace E
  | Archive zip_path _ => zip_path = Path.join (workspace E) "images.zip"
  | Cleanup directory => directory = workspace E
  end.

(** The events that come before the rasterization. *)
Definition before_rasterizer (e : event) : Prop :=
  match e with
  | Rasterize _ _ _ | Archive _ _ => False
  | _ => True
  end.

(** A world in which the workspace is there and holds a document. *)
Definition used_world : world :=
  {| fs := <["temp/3f2a/input.pdf" := File sample_pdf]>
             (<["temp/3f2a" := Dir]> {[ "temp" := Dir ]});
     trace := [] |}.

(** A session identifier that names one path component, as those drawn by
    [uuid.uuid4] do: it is not empty and holds no slash. *)
Definition plain_id (u : string) : Prop := u <> "" /\ Str.contains u "/" = false.

(** The same as [sample_env], for another session. *)
Definition other_env : env := {|
  uuid4 := "9c1d";
  http_get := fun _ => inr (Response 200 (Some "application/pdf") [sample_pdf] None);
  pdf2image := fun f _ _ => inr (sample_pages, f);
  jpeg_encode := fun img => img;
  zip_encode := fun es => inr (sample_zip es);
  rmtree_fault := fun _ _ => None;
  dir_size := fun _ => 4096
|}.

(** A world in which the session of [other_env] has stored its document. *)
Definition busy_world : world :=
  {| fs := <["temp/9c1d/input.pdf" := File sample_pdf]>
             (<["temp/9c1d" := Dir]> {[ "temp" := Dir ]});
     trace := [] |}.

(** * Properties *)

(** ** Strings and paths *)

Example lower_mixed : Str.lower "Doc.PdF" = "doc.pdf".
Proof. reflexivity. Qed.

Example endswith_pdf : Str.endswith (Str.lower "REPORT.PDF") ".pdf" = true.
Proof. reflexivity. Qed.

Example endswith_txt : Str.endswith (Str.lower "doc.txt") ".pdf" = false.
Proof. reflexivity. Qed.

Example format_7 : Str.format_0d 3 7 = "007".
Proof. reflexivity. Qed.

Example format_1000 : Str.format_0d 3 1000 = "1000".
Proof. reflexivity. Qed.

Example join_plain : Path.join "temp/abc" "input.pdf" = "temp/abc/input.pdf".
Proof. reflexivity. Qed.

Example join_slash : Path.join "temp/" "x" = "temp/x".
Proof. reflexivity. Qed.

Example join_empty : Path.join "" "x" = "x".
Proof. reflexivity. Qed.

Example basename_nested : Path.basename "temp/abc/page_001.jpg" = "page_001.jpg".
Proof. reflexivity. Qed.

Example basename_flat : Path.basename "scan.jpg" = "scan.jpg".
Proof. reflexivity. Qed.

Lemma str_app_cons (c : ascii) (s t : string) : String c s +:+ t = String c (s +:+ t).
Proof. reflexivity. Qed.

Lemma str_app_assoc (s t u : string) : (s +:+ t) +:+ u = s +:+ t +:+ u.
Proof. induction s as [|c s IH]; [done|]. rewrite !str_app_cons. by rewrite IH. Qed.

Lemma startswith_app (s t : string) : Str.startswith (s +:+ t) s = true.
Proof.
  induction s as [|c s IH]; [by destruct t|].
  rewrite str_app_cons; simpl. by rewrite Ascii.eqb_refl.
Qed.

(** [endswith] is the suffix test. *)
Lemma endswith_spec (s p : string) :
  Str.endswith s p = true <-> exists q, s = q +:+ p.
Proof.
  split.
  - induction s as [|c s IH]; cbn [Str.endswith].
    + destruct (String.eqb_spec "" p) as [<-|]; [|done]. by exists "".
    + destruct (String.eqb_spec (String c s) p) as [<-|_]; [by exists ""|].
      intros [q ->]%IH. by exists (String c q).
  - intros [q ->]. induction q as [|c q IH].
    + change ("" +:+ p) with p. destruct p; cbn [Str.endswith]; by rewrite String.eqb_refl.
    + rewrite str_app_cons. cbn [Str.endswith]. rewrite IH. by destruct (String.eqb _ _).
Qed.

Lemma under_self (d : string) : under d d = true.
Proof. unfold under. by rewrite String.eqb_refl. Qed.

Lemma under_join (d b : string) :
  d <> "" -> Str.startswith b "/" = false -> under d (Path.join d b) = true.
Proof.
  intros Hd Hb. unfold under, Path.join, dir_prefix. rewrite Hb.
  destruct (String.eqb_spec d "") as [|_]; [done|]. simpl.
  destruct (Str.endswith d "/").
  - by rewrite startswith_app, orb_true_r.
  - by rewrite <- str_app_assoc, startswith_app, orb_true_r.
Qed.

Lemma join_nonempty (a b : string) : a <> "" -> Path.join a b <> "".
Proof.
  intros Ha. unfold Path.join.
  destruct (Str.startswith b "/") eqn:Hb; [by destruct b|].
  destruct (String.eqb a "" || Str.endswith a "/"); destruct a; done || by rewrite str_app_cons.
Qed.

Lemma workspace_nonempty (E : env) : workspace E <> "".
Proof. by apply join_nonempty. Qed.

Lemma under_workspace (E : env) (b : string) :
  Str.startswith b "/" = false -> under (workspace E) (Path.join (workspace E) b) = true.
Proof. apply under_join, workspace_nonempty. Qed.

(** ** Rules for the two effect disciplines *)

Lemma cleanups_app_quiet (d : string) (l tr : list event) :
  Forall (fun e => is_cleanup e = false) l -> cleanups d (l ++ tr) = cleanups d tr.
Proof.
  induction 1 as [|e l He _ IH]; [done|]. by destruct e.
Qed.

Section EffectRules.
Context {A B : Type}.
Implicit Types (m : M A) (k : A -> M B) (h : exn -> M A).

Lemma no_cleanup_ret (a : A) : no_cleanup (ret a).
Proof. intros w. by exists []. Qed.

Lemma no_cleanup_raise (e : exn) : no_cleanup (@raise A e).
Proof. intros w. by exists []. Qed.

Lemma no_cleanup_bind m k :
  no_cleanup m -> (forall a, no_cleanup (k a)) -> no_cleanup (bind m k).
Proof.
  intros Hm Hk w. unfold bind. destruct (Hm w) as (l & Hl & Hq).
  destruct (m w) as [[a|e] w1]; simpl in *.
  - destruct (Hk a w1) as (l' & Hl' & Hq'). exists (l' ++ l).
    rewrite Hl', Hl, app_assoc. split; [done|]. by apply Forall_app.
  - by exists l.
Qed.

Lemma no_cleanup_try m h :
  no_cleanup m -> (forall e, no_cleanup (h e)) -> no_cleanup (try_except m h).
Proof.
  intros Hm Hh w. unfold try_except. destruct (Hm w) as (l & Hl & Hq).
  destruct (m w) as [[a|e] w1]; simpl in *.
  - by exists l.
  - destruct (Hh e w1) as (l' & Hl' & Hq'). exists (l' ++ l).
    rewrite Hl', Hl, app_assoc. split; [done|]. by apply Forall_app.
Qed.

Lemma raises_only_ret P (a : A) : raises_only P (ret a).
Proof. by intros w e w'. Qed.

Lemma raises_only_raise (P : exn -> Prop) (e : exn) : P e -> raises_only P (@raise A e).
Proof. intros He w e' w' [= <- _]. done. Qed.

Lemma raises_only_bind P m k :
  raises_only P m -> (forall a, raises_only P (k a)) -> raises_only P (bind m k).
Proof.
  intros Hm Hk w e w'. unfold bind. destruct (m w) as [[a|e1] w1] eqn:Hrun.
  - apply Hk.
  - intros [= <- <-]. by eapply Hm.
Qed.

Lemma raises_only_try P Q m h :
  raises_only Q m -> (forall e, Q e -> raises_only P (h e)) -> raises_only P (try_except m h).
Proof.
  intros Hm Hh w e w'. unfold try_except. destruct (m w) as [[a|e1] w1] eqn:Hrun; [done|].
  apply Hh. by eapply Hm.
Qed.

Lemma raises_only_weaken (P Q : exn -> Prop) m :
  (forall e, P e -> Q e) -> raises_only P m -> raises_only Q m.
Proof. intros HPQ Hm w e w' Hrun. eapply HPQ, Hm, Hrun. Qed.

End EffectRules.

Lemma total_raises_only {A} (P : exn -> Prop) (m : M A) : total m -> raises_only P m.
Proof. intros Hm w e w' Hrun. destruct (Hm w) as (a & w1 & Heq). congruence. Qed.

(** ** The primitives under the two disciplines *)

Lemma no_cleanup_silent {A} (m : M A) :
  (forall w, trace (m w).2 = trace w) -> no_cleanup m.
Proof. intros Hm w. exists []. by rewrite Hm. Qed.

Lemma no_cleanup_log lvl msg : no_cleanup (log lvl msg).
Proof. intros w. exists [Log lvl msg]. split; [done|]. by repeat constructor. Qed.

Lemma no_cleanup_path_exists p : no_cleanup (path_exists p).
Proof. by apply no_cleanup_silent. Qed.

Lemma no_cleanup_open_wb p : no_cleanup (open_wb p).
Proof. apply no_cleanup_silent. intros w. unfold open_wb. by destruct (fs w !! p) as [[]|]. Qed.

Lemma no_cleanup_file_write p d : no_cleanup (file_write p d).
Proof. apply no_cleanup_silent. intros w. unfold file_write. by destruct (fs w !! p) as [[]|]. Qed.

Lemma no_cleanup_os_remove p : no_cleanup (os_remove p).
Proof. apply no_cleanup_silent. intros w. unfold os_remove. by destruct (fs w !! p) as [[]|]. Qed.

Lemma no_cleanup_makedirs p : no_cleanup (makedirs p).
Proof. apply no_cleanup_silent. intros w. unfold makedirs. by destruct (fs w !! p) as [[]|]. Qed.

Lemma no_cleanup_getsize E p : no_cleanup (getsize E p).
Proof. apply no_cleanup_silent. intros w. unfold getsize. by destruct (fs w !! p) as [[]|]. Qed.

Lemma no_cleanup_zipf_write p n : no_cleanup (zipf_write p n).
Proof. apply no_cleanup_silent. intros w. unfold zipf_write. by destruct (fs w !! p) as [[]|]. Qed.

Lemma no_cleanup_requests_get E url : no_cleanup (requests_get E url).
Proof.
  intros w. exists [HttpGet url]. unfold requests_get.
  split; [by destruct (http_get E url)|]. by repeat constructor.
Qed.

Lemma no_cleanup_convert_from_path E p o : no_cleanup (convert_from_path E p o).
Proof.
  intros w. exists [Rasterize p o (fs w !! p)]. unfold convert_from_path.
  split; [by destruct (pdf2image E (fs w) p o) as [[]|[]]|]. by repeat constructor.
Qed.

Lemma no_cleanup_zip_close E z es : no_cleanup (zip_close E z es).
Proof.
  intros w. exists [Archive z es]. unfold zip_close, file_write.
  split; [|by repeat constructor].
  unfold bind. destruct (zip_encode E es) as [[msg residue]|b]; simpl;
    by destruct (fs w !! z) as [[]|].
Qed.

Lemma plain_path_exists p : raises_only plain (path_exists p).
Proof. by intros w e w'. Qed.

Lemma plain_log lvl msg : raises_only plain (log lvl msg).
Proof. by intros w e w'. Qed.

Lemma plain_open_wb p : raises_only plain (open_wb p).
Proof. intros w e w'. unfold open_wb. destruct (fs w !! p) as [[]|]; by intros [= <- _]. Qed.

Lemma plain_file_write p d : raises_only plain (file_write p d).
Proof. intros w e w'. unfold file_write. destruct (fs w !! p) as [[]|]; by intros [= <- _]. Qed.

Lemma plain_os_remove p : raises_only plain (os_remove p).
Proof. intros w e w'. unfold os_remove. destruct (fs w !! p) as [[]|]; by intros [= <- _]. Qed.

Lemma plain_makedirs p : raises_only plain (makedirs p).
Proof. intros w e w'. unfold makedirs. destruct (fs w !! p) as [[]|]; by intros [= <- _]. Qed.

Lemma plain_getsize E p : raises_only plain (getsize E p).
Proof. intros w e w'. unfold getsize. destruct (fs w !! p) as [[]|]; by intros [= <- _]. Qed.

Lemma plain_zipf_write p n : raises_only plain (zipf_write p n).
Proof. intros w e w'. unfold zipf_write. destruct (fs w !! p) as [[]|]; by intros [= <- _]. Qed.

Lemma plain_requests_get E url : raises_only plain (requests_get E url).
Proof. intros w e w'. unfold requests_get. destruct (http_get E url); by intros [= <- _]. Qed.

Lemma plain_raise_for_status r : raises_only plain (raise_for_status r).
Proof.
  unfold raise_for_status. destruct (_ && _); [by apply raises_only_raise|apply raises_only_ret].
Qed.

Lemma plain_convert_from_path E p o : raises_only plain (convert_from_path E p o).
Proof.
  intros w e w'. unfold convert_from_path.
  destruct (pdf2image E (fs w) p o) as [[]|[]]; by intros [= <- _].
Qed.

Lemma plain_zip_close E z es : raises_only plain (zip_close E z es).
Proof.
  intros w e w'. unfold zip_close. destruct (zip_encode E es) as [[msg residue]|b].
  - apply raises_only_bind; [apply plain_file_write|intros _; by apply raises_only_raise].
  - apply plain_file_write.
Qed.

Lemma plain_rmtree E d : raises_only plain (rmtree E d).
Proof.
  intros w e w'. unfold rmtree.
  destruct (fs w !! d) as [[]|]; [destruct (rmtree_fault E (fs w) d) as [[]|]|..];
    by intros [= <- _].
Qed.

Create HintDb effects discriminated.

#[local] Hint Resolve no_cleanup_log no_cleanup_path_exists no_cleanup_open_wb
  no_cleanup_file_write no_cleanup_os_remove no_cleanup_makedirs no_cleanup_getsize
  no_cleanup_zipf_write no_cleanup_requests_get no_cleanup_convert_from_path
  no_cleanup_zip_close plain_path_exists plain_log plain_open_wb plain_file_write
  plain_os_remove plain_makedirs plain_getsize plain_zipf_write plain_requests_get
  plain_raise_for_status plain_convert_from_path plain_zip_close plain_rmtree : effects.

(** One step of a derivation: follow the shape of the program. *)
Ltac effect_step :=
  lazymatch goal with
  | |- no_cleanup (bind _ _) => apply no_cleanup_bind; [|intros ?]
  | |- no_cleanup (try_except _ _) => apply no_cleanup_try; [|intros ?]
  | |- no_cleanup (ret _) => apply no_cleanup_ret
  | |- no_cleanup (raise _) => apply no_cleanup_raise
  | |- no_cleanup (if ?b then _ else _) => destruct b
  | |- no_cleanup (match ?x with _ => _ end) => destruct x
  | |- raises_only _ (bind _ _) => apply raises_only_bind; [|intros ?]
  | |- raises_only _ (ret _) => apply raises_only_ret
  | |- raises_only _ (raise _) => apply raises_only_raise; simpl; auto
  | |- raises_only _ (if ?b then _ else _) => destruct b
  | |- raises_only _ (match ?x with _ => _ end) => destruct x
  | |- raises_only plain _ => solve [eauto with effects]
  | |- raises_only _ _ =>
      solve [eauto with effects
            | eapply (raises_only_weaken plain); [by intros []|eauto with effects]]
  | |- no_cleanup _ => solve [eauto with effects]
  end.

Ltac effects := repeat effect_step.

Section Totality.
Context {A B : Type}.

Lemma total_ret (a : A) : total (ret a).
Proof. intros w. by exists a, w. Qed.

Lemma total_bind (m : M A) (k : A -> M B) :
  total m -> (forall a, total (k a)) -> total (bind m k).
Proof.
  intros Hm Hk w. unfold bind. destruct (Hm w) as (a & w1 & ->). apply Hk.
Qed.

Lemma total_try (m : M A) (h : exn -> M A) :
  (forall e, total (h e)) -> total (try_except m h).
Proof.
  intros Hh w. unfold try_except. destruct (m w) as [[a|e] w1]; [by exists a, w1|apply Hh].
Qed.

End Totality.

Lemma total_log lvl msg : total (log lvl msg).
Proof. intros w. by eexists _, _. Qed.

(** ** The functions of the service under the two disciplines *)

Section ServiceEffects.
Context (E : env).

Lemma no_cleanup_write_chunks p cs : no_cleanup (write_chunks p cs).
Proof. induction cs as [|c cs IH]; simpl; effects. Qed.

Lemma plain_write_chunks p cs : raises_only plain (write_chunks p cs).
Proof. induction cs as [|c cs IH]; simpl; effects. Qed.

#[local] Hint Resolve no_cleanup_write_chunks plain_write_chunks : effects.

Lemma no_cleanup_download url p : no_cleanup (download_pdf_from_url E url p).
Proof. unfold download_pdf_from_url, iter_content_into, raise_for_status. effects. Qed.

Lemma plain_download url p : raises_only plain (download_pdf_from_url E url p).
Proof.
  unfold download_pdf_from_url. eapply (raises_only_try _ (fun _ => True)); [done|].
  intros e _. effects.
Qed.

Lemma no_cleanup_save_pages o imgs i acc : no_cleanup (save_pages E o imgs i acc).
Proof.
  revert i acc. induction imgs as [|img imgs IH]; intros i acc; simpl; [effects|].
  unfold image_save, write_file. effects.
Qed.

#[local] Hint Resolve no_cleanup_save_pages : effects.

Lemma no_cleanup_convert p o : no_cleanup (convert_pdf_to_images E p o).
Proof. unfold convert_pdf_to_images. effects. Qed.

(** Nothing escapes [convert_pdf_to_images]. *)
Lemma total_convert p o : total (convert_pdf_to_images E p o).
Proof.
  unfold convert_pdf_to_images. apply total_try. intros e.
  apply total_bind; [apply total_log|]. intros _. apply total_ret.
Qed.

Lemma no_cleanup_zip_pages ps i acc : no_cleanup (zip_pages ps i acc).
Proof.
  revert i acc. induction ps as [|p ps IH]; intros i acc; simpl; effects.
Qed.

#[local] Hint Resolve no_cleanup_zip_pages : effects.

Lemma no_cleanup_create_zip ps z : no_cleanup (create_zip_file E ps z).
Proof. unfold create_zip_file. effects. Qed.

(** Nothing escapes [create_zip_file]. *)
Lemma total_create_zip ps z : total (create_zip_file E ps z).
Proof.
  unfold create_zip_file. apply total_try. intros e.
  apply total_bind; [apply total_log|]. intros _. apply total_ret.
Qed.

Lemma no_cleanup_missing_or_empty p : no_cleanup (missing_or_empty E p).
Proof. unfold missing_or_empty. effects. Qed.

Lemma try_block_missing_or_empty p : raises_only try_block_error (missing_or_empty E p).
Proof. unfold missing_or_empty. effects. Qed.

#[local] Hint Resolve no_cleanup_download no_cleanup_convert no_cleanup_create_zip
  no_cleanup_missing_or_empty try_block_missing_or_empty : effects.

Lemma try_block_convert P p o : raises_only P (convert_pdf_to_images E p o).
Proof. apply total_raises_only, total_convert. Qed.

Lemma try_block_create_zip P ps z : raises_only P (create_zip_file E ps z).
Proof. apply total_raises_only, total_create_zip. Qed.

Lemma try_block_download url p : raises_only try_block_error (download_pdf_from_url E url p).
Proof. eapply (raises_only_weaken plain); [by intros []|apply plain_download]. Qed.

#[local] Hint Resolve try_block_convert try_block_create_zip try_block_download : effects.

Lemma no_cleanup_verify_pdf p : no_cleanup (verify_pdf E p).
Proof. unfold verify_pdf. effects. Qed.

Lemma try_block_verify_pdf p : raises_only try_block_error (verify_pdf E p).
Proof. unfold verify_pdf. effects. Qed.

Lemma no_cleanup_rasterize_and_archive p t : no_cleanup (rasterize_and_archive E p t).
Proof. unfold rasterize_and_archive. effects. Qed.

Lemma server_error_rasterize_and_archive p t :
  raises_only server_error (rasterize_and_archive E p t).
Proof. unfold rasterize_and_archive, missing_or_empty. effects. Qed.

Lemma try_block_rasterize_and_archive p t :
  raises_only try_block_error (rasterize_and_archive E p t).
Proof.
  eapply raises_only_weaken; [|apply server_error_rasterize_and_archive].
  intros [s d|msg]; simpl; auto.
Qed.

Lemma no_cleanup_resolve_source pdf pdf_url t : no_cleanup (resolve_source E pdf pdf_url t).
Proof. unfold resolve_source, write_file. effects. Qed.

Lemma try_block_resolve_source pdf pdf_url t :
  raises_only try_block_error (resolve_source E pdf pdf_url t).
Proof. unfold resolve_source, write_file. effects. Qed.

End ServiceEffects.

(** ** Removing a tree *)

Lemma remove_tree_under d f p : under d p = true -> remove_tree d f !! p = None.
Proof.
  intros Hu. unfold remove_tree. apply map_lookup_filter_None. right.
  intros x _. simpl. by rewrite Hu.
Qed.

Lemma remove_tree_other d f p : under d p = false -> remove_tree d f !! p = f !! p.
Proof.
  intros Hu. unfold remove_tree. apply option_eq. intros x.
  rewrite map_lookup_filter_Some. simpl. tauto.
Qed.

(** The four runs of [cleanup_directory]. *)

Section CleanupRuns.
Context (E : env) (directory : string) (w : world).

Lemma cleanup_missing :
  fs w !! directory = None ->
  cleanup_directory E directory w = (Ret tt, emit (Cleanup directory) w).
Proof.
  intros Hd. unfold cleanup_directory, try_except, bind, path_exists. simpl. by rewrite Hd.
Qed.

Lemma cleanup_removed :
  fs w !! directory = Some Dir -> rmtree_fault E (fs w) directory = None ->
  cleanup_directory E directory w
    = (Ret tt, emit (Log INFO ("Directorio limpiado: " +:+ directory))
                 (set_fs (remove_tree directory (fs w)) (emit (Cleanup directory) w))).
Proof.
  intros Hd Hf. unfold cleanup_directory, try_except, bind, path_exists, rmtree. simpl.
  rewrite Hd. simpl. by rewrite Hd, Hf.
Qed.

Lemma cleanup_fault msg f :
  fs w !! directory = Some Dir -> rmtree_fault E (fs w) directory = Some (msg, f) ->
  cleanup_directory E directory w
    = (Ret tt, emit (cleanup_warning directory msg)
                 (set_fs f (emit (Cleanup directory) w))).
Proof.
  intros Hd Hf. unfold cleanup_directory, try_except, bind, path_exists, rmtree. simpl.
  rewrite Hd. simpl. by rewrite Hd, Hf.
Qed.

Lemma cleanup_not_a_directory b :
  fs w !! directory = Some (File b) ->
  cleanup_directory E directory w
    = (Ret tt, emit (cleanup_warning directory ("[Errno 20] Not a directory: " +:+ directory))
                 (emit (Cleanup directory) w)).
Proof.
  intros Hd. unfold cleanup_directory, try_except, bind, path_exists, rmtree. simpl.
  rewrite Hd. simpl. by rewrite Hd.
Qed.

End CleanupRuns.

(** ** Running the file-system primitives *)

Lemma dir_or_not (f : gmap string node) p : f !! p = Some Dir \/ f !! p <> Some Dir.
Proof. destruct (f !! p) as [[|d]|]; auto. Qed.

Lemma write_file_run p d w :
  fs w !! p <> Some Dir ->
  write_file p d w = (Ret tt, set_fs (<[p := File d]> (fs w)) w).
Proof.
  intros Hp. unfold write_file, bind, open_wb, file_write.
  destruct (fs w !! p) as [[|d0]|] eqn:Hl; [done|..]; simpl;
    by rewrite lookup_insert_eq, insert_insert_eq.
Qed.

Lemma write_file_dir p d w :
  fs w !! p = Some Dir -> exists e, write_file p d w = (Raise e, w).
Proof.
  intros Hp. unfold write_file, bind, open_wb. rewrite Hp. by eexists.
Qed.

Lemma page_name_no_root n : Str.startswith (page_name n) "/" = false.
Proof. reflexivity. Qed.

(** With a directory name that needs a separator, the page path is the
    directory, a slash and the page name. *)
Lemma page_path_slash o n :
  o <> "" -> Str.endswith o "/" = false -> page_path o n = o +:+ "/" +:+ page_name n.
Proof.
  intros Ho Hs. unfold page_path, Path.join. rewrite page_name_no_root, Hs.
  by destruct (String.eqb_spec o "").
Qed.

(** ** Stepping through a run *)

Section Steps.
Context {A B : Type}.

Lemma bind_ret_run (m : M A) (k : A -> M B) w a w1 :
  m w = (Ret a, w1) -> bind m k w = k a w1.
Proof. intros H. unfold bind. by rewrite H. Qed.

Lemma bind_raise_run (m : M A) (k : A -> M B) w e w1 :
  m w = (Raise e, w1) -> bind m k w = (Raise e, w1).
Proof. intros H. unfold bind. by rewrite H. Qed.

Lemma try_ret_run (m : M A) (h : exn -> M A) w a w1 :
  m w = (Ret a, w1) -> try_except m h w = (Ret a, w1).
Proof. intros H. unfold try_except. by rewrite H. Qed.

Lemma try_raise_run (m : M A) (h : exn -> M A) w e w1 :
  m w = (Raise e, w1) -> try_except m h w = h e w1.
Proof. intros H. unfold try_except. by rewrite H. Qed.

End Steps.

Lemma log_run lvl msg w : log lvl msg w = (Ret tt, emit (Log lvl msg) w).
Proof. reflexivity. Qed.
(** ** The page loop of [convert_pdf_to_images] *)

Section Pages.
Context (E : env) (o : string).

(** The loop either saves every page, returning the page paths in order and
    leaving a regular file at each, or stops at a page whose path is a
    directory. *)
Lemma save_pages_run imgs : forall i acc w,
  exists w',
    (save_pages E o imgs i acc w
       = (Ret (acc ++ map (page_path o) (seq (S i) (length imgs))), w') /\
     (forall n, i < n <= i + length imgs -> exists d, fs w' !! page_path o n = Some (File d)) /\
     (forall q d, fs w !! q = Some (File d) -> exists d', fs w' !! q = Some (File d'))) \/
    ((exists e, save_pages E o imgs i acc w = (Raise e, w')) /\
     exists n, i < n <= i + length imgs /\ fs w !! page_path o n = Some Dir).
Proof.
  induction imgs as [|img imgs IH]; intros i acc w; simpl.
  - exists w. left. rewrite app_nil_r. split; [done|]. split; [lia|eauto].
  - rewrite Nat.add_1_r. unfold image_save.
    destruct (dir_or_not (fs w) (page_path o (S i))) as [Hd|Hd].
    + destruct (write_file_dir _ (jpeg_encode E img) _ Hd) as [e He].
      exists w. right. split; [exists e; by rewrite (bind_raise_run _ _ _ _ _ He)|].
      exists (S i). split; [lia|done].
    + rewrite (bind_ret_run _ _ _ _ _ (write_file_run _ _ _ Hd)).
      rewrite (bind_ret_run _ _ _ _ _ (log_run _ _ _)).
      set (w1 := emit _ _).
      destruct (IH (S i) (acc ++ [page_path o (S i)]) w1) as (w' & [(Hrun & Hnew & Hold)|(Hrun & n & Hn & Hdir)]).
      * exists w'. left. rewrite Hrun, <- app_assoc. split; [done|]. split.
        -- intros n Hn. destruct (decide (n = S i)) as [->|Hne]; [|apply Hnew; lia].
           apply (Hold _ (jpeg_encode E img)). subst w1; simpl. apply lookup_insert_eq.
        -- intros q d Hq. destruct (decide (q = page_path o (S i))) as [->|Hne].
           ++ apply (Hold _ (jpeg_encode E img)). subst w1; simpl. apply lookup_insert_eq.
           ++ apply (Hold _ d). subst w1; simpl. by rewrite lookup_insert_ne.
      * exists w'. right. split; [done|]. exists n. split; [lia|].
        subst w1; simpl in Hdir.
        destruct (decide (page_path o (S i) = page_path o n)) as [Heq|Hne].
        -- by rewrite Heq, lookup_insert_eq in Hdir.
        -- by rewrite lookup_insert_ne in Hdir.
Qed.

(** A page path that is a directory stops the loop. *)
Lemma save_pages_blocked imgs : forall i acc w n,
  i < n <= i + length imgs -> fs w !! page_path o n = Some Dir ->
  exists e w', save_pages E o imgs i acc w = (Raise e, w').
Proof.
  induction imgs as [|img imgs IH]; intros i acc w n Hn Hdir; simpl in *; [lia|].
  rewrite Nat.add_1_r. unfold image_save.
  destruct (dir_or_not (fs w) (page_path o (S i))) as [Hd|Hd].
  - destruct (write_file_dir _ (jpeg_encode E img) _ Hd) as [e He].
    exists e, w. by rewrite (bind_raise_run _ _ _ _ _ He).
  - rewrite (bind_ret_run _ _ _ _ _ (write_file_run _ _ _ Hd)).
    rewrite (bind_ret_run _ _ _ _ _ (log_run _ _ _)).
    assert (Hne : page_path o (S i) <> page_path o n) by (intros Heq; by rewrite Heq in Hd).
    apply (IH (S i) _ _ n).
    + assert (n <> S i) by (intros ->; done). lia.
    + simpl. by rewrite lookup_insert_ne.
Qed.

End Pages.

(** ** [convert_pdf_to_images] *)

Section Convert.
Context (E : env) (pdf_path output_dir : string).

Lemma convert_from_path_ok w images f :
  pdf2image E (fs w) pdf_path output_dir = inr (images, f) ->
  convert_from_path E pdf_path output_dir w
    = (Ret images, set_fs f (emit (Rasterize pdf_path output_dir (fs w !! pdf_path)) w)).
Proof. intros H. unfold convert_from_path. by rewrite H. Qed.

Lemma convert_from_path_error w msg f :
  pdf2image E (fs w) pdf_path output_dir = inl (msg, f) ->
  convert_from_path E pdf_path output_dir w
    = (Raise (Exception msg),
       set_fs f (emit (Rasterize pdf_path output_dir (fs w !! pdf_path)) w)).
Proof. intros H. unfold convert_from_path. by rewrite H. Qed.

(** What [convert_pdf_to_images] returns once the rasterizer has produced
    its pages: every page path in order, each a regular file afterwards, or
    the empty list when a page could not be written because its path is a
    directory. *)
Lemma convert_after_rasterizer w images f :
  pdf2image E (fs w) pdf_path output_dir = inr (images, f) ->
  exists w',
    (convert_pdf_to_images E pdf_path output_dir w
       = (Ret (map (page_path output_dir) (seq 1 (length images))), w') /\
     forall n, 1 <= n <= length images ->
       exists d, fs w' !! page_path output_dir n = Some (File d)) \/
    (convert_pdf_to_images E pdf_path output_dir w = (Ret [], w') /\
     exists n, 1 <= n <= length images /\ f !! page_path output_dir n = Some Dir).
Proof.
  intros Hr. unfold convert_pdf_to_images.
  set (w0 := emit (Log INFO ("Convirtiendo PDF: " +:+ pdf_path)) w).
  assert (Hr0 : pdf2image E (fs w0) pdf_path output_dir = inr (images, f)) by done.
  pose proof (convert_from_path_ok w0 images f Hr0) as Hc.
  set (w1 := set_fs f _) in Hc.
  destruct (save_pages_run E output_dir images 0 [] w1)
    as (w2 & [(Hrun & Hnew & _)|([e Hrun] & n & Hn & Hdir)]).
  - eexists. left. split.
    + apply try_ret_run.
      rewrite (bind_ret_run _ _ _ _ _ (log_run _ _ _)).
      rewrite (bind_ret_run _ _ _ _ _ Hc).
      rewrite (bind_ret_run _ _ _ _ _ Hrun).
      rewrite (bind_ret_run _ _ _ _ _ (log_run _ _ _)). reflexivity.
    + intros n Hn. simpl. apply Hnew. lia.
  - eexists. right. split.
    + erewrite try_raise_run.
      2:{ rewrite (bind_ret_run _ _ _ _ _ (log_run _ _ _)).
          rewrite (bind_ret_run _ _ _ _ _ Hc).
          apply (bind_raise_run _ _ _ _ _ Hrun). }
      rewrite (bind_ret_run _ _ _ _ _ (log_run _ _ _)). reflexivity.
    + exists n. split; [lia|done].
Qed.

(** A page path that the rasterizer has left as a directory: the
    conversion returns the empty list. *)
Lemma convert_blocked w images f n :
  pdf2image E (fs w) pdf_path output_dir = inr (images, f) ->
  1 <= n <= length images -> f !! page_path output_dir n = Some Dir ->
  exists w', convert_pdf_to_images E pdf_path output_dir w = (Ret [], w').
Proof.
  intros Hr Hn Hdir. unfold convert_pdf_to_images.
  set (w0 := emit (Log INFO ("Convirtiendo PDF: " +:+ pdf_path)) w).
  assert (Hr0 : pdf2image E (fs w0) pdf_path output_dir = inr (images, f)) by done.
  pose proof (convert_from_path_ok w0 images f Hr0) as Hc.
  set (w1 := set_fs f _) in Hc.
  destruct (save_pages_blocked E output_dir images 0 [] w1 n) as (e & w2 & Hrun);
    [lia|done|].
  eexists. erewrite try_raise_run.
  2:{ rewrite (bind_ret_run _ _ _ _ _ (log_run _ _ _)).
      rewrite (bind_ret_run _ _ _ _ _ Hc).
      apply (bind_raise_run _ _ _ _ _ Hrun). }
  rewrite (bind_ret_run _ _ _ _ _ (log_run _ _ _)). reflexivity.
Qed.

End Convert.

(** ** [create_zip_file] *)

Lemma path_exists_run p w :
  path_exists p w = (Ret (bool_decide (is_Some (fs w !! p))), w).
Proof. reflexivity. Qed.

(** The archive loop never raises, leaves the file system alone and collects
    exactly [zip_listing]. *)
Lemma zip_pages_run ps : forall i acc w,
  exists w', zip_pages ps i acc w = (Ret (acc ++ zip_listing (fs w) ps i), w') /\
             fs w' = fs w /\ exists l, trace w' = l ++ trace w.
Proof.
  induction ps as [|p ps IH]; intros i acc w; simpl.
  - exists w. rewrite app_nil_r. split; [done|]. split; [done|]. by exists [].
  - rewrite (bind_ret_run _ _ _ _ _ (path_exists_run _ _)).
    destruct (fs w !! p) as [[|d]|] eqn:Hp; simpl.
    + unfold zipf_write at 1. unfold bind at 1. rewrite Hp.
      rewrite (bind_ret_run _ _ _ _ _ (log_run _ _ _)).
      destruct (IH (S i) (acc ++ [ZipEntry (page_name (i + 1) +:+ "/") []])
                  (emit (Log INFO ("Agregado al ZIP: " +:+ page_name (i + 1))) w))
        as (w' & Hrun & Hfs & l & Hl).
      exists w'. rewrite Hrun, <- app_assoc. split; [done|]. split; [done|].
      exists (l ++ [Log INFO ("Agregado al ZIP: " +:+ page_name (i + 1))]).
      by rewrite Hl, <- app_assoc.
    + unfold zipf_write at 1. unfold bind at 1. rewrite Hp.
      rewrite (bind_ret_run _ _ _ _ _ (log_run _ _ _)).
      destruct (IH (S i) (acc ++ [ZipEntry (page_name (i + 1)) d])
                  (emit (Log INFO ("Agregado al ZIP: " +:+ page_name (i + 1))) w))
        as (w' & Hrun & Hfs & l & Hl).
      exists w'. rewrite Hrun, <- app_assoc. split; [done|]. split; [done|].
      exists (l ++ [Log INFO ("Agregado al ZIP: " +:+ page_name (i + 1))]).
      by rewrite Hl, <- app_assoc.
    + apply IH.
Qed.

Section Zip.
Context (E : env) (image_paths : list string) (zip_path : string).

Lemma open_wb_ok w :
  fs w !! zip_path <> Some Dir ->
  open_wb zip_path w = (Ret tt, set_fs (<[zip_path := File []]> (fs w)) w).
Proof. intros H. unfold open_wb. by destruct (fs w !! zip_path) as [[|d]|]. Qed.

Lemma getsize_file p d w : fs w !! p = Some (File d) -> getsize E p w = (Ret (length d), w).
Proof. intros H. unfold getsize. by rewrite H. Qed.

(** The run of [create_zip_file] when the archive can be opened: the codec
    receives [zip_listing], and the function answers whether the bytes it
    produced are non-empty. *)
Lemma create_zip_file_opened w :
  fs w !! zip_path <> Some Dir ->
  let es := zip_listing (<[zip_path := File []]> (fs w)) image_paths 0 in
  exists ok w',
    create_zip_file E image_paths zip_path w = (Ret ok, w') /\
    In (Archive zip_path es) (trace w') /\
    (exists l, trace w' = l ++ trace w) /\
    match zip_encode E es with
    | inl (_, residue) => ok = false /\ fs w' = <[zip_path := File residue]> (fs w)
    | inr b => ok = negb (is_empty b) /\ fs w' = <[zip_path := File b]> (fs w)
    end.
Proof.
  intros Hnd es. unfold create_zip_file.
  set (w0 := emit (Log INFO ("Creando ZIP: " +:+ zip_path)) w).
  assert (Hopen := open_wb_ok w0 Hnd). set (w1 := set_fs _ w0) in Hopen.
  destruct (zip_pages_run image_paths 0 [] w1) as (w2 & Hloop & Hfs2 & l2 & Hl2).
  simpl in Hloop. fold es in Hloop.
  assert (Hz2 : fs w2 !! zip_path = Some (File [])).
  { rewrite Hfs2. apply lookup_insert_eq. }
  destruct (zip_encode E es) as [[msg residue]|b] eqn:Henc.
  - (* the codec fails *)
    assert (Hclose : zip_close E zip_path es w2
                     = (Raise (Exception msg),
                        set_fs (<[zip_path := File residue]> (fs w2))
                          (emit (Archive zip_path es) w2))).
    { unfold zip_close, file_write, bind. rewrite Henc. simpl. by rewrite Hz2. }
    eexists false, _. split.
    { erewrite try_raise_run.
      2:{ rewrite (bind_ret_run _ _ _ _ _ (log_run _ _ _)).
          rewrite (bind_ret_run _ _ _ _ _ Hopen).
          rewrite (bind_ret_run _ _ _ _ _ Hloop).
          apply (bind_raise_run _ _ _ _ _ Hclose). }
      rewrite (bind_ret_run _ _ _ _ _ (log_run _ _ _)). reflexivity. }
    simpl. split; [by right; left|]. split; [|split; [done|rewrite Hfs2; simpl; apply insert_insert_eq]].
    eexists (_ :: _ :: l2 ++ [_]). rewrite Hl2. simpl. by rewrite <- app_assoc.
  - (* the codec answers [b] *)
    assert (Hclose : zip_close E zip_path es w2
                     = (Ret tt, set_fs (<[zip_path := File b]> (fs w2))
                                       (emit (Archive zip_path es) w2))).
    { unfold zip_close, file_write. rewrite Henc. simpl. by rewrite Hz2. }
    set (w3 := set_fs _ _) in Hclose.
    assert (Hz3 : fs w3 !! zip_path = Some (File b)) by apply lookup_insert_eq.
    assert (Hfs3 : fs w3 = <[zip_path := File b]> (fs w)).
    { subst w3; simpl. rewrite Hfs2. simpl. apply insert_insert_eq. }
    assert (Hl3 : exists l, trace w3 = l ++ trace w /\ In (Archive zip_path es) l).
    { exists (Archive zip_path es :: l2 ++ [Log INFO ("Creando ZIP: " +:+ zip_path)]).
      subst w3; simpl. rewrite Hl2. simpl. rewrite <- app_assoc. split; [done|by left]. }
    destruct Hl3 as (l3 & Hl3 & Hin3). clearbody w3.
    assert (Hex : path_exists zip_path w3 = (Ret true, w3)).
    { rewrite path_exists_run, Hz3. done. }
    destruct b as [|b0 b].
    + exists false. eexists. split.
      { apply try_ret_run.
        rewrite (bind_ret_run _ _ _ _ _ (log_run _ _ _)).
        rewrite (bind_ret_run _ _ _ _ _ Hopen).
        rewrite (bind_ret_run _ _ _ _ _ Hloop).
        rewrite (bind_ret_run _ _ _ _ _ Hclose).
        rewrite (bind_ret_run _ _ _ _ _ Hex).
        erewrite (bind_ret_run (bind _ _)).
        2:{ rewrite (bind_ret_run _ _ _ _ _ (getsize_file _ _ _ Hz3)). reflexivity. }
        simpl. rewrite (bind_ret_run _ _ _ _ _ (log_run _ _ _)). reflexivity. }
      simpl. rewrite Hl3. split; [right; apply in_or_app; by left|].
      split; [by eexists (_ :: _)|done].
    + exists true. eexists. split.
      { apply try_ret_run.
        rewrite (bind_ret_run _ _ _ _ _ (log_run _ _ _)).
        rewrite (bind_ret_run _ _ _ _ _ Hopen).
        rewrite (bind_ret_run _ _ _ _ _ Hloop).
        rewrite (bind_ret_run _ _ _ _ _ Hclose).
        rewrite (bind_ret_run _ _ _ _ _ Hex).
        erewrite (bind_ret_run (bind _ _)).
        2:{ rewrite (bind_ret_run _ _ _ _ _ (getsize_file _ _ _ Hz3)). reflexivity. }
        simpl. rewrite (bind_ret_run _ _ _ _ _ (getsize_file _ _ _ Hz3)).
        rewrite (bind_ret_run _ _ _ _ _ (log_run _ _ _)). reflexivity. }
      simpl. rewrite Hl3. split; [right; apply in_or_app; by left|].
      split; [by eexists (_ :: _)|done].
Qed.

(** When the archive path is a directory the archive cannot be opened:
    the error is absorbed and the answer is [false]. *)
Lemma create_zip_file_blocked w :
  fs w !! zip_path = Some Dir ->
  exists w', create_zip_file E image_paths zip_path w = (Ret false, w') /\ fs w' = fs w.
Proof.
  intros Hd. unfold create_zip_file.
  set (w0 := emit (Log INFO ("Creando ZIP: " +:+ zip_path)) w).
  assert (Hopen : exists e, open_wb zip_path w0 = (Raise e, w0)).
  { unfold open_wb. simpl. rewrite Hd. by eexists. }
  destruct Hopen as [e Hopen].
  eexists. split.
  - erewrite try_raise_run.
    2:{ rewrite (bind_ret_run _ _ _ _ _ (log_run _ _ _)).
        apply (bind_raise_run _ _ _ _ _ Hopen). }
    rewrite (bind_ret_run _ _ _ _ _ (log_run _ _ _)). reflexivity.
  - done.
Qed.

End Zip.

(** ** Page names *)

Lemma contains_slash_cons c s :
  Str.contains (String c s) "/" = Ascii.eqb "/" c || Str.contains s "/".
Proof.
  cbn [Str.contains Str.startswith]. destruct (Ascii.eqb "/" c); [by destruct s|done].
Qed.

Lemma contains_slash_app s t :
  Str.contains (s +:+ t) "/" = Str.contains s "/" || Str.contains t "/".
Proof.
  induction s as [|c s IH]; [done|].
  rewrite str_app_cons, !contains_slash_cons, IH. by rewrite orb_assoc.
Qed.

Lemma zeros_no_slash n : Str.contains (Str.zeros n) "/" = false.
Proof. induction n as [|n IH]; [done|]. simpl Str.zeros. by rewrite contains_slash_cons, IH. Qed.

Lemma uint_no_slash d : Str.contains (NilEmpty.string_of_uint d) "/" = false.
Proof.
  induction d as [|d IH|d IH|d IH|d IH|d IH|d IH|d IH|d IH|d IH|d IH];
    [done|simpl NilEmpty.string_of_uint; by rewrite contains_slash_cons, IH..].
Qed.

Lemma of_nat_no_slash n : Str.contains (Str.of_nat n) "/" = false.
Proof.
  unfold Str.of_nat, NilZero.string_of_uint.
  destruct (Nat.to_uint n) eqn:Hn; [done|rewrite <- Hn; apply uint_no_slash..].
Qed.

Lemma page_name_no_slash n : Str.contains (page_name n) "/" = false.
Proof.
  unfold page_name, Str.format_0d.
  by rewrite !contains_slash_app, zeros_no_slash, of_nat_no_slash.
Qed.

Lemma basename_no_slash s : Str.contains s "/" = false -> Path.basename s = s.
Proof.
  destruct s as [|c s]; [done|]. rewrite contains_slash_cons.
  intros [Hc Hs]%orb_false_iff. cbn [Path.basename]. rewrite Hs.
  rewrite Ascii.eqb_sym in Hc. by rewrite Hc.
Qed.

(** A page name is a base filename: it has no directory component. *)
Lemma page_name_basename n : Path.basename (page_name n) = page_name n.
Proof. apply basename_no_slash, page_name_no_slash. Qed.

Example page_name_1 : page_name 1 = "page_001.jpg".
Proof. reflexivity. Qed.

Example page_name_12 : page_name 12 = "page_012.jpg".
Proof. reflexivity. Qed.

Example page_name_1000 : page_name 1000 = "page_1000.jpg".
Proof. reflexivity. Qed.

(** Over regular files the archive loop names the entries by position,
    without gaps. *)
Lemma zip_listing_files (f : gmap string node) ps : forall i,
  Forall (fun p => exists d, f !! p = Some (File d)) ps ->
  map arcname (zip_listing f ps i) = map page_name (seq (S i) (length ps)).
Proof.
  induction ps as [|p ps IH]; intros i Hall; [done|].
  apply Forall_cons in Hall as [[d Hp] Hall]. simpl. rewrite Hp. simpl.
  by rewrite Nat.add_1_r, IH.
Qed.


Lemma zip_listing_missing (f : gmap string node) p ps i :
  f !! p = None -> zip_listing f (p :: ps) i = zip_listing f ps (S i).
Proof. intros Hp. simpl. by rewrite Hp. Qed.

(** ** Rasterize, then archive *)

Lemma missing_or_empty_file E p d w :
  fs w !! p = Some (File d) -> missing_or_empty E p w = (Ret (length d =? 0), w).
Proof.
  intros Hp. unfold missing_or_empty.
  rewrite (bind_ret_run _ _ _ _ _ (path_exists_run _ _)), Hp. simpl.
  by rewrite (bind_ret_run _ _ _ _ _ (getsize_file E _ _ _ Hp)).
Qed.

Section Pipeline.
Context (E : env) (pdf_path temp_dir : string).

Local Abbreviation zip_path := (Path.join temp_dir "images.zip").

(** A run of the block that ends with a response: the rasterizer produced at
    least one page, the archive served is a non-empty file, it is what the
    codec made of the entries recorded in the trace, and these are named
    [page_name 1], ..., [page_name N] in this order. *)
Lemma rasterize_and_archive_ret w r w' images f :
  pdf2image E (fs w) pdf_path temp_dir = inr (images, f) ->
  rasterize_and_archive E pdf_path temp_dir w = (Ret r, w') ->
  fr_path r = zip_path /\
  fr_background r = cleanup_directory E temp_dir /\
  images <> [] /\
  exists es b,
    map arcname es = map page_name (seq 1 (length images)) /\
    In (Archive zip_path es) (trace w') /\
    zip_encode E es = inr b /\ b <> [] /\
    fs w' !! zip_path = Some (File b).
Proof.
  intros Hr Hrun. unfold rasterize_and_archive in Hrun.
  destruct (convert_after_rasterizer E pdf_path temp_dir w images f Hr)
    as (w1 & [[Hc Hfiles]|[Hc _]]);
    rewrite (bind_ret_run _ _ _ _ _ Hc) in Hrun; [|done].
  destruct images as [|img images]; [done|].
  set (n := length (img :: images)) in *.
  set (paths := map (page_path temp_dir) (seq 1 n)) in *.
  change (is_empty paths) with false in Hrun. cbv iota in Hrun.
  destruct (dir_or_not (fs w1) zip_path) as [Hd|Hnd].
  { destruct (create_zip_file_blocked E paths zip_path w1 Hd) as (w2 & Hz & _).
    by rewrite (bind_ret_run _ _ _ _ _ Hz) in Hrun. }
  destruct (create_zip_file_opened E paths zip_path w1 Hnd)
    as (ok & w2 & Hz & Hin & [l2 Hl2] & Henc).
  rewrite (bind_ret_run _ _ _ _ _ Hz) in Hrun.
  set (es := zip_listing _ paths 0) in *.
  destruct (zip_encode E es) as [[msg residue]|b] eqn:He; destruct Henc as [-> Hfs2]; [done|].
  destruct b as [|b0 b]; [done|]. cbn [negb is_empty] in Hrun.
  assert (Hz2 : fs w2 !! zip_path = Some (File (b0 :: b))).
  { rewrite Hfs2. apply lookup_insert_eq. }
  rewrite (bind_ret_run _ _ _ _ _ (missing_or_empty_file E _ _ _ Hz2)) in Hrun.
  simpl in Hrun.
  rewrite (bind_ret_run _ _ _ _ _ (getsize_file E _ _ _ Hz2)) in Hrun.
  rewrite (bind_ret_run _ _ _ _ _ (log_run _ _ _)) in Hrun.
  injection Hrun as <- <-. simpl.
  split; [done|]. split; [done|]. split; [done|].
  exists es, (b0 :: b). split; [|by auto].
  subst es. rewrite zip_listing_files; [by subst paths; rewrite length_map, length_seq|].
  apply Forall_forall. intros p Hp. subst paths.
  apply list_elem_of_In, in_map_iff in Hp as (k & <- & Hk). apply in_seq in Hk.
  destruct (decide (zip_path = page_path temp_dir k)) as [<-|Hne].
  - exists []. apply lookup_insert_eq.
  - rewrite lookup_insert_ne by done. apply Hfiles. lia.
Qed.

End Pipeline.

(** ** The handler: workspace, guarded block, cleanup *)

Lemma makedirs_run p w :
  (forall d, fs w !! p <> Some (File d)) ->
  exists w1, makedirs p w = (Ret tt, w1) /\ fs w1 !! p = Some Dir /\
             trace w1 = trace w /\ (forall q, q <> p -> fs w1 !! q = fs w !! q).
Proof.
  intros Hp. unfold makedirs. destruct (fs w !! p) as [[|d]|] eqn:Hl.
  - by exists w.
  - by destruct (Hp d).
  - eexists. split; [done|]. simpl. split; [apply lookup_insert_eq|]. split; [done|].
    intros q Hq. by apply lookup_insert_ne.
Qed.

Lemma makedirs_blocked p d w :
  fs w !! p = Some (File d) -> exists msg, makedirs p w = (Raise (Exception msg), w).
Proof. intros Hp. unfold makedirs. rewrite Hp. by eexists. Qed.

Lemma bind_ret_inv {A B} (m : M A) (k : A -> M B) w b w' :
  bind m k w = (Ret b, w') -> exists a w1, m w = (Ret a, w1) /\ k a w1 = (Ret b, w').
Proof. unfold bind. destruct (m w) as [[a|e] w1]; [by exists a, w1|done]. Qed.

Section Guard.
Context (E : env).

(** [cleanup_directory] always returns. *)
Lemma cleanup_total d w : exists w', cleanup_directory E d w = (Ret tt, w').
Proof.
  destruct (fs w !! d) as [[|b]|] eqn:Hd.
  - destruct (rmtree_fault E (fs w) d) as [[msg f]|] eqn:Hf.
    + rewrite (cleanup_fault E d w msg f Hd Hf). by eexists.
    + rewrite (cleanup_removed E d w Hd Hf). by eexists.
  - rewrite (cleanup_not_a_directory E d w b Hd). by eexists.
  - rewrite (cleanup_missing E d w Hd). by eexists.
Qed.

(** One invocation of [cleanup_directory] is counted once, and afterwards
    the directory is gone unless the removal failed and was logged. *)
Lemma cleanup_outcome d w w' :
  cleanup_directory E d w = (Ret tt, w') ->
  cleanups d (trace w') = S (cleanups d (trace w)) /\
  (fs w' !! d = None \/ exists msg, head (trace w') = Some (cleanup_warning d msg)).
Proof.
  destruct (fs w !! d) as [[|b]|] eqn:Hd.
  - destruct (rmtree_fault E (fs w) d) as [[msg f]|] eqn:Hf.
    + rewrite (cleanup_fault E d w msg f Hd Hf). intros [= <-]. simpl.
      rewrite String.eqb_refl. split; [done|]. right. by exists msg.
    + rewrite (cleanup_removed E d w Hd Hf). intros [= <-]. simpl.
      rewrite String.eqb_refl. split; [done|]. left. apply remove_tree_under, under_self.
  - rewrite (cleanup_not_a_directory E d w b Hd). intros [= <-]. simpl.
    rewrite String.eqb_refl. split; [done|]. right. by eexists.
  - rewrite (cleanup_missing E d w Hd). intros [= <-]. simpl.
    rewrite String.eqb_refl. by auto.
Qed.

(** The [except] clauses: the error goes out as an [HTTPException] whose
    status is [error_status], and the last thing done before is the
    cleanup. *)
Lemma on_error_run d e w :
  exists detail w0 w',
    on_error E d e w = (Raise (HTTPException (error_status e) detail), w') /\
    cleanups d (trace w0) = cleanups d (trace w) /\
    cleanup_directory E d w0 = (Ret tt, w').
Proof.
  destruct e as [s detail|msg]; simpl.
  - destruct (cleanup_total d w) as (w' & Hrun).
    exists detail, w, w'. by rewrite (bind_ret_run _ _ _ _ _ Hrun).
  - destruct (cleanup_total d (emit (Log ERROR ("Error inesperado: " +:+ msg)) w))
      as (w' & Hrun).
    exists ("Error interno del servidor: " +:+ msg),
      (emit (Log ERROR ("Error inesperado: " +:+ msg)) w), w'.
    rewrite (bind_ret_run _ _ _ _ _ (log_run _ _ _)).
    by rewrite (bind_ret_run _ _ _ _ _ Hrun).
Qed.

Lemma convert_rasterizer_error pdf_path output_dir w msg f :
  pdf2image E (fs w) pdf_path output_dir = inl (msg, f) ->
  exists w', convert_pdf_to_images E pdf_path output_dir w = (Ret [], w').
Proof.
  intros Hr. unfold convert_pdf_to_images.
  set (w0 := emit (Log INFO ("Convirtiendo PDF: " +:+ pdf_path)) w).
  assert (Hr0 : pdf2image E (fs w0) pdf_path output_dir = inl (msg, f)) by done.
  eexists. erewrite try_raise_run.
  2:{ rewrite (bind_ret_run _ _ _ _ _ (log_run _ _ _)).
      apply (bind_raise_run _ _ _ _ _ (convert_from_path_error E _ _ w0 msg f Hr0)). }
  rewrite (bind_ret_run _ _ _ _ _ (log_run _ _ _)). reflexivity.
Qed.

(** A response of the block carries the cleanup of its directory as
    background, and points at a non-empty archive. *)
Lemma rasterize_and_archive_served pdf_path d w r w' :
  rasterize_and_archive E pdf_path d w = (Ret r, w') ->
  fr_background r = cleanup_directory E d /\
  exists b, b <> [] /\ fs w' !! fr_path r = Some (File b).
Proof.
  intros Hrun. destruct (pdf2image E (fs w) pdf_path d) as [[msg f]|[images f]] eqn:Hr.
  - destruct (convert_rasterizer_error pdf_path d w msg f Hr) as (w1 & Hc).
    unfold rasterize_and_archive in Hrun.
    by rewrite (bind_ret_run _ _ _ _ _ Hc) in Hrun.
  - destruct (rasterize_and_archive_ret E pdf_path d w r w' images f Hr Hrun)
      as (Hp & Hb & _ & es & b & _ & _ & _ & Hne & Hf).
    split; [done|]. exists b. by rewrite Hp.
Qed.

(** The guarded block of the handler, from the moment the workspace
    exists: a response carries the cleanup as its background and no cleanup
    has run yet; an error leaves through [on_error], right after the one
    cleanup. *)
Lemma guarded_block_cleans pdf pdf_url w1 :
  let d := workspace E in
  let block := (pdf_path <- resolve_source E pdf pdf_url d ;;
                verify_pdf E pdf_path ;;
                rasterize_and_archive E pdf_path d) in
  match try_except block (on_error E d) w1 with
  | (Ret r, w2) =>
      fr_background r = cleanup_directory E d /\
      cleanups d (trace w2) = cleanups d (trace w1) /\
      exists b, b <> [] /\ fs w2 !! fr_path r = Some (File b)
  | (Raise e, w2) =>
      (exists s detail, e = HTTPException s detail /\ (s = 400 \/ s = 500)) /\
      exists w0, cleanups d (trace w0) = cleanups d (trace w1) /\
                 cleanup_directory E d w0 = (Ret tt, w2)
  end.
Proof.
  intros d block.
  assert (Hquiet : no_cleanup block).
  { subst block. apply no_cleanup_bind; [apply no_cleanup_resolve_source|].
    intros p. apply no_cleanup_bind; [apply no_cleanup_verify_pdf|].
    intros _. apply no_cleanup_rasterize_and_archive. }
  assert (Hraise : raises_only try_block_error block).
  { subst block. apply raises_only_bind; [apply try_block_resolve_source|].
    intros p. apply raises_only_bind; [apply try_block_verify_pdf|].
    intros _. apply try_block_rasterize_and_archive. }
  destruct (Hquiet w1) as (l & Hl & Hq).
  destruct (block w1) as [[r|e] w2] eqn:Hrun; simpl in Hl.
  - rewrite (try_ret_run _ _ _ _ _ Hrun).
    subst block. apply bind_ret_inv in Hrun as (p & wa & _ & Hrun).
    apply bind_ret_inv in Hrun as ([] & wb & _ & Hrun).
    destruct (rasterize_and_archive_served p d wb r w2 Hrun) as [Hb Hfile].
    split; [done|]. split; [|done]. by rewrite Hl, cleanups_app_quiet.
  - rewrite (try_raise_run _ _ _ _ _ Hrun).
    destruct (on_error_run d e w2) as (detail & w0 & w3 & -> & Hn & Hc).
    split.
    + exists (error_status e), detail. split; [done|].
      specialize (Hraise w1 e w2 Hrun). destruct e as [s ?|?]; simpl in *; auto.
    + exists w0. split; [|done]. by rewrite Hn, Hl, cleanups_app_quiet.
Qed.

End Guard.

(** ** The route *)

(** With exactly one source the handler is the guarded block run after
    [os.makedirs]. *)
Lemma convert_pdf_one_source E pdf pdf_url :
  one_source pdf pdf_url = true ->
  convert_pdf E pdf pdf_url =
    (makedirs (workspace E) ;;
     try_except
       (pdf_path <- resolve_source E pdf pdf_url (workspace E) ;;
        verify_pdf E pdf_path ;;
        rasterize_and_archive E pdf_path (workspace E))
       (on_error E (workspace E))).
Proof.
  unfold one_source, convert_pdf.
  by destruct (truthy_pdf pdf), (truthy_url pdf_url).
Qed.

(** Without exactly one source the handler raises 422 at once. *)
Lemma post_convert_rejected E pdf pdf_url w :
  one_source pdf pdf_url = false ->
  post_convert E pdf pdf_url w
    = (Failure 422 (if truthy_pdf pdf then both_detail else neither_detail), w).
Proof.
  unfold one_source, post_convert, convert_pdf.
  by destruct (truthy_pdf pdf), (truthy_url pdf_url).
Qed.

(** With exactly one source the status is 200, 400 or 500. *)
Lemma post_convert_status E pdf pdf_url w :
  one_source pdf pdf_url = true ->
  let s := status_of (post_convert E pdf pdf_url w).1 in s = 200 \/ s = 400 \/ s = 500.
Proof.
  intros Hone. unfold post_convert. rewrite (convert_pdf_one_source E _ _ Hone).
  destruct (fs w !! workspace E) as [[|d]|] eqn:Hw.
  2:{ destruct (makedirs_blocked _ _ _ Hw) as [msg Hmk].
      rewrite (bind_raise_run _ _ _ _ _ Hmk). simpl. auto. }
  all: destruct (makedirs_run (workspace E) w) as (w1 & Hmk & _);
    [by rewrite Hw|rewrite (bind_ret_run _ _ _ _ _ Hmk)];
    pose proof (guarded_block_cleans E pdf pdf_url w1) as Hg; simpl in Hg;
    destruct (try_except _ _ w1) as [[r|e] w2]; simpl; auto;
    destruct Hg as [(s & detail & -> & Hs) _]; simpl; tauto.
Qed.

(** ** The upload path *)

Lemma str_length_app (s t : string) :
  String.length (s +:+ t) = String.length s + String.length t.
Proof. induction s as [|c s IH]; [done|]. rewrite str_app_cons. simpl. by rewrite IH. Qed.

Lemma join_input_neq (d : string) : Path.join d "input.pdf" <> d.
Proof.
  unfold Path.join. simpl Str.startswith. cbv iota.
  intros H. apply (f_equal String.length) in H.
  destruct (String.eqb d "" || Str.endswith d "/");
    rewrite ?str_length_app in H; simpl in H; lia.
Qed.

Lemma makedirs_fresh p w :
  fs w !! p = None -> makedirs p w = (Ret tt, set_fs (<[p := Dir]> (fs w)) w).
Proof. intros Hp. unfold makedirs. by rewrite Hp. Qed.

Lemma try_bind_ret_run {A B} (m : M A) (k : A -> M B) (h : exn -> M B) w a w1 :
  m w = (Ret a, w1) -> try_except (bind m k) h w = try_except (k a) h w1.
Proof. intros H. unfold try_except. by rewrite (bind_ret_run _ _ _ _ _ H). Qed.

Lemma try_bind_raise_run {A B} (m : M A) (k : A -> M B) (h : exn -> M B) w e w1 :
  m w = (Raise e, w1) -> try_except (bind m k) h w = h e w1.
Proof. intros H. apply try_raise_run. by apply bind_raise_run. Qed.

Section Upload.
Context (E : env) (upload : UploadFile) (pdf_url : option string).
Hypothesis no_url : truthy_url pdf_url = false.

Local Abbreviation d := (workspace E).
Local Abbreviation pdf_path := (Path.join (workspace E) "input.pdf").
Local Abbreviation is_pdf := (Str.endswith (Str.lower (filename upload)) ".pdf").
Local Abbreviation logged w := (emit (Log INFO ("Procesando archivo: " +:+ filename upload)) w).

Lemma resolve_upload_bad_name w :
  is_pdf = false ->
  resolve_source E (Some upload) pdf_url d w
    = (Raise (HTTPException 400 "El archivo debe ser PDF"), logged w).
Proof.
  intros Hp. unfold resolve_source. rewrite no_url.
  rewrite (bind_ret_run _ _ _ _ _ (log_run _ _ _)). by rewrite Hp.
Qed.

Lemma resolve_upload_empty w :
  is_pdf = true -> file upload = [] ->
  resolve_source E (Some upload) pdf_url d w
    = (Raise (HTTPException 400 "El archivo PDF está vacío"), logged w).
Proof.
  intros Hp Hc. unfold resolve_source. rewrite no_url.
  rewrite (bind_ret_run _ _ _ _ _ (log_run _ _ _)). by rewrite Hp, Hc.
Qed.

Lemma resolve_upload_stored w :
  is_pdf = true -> file upload <> [] -> fs w !! pdf_path <> Some Dir ->
  resolve_source E (Some upload) pdf_url d w
    = (Ret pdf_path, set_fs (<[pdf_path := File (file upload)]> (fs w)) (logged w)).
Proof.
  intros Hp Hc Hnd. unfold resolve_source. rewrite no_url.
  rewrite (bind_ret_run _ _ _ _ _ (log_run _ _ _)). rewrite Hp. simpl.
  destruct (file upload) as [|b0 b] eqn:Hf; [done|]. simpl.
  by rewrite (bind_ret_run _ _ _ _ _ (write_file_run pdf_path (b0 :: b) (logged w) Hnd)).
Qed.

(** Whatever the guarded remainder does after a stored upload, its status is
    200 or 500. *)
Lemma remainder_status p w :
  match try_except (rasterize_and_archive E p d) (on_error E d) w with
  | (Ret _, _) => True
  | (Raise e, _) => exists detail, e = HTTPException 500 detail
  end.
Proof.
  destruct (rasterize_and_archive E p d w) as [[r|e] w1] eqn:Hrun.
  - by rewrite (try_ret_run _ _ _ _ _ Hrun).
  - rewrite (try_raise_run _ _ _ _ _ Hrun).
    destruct (on_error_run E d e w1) as (detail & w0 & w2 & -> & _).
    exists detail. f_equal.
    pose proof (server_error_rasterize_and_archive E p d w e w1 Hrun) as He.
    by destruct e.
Qed.

End Upload.

(** ** [download_pdf_from_url] *)

Lemma ret_run {A} (a : A) w : ret a w = (Ret a, w).
Proof. reflexivity. Qed.

Lemma if_log_run (c : bool) lvl msg w :
  exists w', (if c then log lvl msg else ret tt) w = (Ret tt, w') /\ fs w' = fs w.
Proof. destruct c; by eexists. Qed.

(** The chunk loop appends every chunk to the open file and never raises. *)
Lemma write_chunks_run p cs : forall d w,
  fs w !! p = Some (File d) ->
  exists w', write_chunks p cs w = (Ret tt, w') /\
             fs w' = <[p := File (d ++ concat cs)]> (fs w).
Proof.
  induction cs as [|c cs IH]; intros d w Hp; simpl.
  - exists w. split; [done|]. by rewrite app_nil_r, insert_id.
  - destruct c as [|c0 c]; simpl.
    + rewrite (bind_ret_run _ _ _ _ _ (ret_run _ _)). apply (IH d w Hp).
    + assert (Hw : file_write p (c0 :: c) w
                   = (Ret tt, set_fs (<[p := File (d ++ c0 :: c)]> (fs w)) w)).
      { unfold file_write. by rewrite Hp. }
      rewrite (bind_ret_run _ _ _ _ _ Hw).
      destruct (IH (d ++ c0 :: c) (set_fs (<[p := File (d ++ c0 :: c)]> (fs w)) w))
        as (w' & Hrun & Hfs); [apply lookup_insert_eq|].
      exists w'. split; [done|]. rewrite Hfs. simpl.
      by rewrite insert_insert_eq, <- app_assoc.
Qed.

Section Download.
Context (E : env) (url output_path : string).

(** The [except] clause: the file at the output path, if any, is removed. *)
Lemma download_except_run e w :
  fs w !! output_path <> Some Dir ->
  exists w',
    (log ERROR ("Error descargando PDF: " +:+ str_exn e) ;;
     present <- path_exists output_path ;;
     (if present then os_remove output_path else ret tt) ;;
     ret false) w = (Ret false, w') /\
    fs w' !! output_path = None.
Proof.
  intros Hnd. rewrite (bind_ret_run _ _ _ _ _ (log_run _ _ _)).
  rewrite (bind_ret_run _ _ _ _ _ (path_exists_run _ _)). simpl.
  destruct (fs w !! output_path) as [[|d]|] eqn:Hp; [done|..]; simpl.
  - assert (Hrm : os_remove output_path (emit (Log ERROR ("Error descargando PDF: " +:+ str_exn e)) w)
                  = (Ret tt, set_fs (delete output_path (fs w))
                               (emit (Log ERROR ("Error descargando PDF: " +:+ str_exn e)) w))).
    { unfold os_remove. simpl. by rewrite Hp. }
    rewrite (bind_ret_run _ _ _ _ _ Hrm). eexists. split; [done|]. apply lookup_delete_eq.
  - rewrite (bind_ret_run _ _ _ _ _ (ret_run _ _)). by eexists.
Qed.

End Download.

(** * The claims *)

(** ** Page paths of a conversion *)

(** Counterexample to C1 as stated: the document rasterizes to three
    pages, the path of the second is taken by a directory, and the answer is
    the empty list. *)
Lemma taken_page_path_gives_nothing :
  ~ pages_returned sample_env "temp/3f2a/input.pdf" "temp/3f2a" taken_world.
Proof.
  intros H.
  assert (Hne : sample_pages <> []) by done.
  specialize (H sample_pages (fs taken_world) eq_refl Hne).
  vm_compute in H. discriminate H.
Qed.

(** C1 (as amended).  When the rasterizer yields the pages of the PDF, the
    output directory is there and no page path is taken by a directory,
    [convert_pdf_to_images] returns the paths [page_path output_dir 1], ...,
    [page_path output_dir N] in page order and leaves a regular file at each
    of them.  When a page path is taken by a directory, so that the page
    cannot be saved, it returns the empty list; and so it does when the
    rasterizer raises or yields no page.  It raises in none of these
    cases. *)
Theorem convert_pdf_to_images_pages (E : env) (pdf_path output_dir : string) (w : world) :
  (forall images f,
     pdf2image E (fs w) pdf_path output_dir = inr (images, f) ->
     f !! output_dir = Some Dir ->
     (forall n, 1 <= n <= length images -> f !! page_path output_dir n <> Some Dir) ->
     exists w',
       convert_pdf_to_images E pdf_path output_dir w
         = (Ret (map (page_path output_dir) (seq 1 (length images))), w') /\
       forall n, 1 <= n <= length images ->
         exists d, fs w' !! page_path output_dir n = Some (File d)) /\
  (forall images f n,
     pdf2image E (fs w) pdf_path output_dir = inr (images, f) ->
     1 <= n <= length images -> f !! page_path output_dir n = Some Dir ->
     exists w', convert_pdf_to_images E pdf_path output_dir w = (Ret [], w')) /\
  (forall msg f,
     pdf2image E (fs w) pdf_path output_dir = inl (msg, f) ->
     exists w', convert_pdf_to_images E pdf_path output_dir w = (Ret [], w')) /\
  (forall f,
     pdf2image E (fs w) pdf_path output_dir = inr ([], f) ->
     exists w', convert_pdf_to_images E pdf_path output_dir w = (Ret [], w')).
Proof.
  split; [|split; [|split]].
  - intros images f Hr _ Hnd.
    destruct (convert_after_rasterizer E pdf_path output_dir w images f Hr)
      as (w' & [H|(_ & n & Hn & Hdir)]); [by exists w'|].
    by destruct (Hnd n Hn).
  - intros images f n Hr Hn Hdir.
    by apply (convert_blocked E pdf_path output_dir w images f n).
  - intros msg f Hr. by apply (convert_rasterizer_error E pdf_path output_dir w msg f).
  - intros f Hr.
    destruct (convert_after_rasterizer E pdf_path output_dir w [] f Hr)
      as (w' & [[H _]|[H _]]); by exists w'.
Qed.

(** Witness of C1, at the sample rasterizer in a workspace that holds the
    document: three pages, three paths in order. *)
Lemma convert_pdf_to_images_pages_witness :
  pdf2image sample_env (fs stored_world) "temp/3f2a/input.pdf" "temp/3f2a"
    = inr (sample_pages, fs stored_world) /\
  fs stored_world !! "temp/3f2a" = Some Dir /\
  exists w',
    convert_pdf_to_images sample_env "temp/3f2a/input.pdf" "temp/3f2a" stored_world
      = (Ret ["temp/3f2a/page_001.jpg"; "temp/3f2a/page_002.jpg"; "temp/3f2a/page_003.jpg"],
         w').
Proof.
  split; [reflexivity|]. split; [reflexivity|].
  destruct (convert_pdf_to_images_pages sample_env "temp/3f2a/input.pdf" "temp/3f2a"
              stored_world) as [H _].
  destruct (H sample_pages (fs stored_world) eq_refl eq_refl) as (w' & Hrun & _).
  - intros n Hn. simpl in Hn.
    assert (Hcases : n = 1 \/ n = 2 \/ n = 3) by lia.
    destruct Hcases as [->|[->| ->]]; by vm_compute.
  - exists w'. exact Hrun.
Defined.

(** ** Entries of the archive *)




(** ** Cleanup on every exit *)

(** Counterexample to C3 as stated: when the removal fails, the workspace
    is still there once the request is over. *)
Lemma workspace_survives_failed_removal :
  ~ no_workspace_remains locked_env (Some text_upload) None empty_world.
Proof.
  intros H. assert (Hc : workspace_created locked_env (Some text_upload) None empty_world).
  { split; [reflexivity|]. intros d. simpl. by rewrite lookup_empty. }
  specialize (H Hc). vm_compute in H. discriminate.
Qed.

(** C3 (as amended).  For every request that gets its workspace, whatever
    the exit path (the response sent, a validation, download, conversion or
    archive failure, an unexpected fault), [cleanup_directory] is invoked on
    the workspace exactly once, as the last action: the final world is the
    one it leaves.  Afterwards the workspace is gone, unless the removal
    itself failed, which is logged as a warning.  On success the body that
    was sent is the non-empty archive: the cleanup came after the
    transmission. *)
Theorem cleanup_on_every_exit (E : env) (pdf : option UploadFile)
    (pdf_url : option string) (w : world) :
  workspace_created E pdf pdf_url w ->
  let d := workspace E in
  let resp := (post_convert E pdf pdf_url w).1 in
  let w' := (post_convert E pdf pdf_url w).2 in
  (exists w0, cleanups d (trace w0) = cleanups d (trace w) /\
              cleanup_directory E d w0 = (Ret tt, w')) /\
  cleanups d (trace w') = S (cleanups d (trace w)) /\
  (fs w' !! d = None \/ exists msg, head (trace w') = Some (cleanup_warning d msg)) /\
  (forall s mt n body, resp = Download s mt n body -> body <> []).
Proof.
  intros [Hone Hmk] d. unfold post_convert. rewrite (convert_pdf_one_source E _ _ Hone).
  destruct (makedirs_run d w Hmk) as (w1 & Hrun & _ & Htr & _).
  rewrite (bind_ret_run _ _ _ _ _ Hrun).
  pose proof (guarded_block_cleans E pdf pdf_url w1) as Hg. simpl in Hg. fold d in Hg.
  destruct (try_except _ _ w1) as [[r|e] w2].
  - destruct Hg as (Hb & Hn & b & Hne & Hfile). rewrite Hb, Hfile.
    destruct (cleanup_total E d w2) as (w3 & Hc). rewrite Hc. simpl.
    destruct (cleanup_outcome E d w2 w3 Hc) as [Hn3 Hfs3].
    split; [exists w2; by rewrite Hn, Htr|].
    split; [by rewrite Hn3, Hn, Htr|]. split; [done|].
    by intros s mt n body [= _ _ _ <-].
  - destruct Hg as ((s & detail & -> & _) & w0 & Hn & Hc). simpl.
    destruct (cleanup_outcome E d w0 w2 Hc) as [Hn3 Hfs3].
    split; [exists w0; by rewrite Hn, Htr|].
    split; [by rewrite Hn3, Hn, Htr|]. by split.
Qed.

(** Witness of C3, at a rejected upload. *)
Lemma cleanup_on_every_exit_witness :
  workspace_created sample_env (Some text_upload) None empty_world /\
  cleanups (workspace sample_env)
    (trace (post_convert sample_env (Some text_upload) None empty_world).2) = 1.
Proof.
  assert (Hc : workspace_created sample_env (Some text_upload) None empty_world).
  { split; [reflexivity|]. intros d. simpl. by rewrite lookup_empty. }
  split; [exact Hc|].
  exact (proj1 (proj2 (cleanup_on_every_exit sample_env (Some text_upload) None
                        empty_world Hc))).
Defined.

(** ** Failed downloads *)

(** Counterexample to C4 as stated: a host that answers 200 with an empty
    body. *)
Lemma empty_download_keeps_file :
  ~ failed_download_leaves_no_file empty_body_env "http://host/empty.pdf"
      "temp/3f2a/input.pdf" session_world.
Proof. intros H. specialize (H eq_refl). vm_compute in H. discriminate. Qed.

(** C4 (the code misses it).  Every outcome of [download_pdf_from_url] when
    the output path is not a directory.  It never raises.  After a
    network-level error, a status from 400 to 599, or a transfer that breaks,
    it answers [false] and no file is left at the output path.  After a
    transfer that brought no byte it answers [false] as well, but the empty
    file is left where it was written.  Otherwise it answers [true] and the
    file holds the chunks in order. *)
Theorem download_failure_outcomes (E : env) (url output_path : string) (w : world) :
  fs w !! output_path <> Some Dir ->
  exists w',
    match http_get E url with
    | inl _ =>
        download_pdf_from_url E url output_path w = (Ret false, w') /\
        fs w' !! output_path = None
    | inr r =>
        if (400 <=? status_code r) && (status_code r <? 600) then
          download_pdf_from_url E url output_path w = (Ret false, w') /\
          fs w' !! output_path = None
        else
          match broken r with
          | Some _ =>
              download_pdf_from_url E url output_path w = (Ret false, w') /\
              fs w' !! output_path = None
          | None =>
              if is_empty (concat (chunks r)) then
                download_pdf_from_url E url output_path w = (Ret false, w') /\
                fs w' !! output_path = Some (File [])
              else
                download_pdf_from_url E url output_path w = (Ret true, w') /\
                fs w' !! output_path = Some (File (concat (chunks r)))
          end
    end.
Proof.
  intros Hnd. unfold download_pdf_from_url.
  set (w0 := emit (Log INFO ("Descargando PDF desde: " +:+ url)) w).
  set (w1 := emit (HttpGet url) w0).
  destruct (http_get E url) as [msg|r] eqn:Hget.
  { (* network-level error *)
    assert (Hg : requests_get E url w0 = (Raise (Exception msg), w1)).
    { unfold requests_get. by rewrite Hget. }
    destruct (download_except_run output_path (Exception msg) w1 Hnd) as (w' & Hex & Hfs).
    exists w'. split; [|done]. erewrite try_raise_run; [apply Hex|].
    rewrite (bind_ret_run _ _ _ _ _ (log_run _ _ _)).
    apply (bind_raise_run _ _ _ _ _ Hg). }
  assert (Hg : requests_get E url w0 = (Ret r, w1)).
  { unfold requests_get. by rewrite Hget. }
  destruct ((400 <=? status_code r) && (status_code r <? 600)) eqn:Hst.
  { (* non-success status *)
    set (e := Exception (Str.of_nat (status_code r) +:+ " Error")).
    assert (Hs : raise_for_status r w1 = (Raise e, w1)).
    { unfold raise_for_status. by rewrite Hst. }
    destruct (download_except_run output_path e w1 Hnd) as (w' & Hex & Hfs).
    exists w'. split; [|done]. erewrite try_raise_run; [apply Hex|].
    rewrite (bind_ret_run _ _ _ _ _ (log_run _ _ _)).
    rewrite (bind_ret_run _ _ _ _ _ Hg).
    apply (bind_raise_run _ _ _ _ _ Hs). }
  assert (Hs : raise_for_status r w1 = (Ret tt, w1)).
  { unfold raise_for_status. by rewrite Hst. }
  set (ctype := Str.lower (default "" (content_type r))).
  destruct (if_log_run (negb (Str.contains ctype "pdf") && negb (Str.endswith url ".pdf"))
              WARNING ("Content-Type sospechoso: " +:+ ctype) w1) as (w2 & Hct & Hfs2).
  assert (Hnd2 : fs w2 !! output_path <> Some Dir) by by rewrite Hfs2.
  pose proof (open_wb_ok output_path w2 Hnd2) as Hopen. set (w3 := set_fs _ w2) in Hopen.
  destruct (write_chunks_run output_path (chunks r) [] w3) as (w4 & Hwr & Hfs4);
    [apply lookup_insert_eq|].
  assert (Hf4 : fs w4 !! output_path = Some (File (concat (chunks r)))).
  { rewrite Hfs4. apply lookup_insert_eq. }
  destruct (broken r) as [msg|] eqn:Hbr.
  { (* the transfer breaks *)
    assert (Hit : iter_content_into output_path r w3 = (Raise (Exception msg), w4)).
    { unfold iter_content_into. rewrite (bind_ret_run _ _ _ _ _ Hwr). by rewrite Hbr. }
    destruct (download_except_run output_path (Exception msg) w4) as (w' & Hex & Hfs); [by rewrite Hf4|].
    exists w'. split; [|done]. erewrite try_raise_run; [apply Hex|].
    rewrite (bind_ret_run _ _ _ _ _ (log_run _ _ _)).
    rewrite (bind_ret_run _ _ _ _ _ Hg).
    rewrite (bind_ret_run _ _ _ _ _ Hs).
    rewrite (bind_ret_run _ _ _ _ _ Hct).
    rewrite (bind_ret_run _ _ _ _ _ Hopen).
    apply (bind_raise_run _ _ _ _ _ Hit). }
  assert (Hit : iter_content_into output_path r w3 = (Ret tt, w4)).
  { unfold iter_content_into. rewrite (bind_ret_run _ _ _ _ _ Hwr). by rewrite Hbr. }
  pose proof (getsize_file E output_path _ w4 Hf4) as Hsz.
  destruct (concat (chunks r)) as [|b0 b] eqn:Hbody; simpl is_empty; cbv iota.
  - (* nothing was received: the answer is [false] and the file stays *)
    eexists. split.
    + apply try_ret_run.
      rewrite (bind_ret_run _ _ _ _ _ (log_run _ _ _)).
      rewrite (bind_ret_run _ _ _ _ _ Hg).
      rewrite (bind_ret_run _ _ _ _ _ Hs).
      rewrite (bind_ret_run _ _ _ _ _ Hct).
      rewrite (bind_ret_run _ _ _ _ _ Hopen).
      rewrite (bind_ret_run _ _ _ _ _ Hit).
      rewrite (bind_ret_run _ _ _ _ _ Hsz). simpl.
      rewrite (bind_ret_run _ _ _ _ _ (log_run _ _ _)). reflexivity.
    + done.
  - eexists. split.
    + apply try_ret_run.
      rewrite (bind_ret_run _ _ _ _ _ (log_run _ _ _)).
      rewrite (bind_ret_run _ _ _ _ _ Hg).
      rewrite (bind_ret_run _ _ _ _ _ Hs).
      rewrite (bind_ret_run _ _ _ _ _ Hct).
      rewrite (bind_ret_run _ _ _ _ _ Hopen).
      rewrite (bind_ret_run _ _ _ _ _ Hit).
      rewrite (bind_ret_run _ _ _ _ _ Hsz). simpl.
      rewrite (bind_ret_run _ _ _ _ _ Hsz).
      rewrite (bind_ret_run _ _ _ _ _ (log_run _ _ _)). reflexivity.
    + done.
Qed.

(** Witness of C4, at that host: the download fails and the zero-byte file
    is still there. *)
Lemma download_failure_outcomes_witness :
  fs session_world !! "temp/3f2a/input.pdf" <> Some Dir /\
  exists w',
    download_pdf_from_url empty_body_env "http://host/empty.pdf" "temp/3f2a/input.pdf"
      session_world = (Ret false, w') /\
    fs w' !! "temp/3f2a/input.pdf" = Some (File []).
Proof.
  assert (H : fs session_world !! "temp/3f2a/input.pdf" <> Some Dir) by done.
  split; [exact H|].
  exact (download_failure_outcomes empty_body_env "http://host/empty.pdf"
           "temp/3f2a/input.pdf" session_world H).
Defined.

(** ** Neither source, or both *)

(** C5. A request with neither source, and a request with both, is answered
    422 with a detail message, and nothing else happens: the file system
    and the trace are as before, so no source was read, fetched or stored.
    A source is supplied when its parameter is truthy, which is what the
    handler tests. *)
Theorem missing_or_double_source_rejected (E : env) (pdf : option UploadFile)
    (pdf_url : option string) (w : world) :
  (truthy_pdf pdf = false /\ truthy_url pdf_url = false) \/
  (truthy_pdf pdf = true /\ truthy_url pdf_url = true) ->
  exists detail,
    post_convert E pdf pdf_url w = (Failure 422 detail, w) /\
    (detail = neither_detail \/ detail = both_detail) /\ detail <> "".
Proof.
  intros H. eexists. split.
  - apply post_convert_rejected. unfold one_source. by destruct H as [[-> ->]|[-> ->]].
  - destruct (truthy_pdf pdf); split; auto; done.
Qed.

(** Witness of C5, at a request with both sources. *)
Lemma missing_or_double_source_rejected_witness :
  exists detail,
    post_convert sample_env (Some sample_upload) (Some "http://host/a.pdf") empty_world
      = (Failure 422 detail, empty_world).
Proof.
  destruct (missing_or_double_source_rejected sample_env (Some sample_upload)
              (Some "http://host/a.pdf") empty_world (or_intror (conj eq_refl eq_refl)))
    as (detail & H & _).
  exists detail. exact H.
Defined.

(** ** Uploads *)

Lemma fresh_empty_world (E : env) : fresh_workspace E empty_world.
Proof. intros p _. apply lookup_empty. Qed.

(** C6. For an upload (no URL supplied) into a fresh workspace, the answer
    is 400 exactly when the file name does not end in [.pdf], whatever the
    case of its letters, or the content is empty.  Otherwise the content is
    stored as it is under [input.pdf] in the workspace, and the handler goes
    on with the rasterization of that path, under its [except] clauses. *)
Theorem upload_validation (E : env) (upload : UploadFile) (pdf_url : option string)
    (w : world) :
  truthy_url pdf_url = false ->
  fresh_workspace E w ->
  let d := workspace E in
  let pdf_path := Path.join d "input.pdf" in
  let is_pdf := Str.endswith (Str.lower (filename upload)) ".pdf" in
  (status_of (post_convert E (Some upload) pdf_url w).1 = 400
     <-> is_pdf = false \/ file upload = []) /\
  (is_pdf = true -> file upload <> [] ->
   exists w2,
     fs w2 = <[pdf_path := File (file upload)]> (<[d := Dir]> (fs w)) /\
     convert_pdf E (Some upload) pdf_url w
       = try_except (rasterize_and_archive E pdf_path d) (on_error E d) w2).
Proof.
  intros Hurl Hfresh d pdf_path is_pdf.
  assert (Hone : one_source (Some upload) pdf_url = true).
  { unfold one_source. by rewrite Hurl. }
  assert (Hd : fs w !! d = None) by apply Hfresh, under_self.
  assert (Hp : fs w !! pdf_path = None) by (apply Hfresh; by apply under_workspace).
  pose proof (makedirs_fresh d w Hd) as Hmk. set (w1 := set_fs _ w) in Hmk.
  assert (Hnd : fs w1 !! pdf_path <> Some Dir).
  { subst w1; simpl. rewrite lookup_insert_ne by (symmetry; apply join_input_neq).
    fold pdf_path. by rewrite Hp. }
  set (logged := emit (Log INFO ("Procesando archivo: " +:+ filename upload)) w1).
  assert (Hgood : is_pdf = true -> file upload <> [] ->
    convert_pdf E (Some upload) pdf_url w
      = try_except (rasterize_and_archive E pdf_path d) (on_error E d)
          (set_fs (<[pdf_path := File (file upload)]> (fs w1)) logged)).
  { intros Hpdf Hne. rewrite (convert_pdf_one_source E _ _ Hone).
    rewrite (bind_ret_run _ _ _ _ _ Hmk).
    rewrite (try_bind_ret_run _ _ _ _ _ _
               (resolve_upload_stored E upload pdf_url Hurl w1 Hpdf Hne Hnd)).
    fold d pdf_path logged. set (w2 := set_fs _ logged).
    assert (Hf2 : fs w2 !! pdf_path = Some (File (file upload))) by apply lookup_insert_eq.
    assert (Hv : verify_pdf E pdf_path w2 = (Ret tt, w2)).
    { unfold verify_pdf.
      rewrite (bind_ret_run _ _ _ _ _ (missing_or_empty_file E _ _ _ Hf2)).
      by destruct (file upload). }
    by rewrite (try_bind_ret_run _ _ _ _ _ _ Hv). }
  split.
  - unfold post_convert. destruct is_pdf eqn:Hpdf; [destruct (file upload) as [|b0 b] eqn:Hc|].
    + (* empty content *)
      rewrite (convert_pdf_one_source E _ _ Hone), (bind_ret_run _ _ _ _ _ Hmk).
      rewrite (try_bind_raise_run _ _ _ _ _ _
                 (resolve_upload_empty E upload pdf_url Hurl w1 Hpdf Hc)).
      lazymatch goal with
      | |- context [on_error E ?t ?e ?w0] =>
          destruct (on_error_run E t e w0) as (detail & w0' & w3 & -> & _)
      end.
      simpl. split; auto.
    + (* stored *)
      rewrite Hgood by done.
      pose proof (remainder_status E pdf_path
                    (set_fs (<[pdf_path := File (b0 :: b)]> (fs w1)) logged)) as Hst.
      fold d in Hst. destruct (try_except _ _ _) as [[r|e] w3].
      * simpl. split; [done|]. by intros [|].
      * destruct Hst as [detail ->]. simpl. split; [done|]. by intros [|].
    + (* wrong name *)
      rewrite (convert_pdf_one_source E _ _ Hone), (bind_ret_run _ _ _ _ _ Hmk).
      rewrite (try_bind_raise_run _ _ _ _ _ _
                 (resolve_upload_bad_name E upload pdf_url Hurl w1 Hpdf)).
      lazymatch goal with
      | |- context [on_error E ?t ?e ?w0] =>
          destruct (on_error_run E t e w0) as (detail & w0' & w3 & -> & _)
      end.
      simpl. split; auto.
  - intros Hpdf Hne. eexists. split; [|by apply Hgood]. done.
Qed.

(** Witness of C6, at an upload named [Report.PDF]. *)
Lemma upload_validation_witness :
  truthy_url None = false /\ fresh_workspace sample_env empty_world /\
  status_of (post_convert sample_env (Some sample_upload) None empty_world).1 <> 400.
Proof.
  split; [reflexivity|]. split; [apply fresh_empty_world|].
  destruct (upload_validation sample_env sample_upload None empty_world eq_refl
              (fresh_empty_world sample_env)) as [Hiff _].
  intros Hs. apply Hiff in Hs. destruct Hs as [Hs|Hs]; discriminate Hs.
Defined.

(** ** Cleanup never raises *)

(** C7. [cleanup_directory] returns normally on every path and in every
    world.  When the path is gone it leaves the file system as it is; when
    it is a directory that [shutil.rmtree] removes, the directory and
    everything under it are gone and nothing else is touched; when the
    removal fails (a fault of [rmtree], which leaves what it leaves, or a
    path that is not a directory, which is left alone) the error is absorbed
    and a warning is logged. *)
Theorem cleanup_directory_never_raises (E : env) (directory : string) (w : world) :
  exists w', cleanup_directory E directory w = (Ret tt, w') /\
    match fs w !! directory with
    | None => fs w' = fs w /\ trace w' = Cleanup directory :: trace w
    | Some Dir =>
        match rmtree_fault E (fs w) directory with
        | None =>
            (forall p, under directory p = true -> fs w' !! p = None) /\
            (forall p, under directory p = false -> fs w' !! p = fs w !! p)
        | Some (msg, f) =>
            fs w' = f /\
            trace w' = cleanup_warning directory msg :: Cleanup directory :: trace w
        end
    | Some (File _) =>
        fs w' = fs w /\
        exists msg, trace w' = cleanup_warning directory msg :: Cleanup directory :: trace w
    end.
Proof.
  destruct (fs w !! directory) as [[|b]|] eqn:Hd.
  - destruct (rmtree_fault E (fs w) directory) as [[msg f]|] eqn:Hf.
    + rewrite (cleanup_fault E directory w msg f Hd Hf). by eexists.
    + rewrite (cleanup_removed E directory w Hd Hf). eexists. split; [done|].
      simpl. split; intros p Hp.
      * by apply remove_tree_under.
      * by apply remove_tree_other.
  - rewrite (cleanup_not_a_directory E directory w b Hd). eexists. split; [done|].
    split; [done|]. by eexists.
  - rewrite (cleanup_missing E directory w Hd). by eexists.
Qed.

(** ** Archive names are a function of the page count *)

(** C8. Two conversions that end with a response, of documents that
    rasterize to the same number of pages, serve archives whose entries
    have the same names in the same order: [page_name 1], ...,
    [page_name N], a function of the page count alone.  The environments,
    the worlds and the directories of the two runs are unrelated. *)
Theorem archive_names_deterministic
    (E1 E2 : env) (pdf1 pdf2 dir1 dir2 : string) (w1 w2 : world)
    (images1 images2 : list image) (f1 f2 : gmap string node)
    (r1 r2 : FileResponse) (w1' w2' : world) :
  pdf2image E1 (fs w1) pdf1 dir1 = inr (images1, f1) ->
  pdf2image E2 (fs w2) pdf2 dir2 = inr (images2, f2) ->
  length images1 = length images2 ->
  rasterize_and_archive E1 pdf1 dir1 w1 = (Ret r1, w1') ->
  rasterize_and_archive E2 pdf2 dir2 w2 = (Ret r2, w2') ->
  exists es1 es2 b1 b2,
    In (Archive (fr_path r1) es1) (trace w1') /\
    zip_encode E1 es1 = inr b1 /\ fs w1' !! fr_path r1 = Some (File b1) /\
    In (Archive (fr_path r2) es2) (trace w2') /\
    zip_encode E2 es2 = inr b2 /\ fs w2' !! fr_path r2 = Some (File b2) /\
    map arcname es1 = map arcname es2 /\
    map arcname es1 = map page_name (seq 1 (length images1)).
Proof.
  intros Hp1 Hp2 Hlen Hrun1 Hrun2.
  destruct (rasterize_and_archive_ret E1 pdf1 dir1 w1 r1 w1' images1 f1 Hp1 Hrun1)
    as (-> & _ & _ & es1 & b1 & Hn1 & Hin1 & He1 & _ & Hf1).
  destruct (rasterize_and_archive_ret E2 pdf2 dir2 w2 r2 w2' images2 f2 Hp2 Hrun2)
    as (-> & _ & _ & es2 & b2 & Hn2 & Hin2 & He2 & _ & Hf2).
  exists es1, es2, b1, b2. repeat split; try done.
  by rewrite Hn1, Hn2, Hlen.
Qed.

(** Witness of C8, at two runs of the sample rasterizer in the workspaces
    of two sessions. *)
Lemma archive_names_deterministic_witness :
  exists es1 es2,
    map arcname es1 = map arcname es2 /\
    map arcname es1 = ["page_001.jpg"; "page_002.jpg"; "page_003.jpg"].
Proof.
  pose (run1 := rasterize_and_archive sample_env "temp/3f2a/input.pdf" "temp/3f2a" stored_world).
  pose (run2 := rasterize_and_archive locked_env "temp/9c1d/input.pdf" "temp/9c1d" busy_world).
  assert (H1 : exists r, run1 = (Ret r, run1.2)).
  { eexists. vm_compute. reflexivity. }
  assert (H2 : exists r, run2 = (Ret r, run2.2)).
  { eexists. vm_compute. reflexivity. }
  destruct H1 as [r1 H1], H2 as [r2 H2].
  destruct (archive_names_deterministic sample_env locked_env
              "temp/3f2a/input.pdf" "temp/9c1d/input.pdf" "temp/3f2a" "temp/9c1d"
              stored_world busy_world sample_pages sample_pages
              (fs stored_world) (fs busy_world) r1 r2 run1.2 run2.2
              eq_refl eq_refl eq_refl H1 H2)
    as (es1 & es2 & b1 & b2 & _ & _ & _ & _ & _ & _ & Heq & Hnames).
  exists es1, es2. split; [exact Heq|exact Hnames].
Defined.

(** ** An empty URL is no source *)

(** C9. With no file and an empty [pdf_url] the request counts as naming
    no source: it is answered 422 and the world is as before, so no
    download was attempted. *)
Theorem empty_url_is_no_source (E : env) (w : world) :
  post_convert E None (Some "") w = (Failure 422 neither_detail, w).
Proof.
  assert (Hneither : one_source None (Some "") = false) by reflexivity.
  rewrite (post_convert_rejected E None (Some "") w Hneither).
  reflexivity.
Qed.

(** ** A rejected request changes nothing *)

(** C10. A request answered 422 leaves the world as it found it: no
    workspace is created, no file is written, nothing is logged or called.
    Such a request is one that names neither source or both. *)
Theorem unprocessable_leaves_world (E : env) (pdf : option UploadFile)
    (pdf_url : option string) (w : world) :
  status_of (post_convert E pdf pdf_url w).1 = 422 ->
  (post_convert E pdf pdf_url w).2 = w /\ one_source pdf pdf_url = false.
Proof.
  intros Hs. destruct (one_source pdf pdf_url) eqn:Hone.
  - destruct (post_convert_status E pdf pdf_url w Hone) as [H|[H|H]];
      rewrite H in Hs; discriminate.
  - by rewrite (post_convert_rejected E _ _ w Hone).
Qed.

(** Witness of C10, at a request with no source. *)
Lemma unprocessable_leaves_world_witness :
  status_of (post_convert sample_env None None empty_world).1 = 422 /\
  (post_convert sample_env None None empty_world).2 = empty_world.
Proof.
  split; [reflexivity|].
  exact (proj1 (unprocessable_leaves_world sample_env None None empty_world eq_refl)).
Defined.

(** * Further properties *)

(** ** Page numbers can be read back from page names *)

Lemma str_app_inv_head (s a b : string) : s +:+ a = s +:+ b -> a = b.
Proof.
  induction s as [|c s IH]; [done|]. rewrite !str_app_cons. intros [= H]. auto.
Qed.

Lemma str_app_inv_tail (t : string) : forall s s', s +:+ t = s' +:+ t -> s = s'.
Proof.
  induction s as [|c s IH]; intros [|c' s'] H.
  - done.
  - apply (f_equal String.length) in H. rewrite !str_length_app in H. simpl in H. lia.
  - apply (f_equal String.length) in H. rewrite !str_length_app in H. simpl in H. lia.
  - rewrite !str_app_cons in H. injection H as -> H. f_equal. by apply IH.
Qed.

Lemma decimal_value_of_nat n : decimal_value (Str.of_nat n) = Some n.
Proof.
  unfold decimal_value, Str.of_nat, NilZero.string_of_uint.
  destruct (Nat.to_uint n) eqn:Hd;
    [by rewrite <- (DecimalNat.Unsigned.of_to n), Hd|..];
    cbv iota; rewrite NilEmpty.usu; cbn [option_map];
    by rewrite <- Hd, DecimalNat.Unsigned.of_to.
Qed.

Lemma decimal_value_zeros k s : decimal_value (Str.zeros k +:+ s) = decimal_value s.
Proof.
  induction k as [|k IH]; [done|]. simpl Str.zeros. rewrite str_app_cons.
  unfold decimal_value in *. simpl NilEmpty.uint_of_string.
  destruct (NilEmpty.uint_of_string (Str.zeros k +:+ s)) as [d|];
    destruct (NilEmpty.uint_of_string s) as [d'|]; simpl in *; try done.
Qed.

(** The zero-padded number reads back as the number, whatever its width. *)
Lemma decimal_value_format w n : decimal_value (Str.format_0d w n) = Some n.
Proof. unfold Str.format_0d. by rewrite decimal_value_zeros, decimal_value_of_nat. Qed.

Lemma page_name_inj n m : page_name n = page_name m -> n = m.
Proof.
  unfold page_name. intros H. apply str_app_inv_head in H.
  apply str_app_inv_tail in H.
  apply (f_equal decimal_value) in H. rewrite !decimal_value_format in H. congruence.
Qed.

Lemma page_path_inj o n m : page_path o n = page_path o m -> n = m.
Proof.
  unfold page_path, Path.join. rewrite !page_name_no_root.
  destruct (String.eqb o "" || Str.endswith o "/"); intros H.
  - by apply (str_app_inv_head o), page_name_inj in H.
  - apply (str_app_inv_head o) in H. by apply (str_app_inv_head "/"), page_name_inj in H.
Qed.

(** X1.  The page paths of a conversion are pairwise distinct, whatever the
    number of pages (beyond 999 pages the number simply takes more digits):
    no page is written over another. *)
Theorem page_paths_distinct (output_dir : string) (N : nat) :
  NoDup (map (page_path output_dir) (seq 1 N)).
Proof.
  apply NoDup_fmap_2; [|apply NoDup_seq].
  intros n m. apply page_path_inj.
Qed.

(** ** What the pages hold *)

Section PageContents.
Context (E : env) (o : string).

(** When every page can be written, the loop leaves at the path of each
    page the encoding of its image, and touches no other path. *)
Lemma save_pages_content imgs : forall i acc w,
  (forall n, i < n <= i + length imgs -> fs w !! page_path o n <> Some Dir) ->
  exists w',
    save_pages E o imgs i acc w
      = (Ret (acc ++ map (page_path o) (seq (S i) (length imgs))), w') /\
    (forall k img, imgs !! k = Some img ->
       fs w' !! page_path o (S (i + k)) = Some (File (jpeg_encode E img))) /\
    (forall q, (forall n, i < n <= i + length imgs -> q <> page_path o n) ->
       fs w' !! q = fs w !! q).
Proof.
  induction imgs as [|img imgs IH]; intros i acc w Hnd; simpl.
  - exists w. rewrite app_nil_r. split; [done|]. split; [done|done].
  - rewrite Nat.add_1_r. unfold image_save.
    assert (Hd : fs w !! page_path o (S i) <> Some Dir) by (apply Hnd; simpl; lia).
    rewrite (bind_ret_run _ _ _ _ _ (write_file_run _ _ _ Hd)).
    rewrite (bind_ret_run _ _ _ _ _ (log_run _ _ _)).
    set (w1 := emit _ _).
    assert (Hw1 : forall q, q <> page_path o (S i) -> fs w1 !! q = fs w !! q).
    { intros q Hq. subst w1; simpl. by rewrite lookup_insert_ne. }
    destruct (IH (S i) (acc ++ [page_path o (S i)]) w1) as (w' & Hrun & Hnew & Hold).
    { intros n Hn. rewrite Hw1; [apply Hnd; simpl; lia|].
      intros Heq. apply page_path_inj in Heq. lia. }
    exists w'. rewrite Hrun, <- app_assoc. split; [done|]. split.
    + intros [|k] img' Hk; simpl in Hk.
      * injection Hk as <-. rewrite Nat.add_0_r, Hold.
        -- subst w1; simpl. apply lookup_insert_eq.
        -- intros n Hn Heq. apply page_path_inj in Heq. lia.
      * replace (S (i + S k)) with (S (S i + k)) by lia. by apply Hnew.
    + intros q Hq. rewrite Hold.
      * apply Hw1, Hq. simpl. lia.
      * intros n Hn. apply Hq. simpl. lia.
Qed.

End PageContents.

(** X2.  When the rasterizer has produced its pages and every page can be
    written, [convert_pdf_to_images] leaves at the path of page [k + 1] the
    JPEG encoding of the [k]-th image, and every other path as the
    rasterizer left it. *)
Theorem convert_pdf_to_images_contents (E : env) (pdf_path output_dir : string)
    (w : world) (images : list image) (f : gmap string node) :
  pdf2image E (fs w) pdf_path output_dir = inr (images, f) ->
  (forall n, 1 <= n <= length images -> f !! page_path output_dir n <> Some Dir) ->
  let w' := (convert_pdf_to_images E pdf_path output_dir w).2 in
  (forall k img, images !! k = Some img ->
     fs w' !! page_path output_dir (S k) = Some (File (jpeg_encode E img))) /\
  (forall q, (forall n, 1 <= n <= length images -> q <> page_path output_dir n) ->
     fs w' !! q = f !! q).
Proof.
  intros Hr Hnd. unfold convert_pdf_to_images.
  set (w0 := emit (Log INFO ("Convirtiendo PDF: " +:+ pdf_path)) w).
  assert (Hr0 : pdf2image E (fs w0) pdf_path output_dir = inr (images, f)) by done.
  pose proof (convert_from_path_ok E pdf_path output_dir w0 images f Hr0) as Hc.
  set (w1 := set_fs f _) in Hc.
  destruct (save_pages_content E output_dir images 0 [] w1) as (w2 & Hrun & Hnew & Hold).
  { intros n Hn. apply Hnd. lia. }
  erewrite try_ret_run.
  2:{ rewrite (bind_ret_run _ _ _ _ _ (log_run _ _ _)).
      rewrite (bind_ret_run _ _ _ _ _ Hc).
      rewrite (bind_ret_run _ _ _ _ _ Hrun).
      rewrite (bind_ret_run _ _ _ _ _ (log_run _ _ _)). reflexivity. }
  simpl. split.
  - intros k img Hk. by apply (Hnew k img).
  - intros q Hq. rewrite Hold; [done|]. intros n Hn. apply Hq. lia.
Qed.

(** ** Staying inside the workspace *)

Lemma confined_refl d f : confined d f f.
Proof. by repeat split. Qed.

Lemma confined_trans d f1 f2 f3 : confined d f1 f2 -> confined d f2 f3 -> confined d f1 f3.
Proof.
  intros (Ha & Hb & Hc) (Ha' & Hb' & Hc'). split; [|split].
  - intros p Hp. by rewrite Ha', Ha.
  - intros p Hp. by apply Hb, Hb'.
  - intros Hd. by apply Hc', Hc.
Qed.

Section StaysRules.
Context (d : string) {A B : Type}.

Lemma stays_silent (m : M A) : (forall w, fs (m w).2 = fs w) -> stays_within d m.
Proof. intros Hm w. rewrite Hm. apply confined_refl. Qed.

Lemma stays_ret (a : A) : stays_within d (ret a).
Proof. by apply stays_silent. Qed.

Lemma stays_raise (e : exn) : stays_within d (@raise A e).
Proof. by apply stays_silent. Qed.

Lemma stays_bind (m : M A) (k : A -> M B) :
  stays_within d m -> (forall a, stays_within d (k a)) -> stays_within d (bind m k).
Proof.
  intros Hm Hk w. unfold bind. specialize (Hm w).
  destruct (m w) as [[a|e] w1]; simpl in *; [|done].
  eapply confined_trans; [apply Hm|apply Hk].
Qed.

Lemma stays_try (m : M A) (h : exn -> M A) :
  stays_within d m -> (forall e, stays_within d (h e)) -> stays_within d (try_except m h).
Proof.
  intros Hm Hh w. unfold try_except. specialize (Hm w).
  destruct (m w) as [[a|e] w1]; simpl in *; [done|].
  eapply confined_trans; [apply Hm|apply Hh].
Qed.

End StaysRules.

Section StaysPrimitives.
Context (d : string).

Lemma stays_log lvl msg : stays_within d (log lvl msg).
Proof. by apply stays_silent. Qed.

Lemma stays_path_exists p : stays_within d (path_exists p).
Proof. by apply stays_silent. Qed.

Lemma stays_getsize E p : stays_within d (getsize E p).
Proof. apply stays_silent. intros w. unfold getsize. by destruct (fs w !! p) as [[]|]. Qed.

Lemma stays_zipf_write p n : stays_within d (zipf_write p n).
Proof. apply stays_silent. intros w. unfold zipf_write. by destruct (fs w !! p) as [[]|]. Qed.

Lemma stays_requests_get E url : stays_within d (requests_get E url).
Proof. apply stays_silent. intros w. unfold requests_get. by destruct (http_get E url). Qed.

Lemma stays_raise_for_status r : stays_within d (raise_for_status r).
Proof. apply stays_silent. intros w. unfold raise_for_status. by destruct (_ && _). Qed.

(** Putting a regular file at a path inside [d]. *)
Lemma confined_insert_file p c (f : gmap string node) :
  under d p = true -> f !! p <> Some Dir -> confined d f (<[p := File c]> f).
Proof.
  intros Hp Hnd. split; [|split].
  - intros q Hq. apply lookup_insert_ne. intros ->. congruence.
  - intros q Hq. destruct (decide (p = q)) as [->|Hne].
    + by rewrite lookup_insert_eq in Hq.
    + by rewrite lookup_insert_ne in Hq.
  - intros Hd. destruct (decide (p = d)) as [->|Hne]; [done|].
    by rewrite lookup_insert_ne.
Qed.

Lemma stays_open_wb p : under d p = true -> stays_within d (open_wb p).
Proof.
  intros Hp w. unfold open_wb.
  destruct (fs w !! p) as [[|c]|] eqn:Hl; simpl;
    [apply confined_refl|apply confined_insert_file; [done|by rewrite Hl]..].
Qed.

Lemma stays_file_write p c : under d p = true -> stays_within d (file_write p c).
Proof.
  intros Hp w. unfold file_write.
  destruct (fs w !! p) as [[|c0]|] eqn:Hl; simpl;
    [apply confined_refl|apply confined_insert_file; [done|by rewrite Hl]|apply confined_refl].
Qed.

Lemma stays_os_remove p : under d p = true -> stays_within d (os_remove p).
Proof.
  intros Hp w. unfold os_remove.
  destruct (fs w !! p) as [[|c]|] eqn:Hl; simpl; try apply confined_refl.
  split; [|split].
  - intros q Hq. apply lookup_delete_ne. intros ->. congruence.
  - intros q Hq. destruct (decide (p = q)) as [->|Hne].
    + by rewrite lookup_delete_eq in Hq.
    + by rewrite lookup_delete_ne in Hq.
  - intros Hd. destruct (decide (p = d)) as [->|Hne]; [congruence|].
    by rewrite lookup_delete_ne.
Qed.

Lemma stays_convert_from_path E pdf_path :
  tidy E -> stays_within d (convert_from_path E pdf_path d).
Proof.
  intros [Ht _] w. specialize (Ht (fs w) pdf_path d).
  unfold convert_from_path, rasterizer_residual in *.
  by destruct (pdf2image E (fs w) pdf_path d) as [[msg f]|[images f]].
Qed.

Lemma stays_zip_close E z es : under d z = true -> stays_within d (zip_close E z es).
Proof.
  intros Hz w. unfold zip_close. destruct (zip_encode E es) as [[msg residue]|b].
  - assert (Hst : stays_within d (file_write z residue ;; raise (A:=unit) (Exception msg))).
    { apply stays_bind; [by apply stays_file_write|intros _; apply stays_raise]. }
    apply (Hst (emit (Archive z es) w)).
  - apply (stays_file_write z b Hz (emit (Archive z es) w)).
Qed.

End StaysPrimitives.

Create HintDb stays discriminated.

#[local] Hint Resolve stays_log stays_path_exists stays_getsize stays_zipf_write
  stays_requests_get stays_raise_for_status stays_open_wb stays_file_write
  stays_os_remove stays_convert_from_path stays_zip_close : stays.

Ltac stays_step :=
  lazymatch goal with
  | |- stays_within _ (bind _ _) => apply stays_bind; [|intros ?]
  | |- stays_within _ (try_except _ _) => apply stays_try; [|intros ?]
  | |- stays_within _ (ret _) => apply stays_ret
  | |- stays_within _ (raise _) => apply stays_raise
  | |- stays_within _ (if ?b then _ else _) => destruct b
  | |- stays_within _ (match ?x with _ => _ end) => destruct x
  | |- stays_within _ _ => solve [eauto with stays]
  end.

Ltac stays := repeat stays_step.

Section StaysService.
Context (E : env) (d : string).
Hypothesis tidy_E : tidy E.
Hypothesis d_nonempty : d <> "".

Lemma under_input : under d (Path.join d "input.pdf") = true.
Proof. by apply under_join. Qed.

Lemma under_archive : under d (Path.join d "images.zip") = true.
Proof. by apply under_join. Qed.

Lemma under_page n : under d (page_path d n) = true.
Proof. apply under_join; [done|apply page_name_no_root]. Qed.

Lemma stays_write_chunks p cs : under d p = true -> stays_within d (write_chunks p cs).
Proof. intros Hp. induction cs as [|c cs IH]; simpl; stays. Qed.

#[local] Hint Resolve stays_write_chunks : stays.

Lemma stays_download url p :
  under d p = true -> stays_within d (download_pdf_from_url E url p).
Proof. intros Hp. unfold download_pdf_from_url, iter_content_into. stays. Qed.

Lemma stays_save_pages imgs i acc : stays_within d (save_pages E d imgs i acc).
Proof.
  revert i acc. induction imgs as [|img imgs IH]; intros i acc; simpl; [stays|].
  pose proof (under_page (i + 1)). unfold image_save, write_file. stays.
Qed.

#[local] Hint Resolve stays_save_pages tidy_E : stays.

Lemma stays_convert p : stays_within d (convert_pdf_to_images E p d).
Proof. unfold convert_pdf_to_images. stays. Qed.

Lemma stays_zip_pages ps i acc : stays_within d (zip_pages ps i acc).
Proof. revert i acc. induction ps as [|p ps IH]; intros i acc; simpl; stays. Qed.

#[local] Hint Resolve stays_zip_pages : stays.

Lemma stays_create_zip ps z : under d z = true -> stays_within d (create_zip_file E ps z).
Proof. intros Hz. unfold create_zip_file. stays. Qed.

Lemma stays_missing_or_empty p : stays_within d (missing_or_empty E p).
Proof. unfold missing_or_empty. stays. Qed.

#[local] Hint Resolve stays_download stays_convert stays_create_zip
  stays_missing_or_empty under_input under_archive : stays.

Lemma stays_resolve_source pdf pdf_url : stays_within d (resolve_source E pdf pdf_url d).
Proof. unfold resolve_source, write_file. stays. Qed.

Lemma stays_verify_pdf p : stays_within d (verify_pdf E p).
Proof. unfold verify_pdf. stays. Qed.

Lemma stays_rasterize_and_archive p : stays_within d (rasterize_and_archive E p d).
Proof. unfold rasterize_and_archive. stays. Qed.

(** The whole guarded block of the handler. *)
Lemma stays_block pdf pdf_url :
  stays_within d (pdf_path <- resolve_source E pdf pdf_url d ;;
                  verify_pdf E pdf_path ;;
                  rasterize_and_archive E pdf_path d).
Proof.
  apply stays_bind; [apply stays_resolve_source|]. intros p.
  apply stays_bind; [apply stays_verify_pdf|]. intros _.
  apply stays_rasterize_and_archive.
Qed.

End StaysService.

(** ** The world a request leaves *)

Section FinalWorld.
Context (E : env).

(** The [except] clauses, with the world in which the cleanup runs. *)
Lemma on_error_world d e w :
  exists w0 w',
    on_error E d e w = (Raise (HTTPException (error_status e) (error_detail e)), w') /\
    fs w0 = fs w /\
    cleanup_directory E d w0 = (Ret tt, w').
Proof.
  destruct e as [s detail|msg]; simpl.
  - destruct (cleanup_total E d w) as (w' & Hrun).
    exists w, w'. by rewrite (bind_ret_run _ _ _ _ _ Hrun).
  - destruct (cleanup_total E d (emit (Log ERROR ("Error inesperado: " +:+ msg)) w))
      as (w' & Hrun).
    exists (emit (Log ERROR ("Error inesperado: " +:+ msg)) w), w'.
    rewrite (bind_ret_run _ _ _ _ _ (log_run _ _ _)).
    by rewrite (bind_ret_run _ _ _ _ _ Hrun).
Qed.

(** The cleanup touches nothing outside the directory. *)
Lemma cleanup_frame d w w' :
  tidy E -> cleanup_directory E d w = (Ret tt, w') ->
  forall p, under d p = false -> fs w' !! p = fs w !! p.
Proof.
  intros [_ Ht]. destruct (fs w !! d) as [[|b]|] eqn:Hd.
  - destruct (rmtree_fault E (fs w) d) as [[msg f]|] eqn:Hf.
    + rewrite (cleanup_fault E d w msg f Hd Hf). intros [= <-] p Hp. simpl.
      by apply (Ht _ _ _ _ Hf).
    + rewrite (cleanup_removed E d w Hd Hf). intros [= <-] p Hp. simpl.
      by apply remove_tree_other.
  - rewrite (cleanup_not_a_directory E d w b Hd). by intros [= <-].
  - rewrite (cleanup_missing E d w Hd). by intros [= <-].
Qed.

(** A cleanup that finds the directory and removes it leaves nothing at or
    below it. *)
Lemma cleanup_empties d w w' :
  fs w !! d = Some Dir -> rmtree_fault E (fs w) d = None ->
  cleanup_directory E d w = (Ret tt, w') ->
  forall p, under d p = true -> fs w' !! p = None.
Proof.
  intros Hd Hf. rewrite (cleanup_removed E d w Hd Hf). intros [= <-] p Hp. simpl.
  by apply remove_tree_under.
Qed.

(** A request with exactly one source whose workspace exists ends with the
    cleanup, run on the file system that the guarded block has left, and
    the block has stayed inside the workspace. *)
Lemma request_world pdf pdf_url w w1 :
  tidy E -> one_source pdf pdf_url = true ->
  makedirs (workspace E) w = (Ret tt, w1) ->
  exists wb w0,
    confined (workspace E) (fs w1) (fs wb) /\
    fs w0 = fs wb /\
    cleanup_directory E (workspace E) w0 = (Ret tt, (post_convert E pdf pdf_url w).2).
Proof.
  intros Ht Hone Hmk. unfold post_convert. rewrite (convert_pdf_one_source E _ _ Hone).
  rewrite (bind_ret_run _ _ _ _ _ Hmk).
  pose proof (stays_block E (workspace E) Ht (workspace_nonempty E) pdf pdf_url w1) as Hst.
  destruct ((pdf_path <- resolve_source E pdf pdf_url (workspace E) ;;
             verify_pdf E pdf_path ;;
             rasterize_and_archive E pdf_path (workspace E)) w1) as [[r|e] w2] eqn:Hrun;
    simpl in Hst.
  - rewrite (try_ret_run _ _ _ _ _ Hrun).
    apply bind_ret_inv in Hrun as (p & wa & _ & Hrun).
    apply bind_ret_inv in Hrun as ([] & wb & _ & Hrun).
    destruct (rasterize_and_archive_served E p _ wb r w2 Hrun) as [Hb _].
    rewrite Hb. destruct (cleanup_total E (workspace E) w2) as (w3 & Hc).
    exists w2, w2. rewrite Hc. by simpl.
  - rewrite (try_raise_run _ _ _ _ _ Hrun).
    destruct (on_error_world (workspace E) e w2) as (w0 & w3 & -> & Hfs & Hc).
    exists w2, w0. by simpl.
Qed.

End FinalWorld.

(** X3.  A request of the running service touches nothing outside its
    workspace: whatever the request and however it ends, every path that is
    neither the workspace nor below it holds afterwards what it held
    before.  The service has made [TEMP_DIR] at import and the session
    identifier names one path component, so that [os.makedirs] creates the
    workspace and no parent of it.  (The environment is tidy: the rasterizer
    writes into its output folder only, and a failing removal has touched
    nothing outside the tree.) *)
Theorem request_stays_in_workspace (E : env) (pdf : option UploadFile)
    (pdf_url : option string) (w : world) (p : string) :
  tidy E ->
  plain_id (uuid4 E) ->
  fs w !! TEMP_DIR = Some Dir ->
  under (workspace E) p = false ->
  fs (post_convert E pdf pdf_url w).2 !! p = fs w !! p.
Proof.
  intros Ht _ _ Hp. destruct (one_source pdf pdf_url) eqn:Hone.
  2:{ by rewrite (post_convert_rejected E _ _ w Hone). }
  destruct (fs w !! workspace E) as [[|b]|] eqn:Hw.
  2:{ destruct (makedirs_blocked _ _ _ Hw) as [msg Hmk].
      unfold post_convert. rewrite (convert_pdf_one_source E _ _ Hone).
      by rewrite (bind_raise_run _ _ _ _ _ Hmk). }
  all: destruct (makedirs_run (workspace E) w) as (w1 & Hmk & _ & _ & Hother);
    [by rewrite Hw|];
    destruct (request_world E pdf pdf_url w w1 Ht Hone Hmk)
      as (wb & w0 & (Hframe & _) & Hfs & Hc);
    rewrite (cleanup_frame E _ _ _ Ht Hc p Hp), Hfs, (Hframe p Hp);
    apply Hother; intros ->; by rewrite under_self in Hp.
Qed.

(** X4.  When the removal works, a request that got its workspace leaves
    nothing at or below it: the stored document, the page images, the
    archive, what the rasterizer wrote, and also whatever was there before
    the request if the directory already existed. *)
Theorem workspace_emptied (E : env) (pdf : option UploadFile)
    (pdf_url : option string) (w : world) (p : string) :
  tidy E ->
  workspace_created E pdf pdf_url w ->
  (forall f, rmtree_fault E f (workspace E) = None) ->
  under (workspace E) p = true ->
  fs (post_convert E pdf pdf_url w).2 !! p = None.
Proof.
  intros Ht [Hone Hcr] Hnf Hp.
  destruct (makedirs_run (workspace E) w Hcr) as (w1 & Hmk & Hd1 & _).
  destruct (request_world E pdf pdf_url w w1 Ht Hone Hmk)
    as (wb & w0 & (_ & _ & Hkeep) & Hfs & Hc).
  apply (cleanup_empties E (workspace E) w0 _); try done.
  rewrite Hfs. by apply Hkeep.
Qed.

(** The sample environment is tidy. *)
Lemma sample_env_tidy : tidy sample_env.
Proof.
  split.
  - intros f pdf_path output_dir. apply confined_refl.
  - intros f d msg f' H. discriminate H.
Qed.

(** ** [download_pdf_from_url], every outcome *)

Section DownloadRuns.
Context (E : env) (url output_path : string).

(** The [except] clause of the download when the output path is not a
    directory. *)
Lemma download_except_fs e w :
  fs w !! output_path <> Some Dir ->
  exists w',
    (log ERROR ("Error descargando PDF: " +:+ str_exn e) ;;
     present <- path_exists output_path ;;
     (if present then os_remove output_path else ret tt) ;;
     ret false) w = (Ret false, w') /\
    fs w' = delete output_path (fs w).
Proof.
  intros Hnd. rewrite (bind_ret_run _ _ _ _ _ (log_run _ _ _)).
  rewrite (bind_ret_run _ _ _ _ _ (path_exists_run _ _)). simpl.
  destruct (fs w !! output_path) as [[|d]|] eqn:Hp; [done|..]; simpl.
  - assert (Hrm : os_remove output_path (emit (Log ERROR ("Error descargando PDF: " +:+ str_exn e)) w)
                  = (Ret tt, set_fs (delete output_path (fs w))
                               (emit (Log ERROR ("Error descargando PDF: " +:+ str_exn e)) w))).
    { unfold os_remove. simpl. by rewrite Hp. }
    rewrite (bind_ret_run _ _ _ _ _ Hrm). by eexists.
  - rewrite (bind_ret_run _ _ _ _ _ (ret_run _ _)). eexists. split; [done|].
    simpl. symmetry. by apply delete_id.
Qed.

(** The [except] clause when the output path is a directory: [os.remove]
    raises in its turn. *)
Lemma download_except_dir e w :
  fs w !! output_path = Some Dir ->
  exists msg w',
    (log ERROR ("Error descargando PDF: " +:+ str_exn e) ;;
     present <- path_exists output_path ;;
     (if present then os_remove output_path else ret tt) ;;
     ret false) w = (Raise (Exception msg), w') /\
    fs w' = fs w.
Proof.
  intros Hd. rewrite (bind_ret_run _ _ _ _ _ (log_run _ _ _)).
  rewrite (bind_ret_run _ _ _ _ _ (path_exists_run _ _)). simpl. rewrite Hd. simpl.
  eexists _, _. split.
  - apply bind_raise_run. unfold os_remove. simpl. by rewrite Hd.
  - reflexivity.
Qed.

(** The download, when the output path is not a directory: the answer and
    the file system follow from what the host brings. *)
Lemma download_run w :
  fs w !! output_path <> Some Dir ->
  exists w',
    download_pdf_from_url E url output_path w
      = (Ret (match fetched E url with Some (_ :: _) => true | _ => false end), w') /\
    fs w' = match fetched E url with
            | Some body => <[output_path := File body]> (fs w)
            | None => delete output_path (fs w)
            end.
Proof.
  intros Hnd. unfold download_pdf_from_url, fetched.
  set (w0 := emit (Log INFO ("Descargando PDF desde: " +:+ url)) w).
  set (w1 := emit (HttpGet url) w0).
  destruct (http_get E url) as [msg|r] eqn:Hget.
  { assert (Hg : requests_get E url w0 = (Raise (Exception msg), w1)).
    { unfold requests_get. by rewrite Hget. }
    destruct (download_except_fs (Exception msg) w1 Hnd) as (w' & Hex & Hfs).
    exists w'. split; [|done]. erewrite try_raise_run; [apply Hex|].
    rewrite (bind_ret_run _ _ _ _ _ (log_run _ _ _)).
    apply (bind_raise_run _ _ _ _ _ Hg). }
  assert (Hg : requests_get E url w0 = (Ret r, w1)).
  { unfold requests_get. by rewrite Hget. }
  destruct ((400 <=? status_code r) && (status_code r <? 600)) eqn:Hst.
  { set (e := Exception (Str.of_nat (status_code r) +:+ " Error")).
    assert (Hs : raise_for_status r w1 = (Raise e, w1)).
    { unfold raise_for_status. by rewrite Hst. }
    destruct (download_except_fs e w1 Hnd) as (w' & Hex & Hfs).
    exists w'. split; [|done]. erewrite try_raise_run; [apply Hex|].
    rewrite (bind_ret_run _ _ _ _ _ (log_run _ _ _)).
    rewrite (bind_ret_run _ _ _ _ _ Hg).
    apply (bind_raise_run _ _ _ _ _ Hs). }
  assert (Hs : raise_for_status r w1 = (Ret tt, w1)).
  { unfold raise_for_status. by rewrite Hst. }
  set (ctype := Str.lower (default "" (content_type r))).
  destruct (if_log_run (negb (Str.contains ctype "pdf") && negb (Str.endswith url ".pdf"))
              WARNING ("Content-Type sospechoso: " +:+ ctype) w1) as (w2 & Hct & Hfs2).
  assert (Hnd2 : fs w2 !! output_path <> Some Dir) by by rewrite Hfs2.
  pose proof (open_wb_ok output_path w2 Hnd2) as Hopen. set (w3 := set_fs _ w2) in Hopen.
  destruct (write_chunks_run output_path (chunks r) [] w3) as (w4 & Hwr & Hfs4);
    [apply lookup_insert_eq|].
  assert (Hfs4' : fs w4 = <[output_path := File (concat (chunks r))]> (fs w)).
  { rewrite Hfs4. subst w3. simpl. by rewrite insert_insert_eq, Hfs2. }
  assert (Hf4 : fs w4 !! output_path = Some (File (concat (chunks r)))).
  { rewrite Hfs4'. apply lookup_insert_eq. }
  destruct (broken r) as [msg|] eqn:Hbr.
  { assert (Hit : iter_content_into output_path r w3 = (Raise (Exception msg), w4)).
    { unfold iter_content_into. rewrite (bind_ret_run _ _ _ _ _ Hwr). by rewrite Hbr. }
    destruct (download_except_fs (Exception msg) w4) as (w' & Hex & Hfs); [by rewrite Hf4|].
    exists w'. split.
    - erewrite try_raise_run; [apply Hex|].
      rewrite (bind_ret_run _ _ _ _ _ (log_run _ _ _)).
      rewrite (bind_ret_run _ _ _ _ _ Hg).
      rewrite (bind_ret_run _ _ _ _ _ Hs).
      rewrite (bind_ret_run _ _ _ _ _ Hct).
      rewrite (bind_ret_run _ _ _ _ _ Hopen).
      apply (bind_raise_run _ _ _ _ _ Hit).
    - rewrite Hfs, Hfs4'. apply delete_insert_eq. }
  assert (Hit : iter_content_into output_path r w3 = (Ret tt, w4)).
  { unfold iter_content_into. rewrite (bind_ret_run _ _ _ _ _ Hwr). by rewrite Hbr. }
  pose proof (getsize_file E output_path _ w4 Hf4) as Hsz.
  destruct (concat (chunks r)) as [|b0 b] eqn:Hbody.
  - eexists. split.
    + apply try_ret_run.
      rewrite (bind_ret_run _ _ _ _ _ (log_run _ _ _)).
      rewrite (bind_ret_run _ _ _ _ _ Hg).
      rewrite (bind_ret_run _ _ _ _ _ Hs).
      rewrite (bind_ret_run _ _ _ _ _ Hct).
      rewrite (bind_ret_run _ _ _ _ _ Hopen).
      rewrite (bind_ret_run _ _ _ _ _ Hit).
      rewrite (bind_ret_run _ _ _ _ _ Hsz). simpl.
      rewrite (bind_ret_run _ _ _ _ _ (log_run _ _ _)). reflexivity.
    + done.
  - eexists. split.
    + apply try_ret_run.
      rewrite (bind_ret_run _ _ _ _ _ (log_run _ _ _)).
      rewrite (bind_ret_run _ _ _ _ _ Hg).
      rewrite (bind_ret_run _ _ _ _ _ Hs).
      rewrite (bind_ret_run _ _ _ _ _ Hct).
      rewrite (bind_ret_run _ _ _ _ _ Hopen).
      rewrite (bind_ret_run _ _ _ _ _ Hit).
      rewrite (bind_ret_run _ _ _ _ _ Hsz). simpl.
      rewrite (bind_ret_run _ _ _ _ _ Hsz).
      rewrite (bind_ret_run _ _ _ _ _ (log_run _ _ _)). reflexivity.
    + done.
Qed.

(** The download, when the output path is a directory. *)
Lemma download_dir_run w :
  fs w !! output_path = Some Dir ->
  exists msg w',
    download_pdf_from_url E url output_path w = (Raise (Exception msg), w') /\
    fs w' = fs w.
Proof.
  intros Hd. unfold download_pdf_from_url.
  set (w0 := emit (Log INFO ("Descargando PDF desde: " +:+ url)) w).
  set (w1 := emit (HttpGet url) w0).
  destruct (http_get E url) as [msg|r] eqn:Hget.
  { assert (Hg : requests_get E url w0 = (Raise (Exception msg), w1)).
    { unfold requests_get. by rewrite Hget. }
    destruct (download_except_dir (Exception msg) w1 Hd) as (m & w' & Hex & Hfs).
    exists m, w'. split; [|done]. erewrite try_raise_run; [apply Hex|].
    rewrite (bind_ret_run _ _ _ _ _ (log_run _ _ _)).
    apply (bind_raise_run _ _ _ _ _ Hg). }
  assert (Hg : requests_get E url w0 = (Ret r, w1)).
  { unfold requests_get. by rewrite Hget. }
  destruct ((400 <=? status_code r) && (status_code r <? 600)) eqn:Hst.
  { set (e := Exception (Str.of_nat (status_code r) +:+ " Error")).
    assert (Hs : raise_for_status r w1 = (Raise e, w1)).
    { unfold raise_for_status. by rewrite Hst. }
    destruct (download_except_dir e w1 Hd) as (m & w' & Hex & Hfs).
    exists m, w'. split; [|done]. erewrite try_raise_run; [apply Hex|].
    rewrite (bind_ret_run _ _ _ _ _ (log_run _ _ _)).
    rewrite (bind_ret_run _ _ _ _ _ Hg).
    apply (bind_raise_run _ _ _ _ _ Hs). }
  assert (Hs : raise_for_status r w1 = (Ret tt, w1)).
  { unfold raise_for_status. by rewrite Hst. }
  set (ctype := Str.lower (default "" (content_type r))).
  destruct (if_log_run (negb (Str.contains ctype "pdf") && negb (Str.endswith url ".pdf"))
              WARNING ("Content-Type sospechoso: " +:+ ctype) w1) as (w2 & Hct & Hfs2).
  assert (Hd2 : fs w2 !! output_path = Some Dir) by by rewrite Hfs2.
  assert (Hopen : open_wb output_path w2
                  = (Raise (Exception ("[Errno 21] Is a directory: " +:+ output_path)), w2)).
  { unfold open_wb. by rewrite Hd2. }
  destruct (download_except_dir (Exception ("[Errno 21] Is a directory: " +:+ output_path))
              w2 Hd2) as (m & w' & Hex & Hfs).
  exists m, w'. split; [|by rewrite Hfs, Hfs2].
  erewrite try_raise_run; [apply Hex|].
  rewrite (bind_ret_run _ _ _ _ _ (log_run _ _ _)).
  rewrite (bind_ret_run _ _ _ _ _ Hg).
  rewrite (bind_ret_run _ _ _ _ _ Hs).
  rewrite (bind_ret_run _ _ _ _ _ Hct).
  apply (bind_raise_run _ _ _ _ _ Hopen).
Qed.

(** A download that answers [True] has left a non-empty file. *)
Lemma download_true w w' :
  download_pdf_from_url E url output_path w = (Ret true, w') ->
  exists b data, fs w' !! output_path = Some (File (b :: data)).
Proof.
  intros Hrun. destruct (dir_or_not (fs w) output_path) as [Hd|Hnd].
  - destruct (download_dir_run w Hd) as (m & w1 & H1 & _). congruence.
  - destruct (download_run w Hnd) as (w1 & H1 & Hfs). rewrite Hrun in H1.
    injection H1 as Hok <-. destruct (fetched E url) as [[|b data]|]; try done.
    exists b, data. rewrite Hfs. apply lookup_insert_eq.
Qed.

End DownloadRuns.

(** ** The re-checks and the responses *)

Section Outcomes.
Context (E : env).

(** [resolve_source] returns only once a non-empty document is stored at
    the path it returns. *)
Lemma resolve_source_file pdf pdf_url d w p w1 :
  resolve_source E pdf pdf_url d w = (Ret p, w1) ->
  exists b data, fs w1 !! p = Some (File (b :: data)).
Proof.
  unfold resolve_source. destruct (truthy_url pdf_url).
  - intros H. apply bind_ret_inv in H as ([] & w0 & _ & H).
    apply bind_ret_inv in H as (ok & w2 & Hdl & H).
    destruct ok; simpl in H; [|discriminate]. injection H as <- <-.
    by apply (download_true E _ _ _ _ Hdl).
  - destruct pdf as [upload|]; [|discriminate]. intros H.
    apply bind_ret_inv in H as ([] & w0 & _ & H).
    destruct (negb _); [discriminate|].
    destruct (file upload) as [|b data] eqn:Hc; [discriminate|]. simpl in H.
    apply bind_ret_inv in H as ([] & w2 & Hwr & H). injection H as <- <-.
    exists b, data. destruct (dir_or_not (fs w0) (Path.join d "input.pdf")) as [Hd|Hnd].
    + destruct (write_file_dir _ (b :: data) _ Hd) as (e & He). congruence.
    + rewrite (write_file_run _ (b :: data) _ Hnd) in Hwr. injection Hwr as <-.
      simpl. apply lookup_insert_eq.
Qed.

Lemma verify_pdf_file p w b data :
  fs w !! p = Some (File (b :: data)) -> verify_pdf E p w = (Ret tt, w).
Proof.
  intros Hp. unfold verify_pdf.
  by rewrite (bind_ret_run _ _ _ _ _ (missing_or_empty_file E _ _ _ Hp)).
Qed.

Lemma source_error_resolve_source pdf pdf_url d :
  raises_only source_error (resolve_source E pdf pdf_url d).
Proof.
  assert (Hplain : forall A (m : M A), raises_only plain m -> raises_only source_error m).
  { intros A m. apply raises_only_weaken. by intros []. }
  unfold resolve_source. destruct (truthy_url pdf_url).
  - apply raises_only_bind; [apply Hplain, plain_log|]. intros _.
    apply raises_only_bind; [apply Hplain, plain_download|]. intros [|]; simpl.
    + apply raises_only_ret.
    + apply raises_only_raise. simpl. auto.
  - destruct pdf as [upload|]; [|by apply raises_only_raise].
    apply raises_only_bind; [apply Hplain, plain_log|]. intros _.
    destruct (negb _); [apply raises_only_raise; simpl; auto|].
    destruct (length (file upload) =? 0); [apply raises_only_raise; simpl; auto 6|].
    apply raises_only_bind; [|intros; apply raises_only_ret].
    apply Hplain. unfold write_file.
    apply raises_only_bind; [apply plain_open_wb|intros; apply plain_file_write].
Qed.

(** [create_zip_file] answers [True] only when a non-empty archive is at
    the path. *)
Lemma create_zip_file_true ps z w w' :
  create_zip_file E ps z w = (Ret true, w') ->
  exists b data, fs w' !! z = Some (File (b :: data)).
Proof.
  intros Hrun. destruct (dir_or_not (fs w) z) as [Hd|Hnd].
  - destruct (create_zip_file_blocked E ps z w Hd) as (w1 & H1 & _). congruence.
  - destruct (create_zip_file_opened E ps z w Hnd) as (ok & w1 & H1 & _ & _ & Hz).
    rewrite Hrun in H1. injection H1 as <- <-.
    destruct (zip_encode E _) as [[msg residue]|[|b data]]; destruct Hz as [Hok Hfs]; try done.
    exists b, data. rewrite Hfs. apply lookup_insert_eq.
Qed.

(** The three ways in which the rasterize-and-archive part ends. *)
Lemma rasterize_and_archive_outcome p d w :
  exists w',
    rasterize_and_archive E p d w
      = (Raise (HTTPException 500 "No se pudieron generar imágenes del PDF"), w') \/
    rasterize_and_archive E p d w
      = (Raise (HTTPException 500 "No se pudo crear el archivo ZIP"), w') \/
    (rasterize_and_archive E p d w
       = (Ret {| fr_path := Path.join d "images.zip";
                 fr_media_type := "application/zip";
                 fr_filename := "converted_images.zip";
                 fr_background := cleanup_directory E d |}, w') /\
     exists b data, fs w' !! Path.join d "images.zip" = Some (File (b :: data))).
Proof.
  unfold rasterize_and_archive.
  destruct (total_convert E p d w) as (paths & w1 & Hc).
  rewrite (bind_ret_run _ _ _ _ _ Hc).
  destruct (is_empty paths); [exists w1; by left|].
  destruct (total_create_zip E paths (Path.join d "images.zip") w1) as (ok & w2 & Hz).
  rewrite (bind_ret_run _ _ _ _ _ Hz).
  destruct ok; simpl; [|exists w2; right; by left].
  destruct (create_zip_file_true _ _ _ _ Hz) as (b & data & Hf).
  rewrite (bind_ret_run _ _ _ _ _ (missing_or_empty_file E _ _ _ Hf)). simpl.
  rewrite (bind_ret_run _ _ _ _ _ (getsize_file E _ _ _ Hf)).
  rewrite (bind_ret_run _ _ _ _ _ (log_run _ _ _)).
  eexists. right; right. split; [reflexivity|]. by exists b, data.
Qed.

(** What leaves the guarded block of the handler, whatever the request. *)
Lemma guarded_block_outcome pdf pdf_url w1 :
  let d := workspace E in
  let block := (pdf_path <- resolve_source E pdf pdf_url d ;;
                verify_pdf E pdf_path ;;
                rasterize_and_archive E pdf_path d) in
  match block w1 with
  | (Ret r, w2) =>
      r = {| fr_path := Path.join d "images.zip";
             fr_media_type := "application/zip";
             fr_filename := "converted_images.zip";
             fr_background := cleanup_directory E d |} /\
      exists b data, fs w2 !! Path.join d "images.zip" = Some (File (b :: data))
  | (Raise e, _) =>
      source_error e \/
      e = HTTPException 500 "No se pudieron generar imágenes del PDF" \/
      e = HTTPException 500 "No se pudo crear el archivo ZIP"
  end.
Proof.
  intros d block. subst block.
  destruct (resolve_source E pdf pdf_url d w1) as [[p|e] wa] eqn:Hsrc.
  2:{ rewrite (bind_raise_run _ _ _ _ _ Hsrc). left.
      by apply (source_error_resolve_source _ _ _ _ _ _ Hsrc). }
  rewrite (bind_ret_run _ _ _ _ _ Hsrc).
  destruct (resolve_source_file _ _ _ _ _ _ Hsrc) as (b & data & Hf).
  rewrite (bind_ret_run _ _ _ _ _ (verify_pdf_file _ _ _ _ Hf)).
  destruct (rasterize_and_archive_outcome p d wa) as (w2 & [->|[->|[-> Hb]]]); auto.
Qed.

End Outcomes.

(** X5.  Every response of [POST /convert/] is one of these: the archive
    (200, [application/zip], [converted_images.zip], a non-empty body), a
    422 with one of the two source messages, a 400 with one of the three
    refusals of the source, or a 500 with one of the two conversion
    messages, the text of an unexpected error, or the plain answer of the
    framework.  No other status or detail is ever sent. *)
Theorem response_catalogue (E : env) (pdf : option UploadFile)
    (pdf_url : option string) (w : world) :
  catalogued (post_convert E pdf pdf_url w).1.
Proof.
  destruct (one_source pdf pdf_url) eqn:Hone.
  2:{ rewrite (post_convert_rejected E _ _ w Hone). simpl. left.
      split; [done|]. destruct (truthy_pdf pdf); auto. }
  unfold post_convert. rewrite (convert_pdf_one_source E _ _ Hone).
  destruct (makedirs (workspace E) w) as [[[]|e] w1] eqn:Hmk.
  2:{ rewrite (bind_raise_run _ _ _ _ _ Hmk).
      assert (He : plain e) by apply (plain_makedirs _ _ _ _ Hmk).
      destruct e as [s detail|msg]; [done|]. simpl. right; right. auto. }
  rewrite (bind_ret_run _ _ _ _ _ Hmk).
  pose proof (guarded_block_outcome E pdf pdf_url w1) as Hblock. simpl in Hblock.
  destruct ((pdf_path <- resolve_source E pdf pdf_url (workspace E) ;;
             verify_pdf E pdf_path ;;
             rasterize_and_archive E pdf_path (workspace E)) w1) as [[r|e] w2] eqn:Hrun.
  - rewrite (try_ret_run _ _ _ _ _ Hrun). destruct Hblock as (-> & b & data & Hf).
    simpl. by rewrite Hf.
  - rewrite (try_raise_run _ _ _ _ _ Hrun).
    destruct (on_error_world E (workspace E) e w2) as (w0 & w3 & -> & _ & _).
    destruct Hblock as [He|[-> | ->]].
    + destruct e as [s detail|msg]; simpl in *.
      * right; left. done.
      * right; right. split; [done|]. do 3 right. by exists msg.
    + simpl. right; right. auto.
    + simpl. right; right. auto.
Qed.

(** X6.  The re-check of the source never fires: whenever the source has
    been fetched or stored, the document is on disk and not empty, so the
    shared gate lets the request through and changes nothing.  Its 400
    ("PDF inválido o vacío") is never sent. *)
Theorem source_recheck_passes (E : env) (pdf : option UploadFile)
    (pdf_url : option string) (temp_dir : string) (w : world) (pdf_path : string)
    (w1 : world) :
  resolve_source E pdf pdf_url temp_dir w = (Ret pdf_path, w1) ->
  verify_pdf E pdf_path w1 = (Ret tt, w1).
Proof.
  intros Hsrc. destruct (resolve_source_file E _ _ _ _ _ _ Hsrc) as (b & data & Hf).
  unfold verify_pdf.
  rewrite (bind_ret_run _ _ _ _ _ (missing_or_empty_file E _ _ _ Hf)).
  reflexivity.
Qed.

(** X7.  The re-check of the archive never fires either: when
    [create_zip_file] has answered [True], the archive is on disk and not
    empty, so the test that follows in the handler finds nothing wrong and
    its 500 ("El archivo ZIP está vacío o corrupto") is never sent. *)
Theorem archive_recheck_passes (E : env) (image_paths : list string)
    (zip_path : string) (w w1 : world) :
  create_zip_file E image_paths zip_path w = (Ret true, w1) ->
  missing_or_empty E zip_path w1 = (Ret false, w1).
Proof.
  intros Hz. destruct (create_zip_file_true E _ _ _ _ Hz) as (b & data & Hf).
  unfold missing_or_empty.
  rewrite (bind_ret_run _ _ _ _ _ (path_exists_run _ _)), Hf. simpl.
  by rewrite (bind_ret_run _ _ _ _ _ (getsize_file E _ _ _ Hf)).
Qed.

(** X8.  The workspace is made before the [try]: when its path is taken by
    a regular file, the request ends with the plain 500 of the framework
    and the world is as before: nothing is logged, and no cleanup runs, so
    the file that was in the way is not touched. *)
Theorem workspace_blocked (E : env) (pdf : option UploadFile)
    (pdf_url : option string) (w : world) (data : bytes) :
  one_source pdf pdf_url = true ->
  fs w !! workspace E = Some (File data) ->
  post_convert E pdf pdf_url w = (Failure 500 "Internal Server Error", w).
Proof.
  intros Hone Hw. unfold post_convert. rewrite (convert_pdf_one_source E _ _ Hone).
  destruct (makedirs_blocked _ _ _ Hw) as (msg & Hmk).
  by rewrite (bind_raise_run _ _ _ _ _ Hmk).
Qed.

(** X9.  [download_pdf_from_url] raises exactly when the output path is a
    directory, and then it raises whatever the host answers, even when the
    request itself has failed: its [except] clause finds the path and calls
    [os.remove] on it.  In every other case it catches what goes wrong and
    answers a boolean. *)
Theorem download_raises_iff_directory (E : env) (url output_path : string) (w : world) :
  (exists e w', download_pdf_from_url E url output_path w = (Raise e, w'))
  <-> fs w !! output_path = Some Dir.
Proof.
  split.
  - intros (e & w' & Hrun). destruct (dir_or_not (fs w) output_path) as [Hd|Hnd]; [done|].
    destruct (download_run E url output_path w Hnd) as (w1 & H1 & _). congruence.
  - intros Hd. destruct (download_dir_run E url output_path w Hd) as (msg & w' & Hrun & _).
    by exists (Exception msg), w'.
Qed.

(** ** From the stored document to the response *)

Lemma join_inj (d a b : string) :
  Str.startswith a "/" = false -> Str.startswith b "/" = false ->
  Path.join d a = Path.join d b -> a = b.
Proof.
  intros Ha Hb. unfold Path.join. rewrite Ha, Hb.
  destruct (String.eqb d "" || Str.endswith d "/"); intros H.
  - by apply (str_app_inv_head d) in H.
  - apply (str_app_inv_head d) in H. by apply (str_app_inv_head "/") in H.
Qed.

Lemma archive_is_no_page d n : Path.join d "images.zip" <> page_path d n.
Proof.
  intros H. apply join_inj in H; [|done|apply page_name_no_root].
  unfold page_name in H. rewrite str_app_cons in H. discriminate H.
Qed.

Lemma input_is_no_page d n : Path.join d "input.pdf" <> page_path d n.
Proof.
  intros H. apply join_inj in H; [|done|apply page_name_no_root].
  unfold page_name in H. rewrite str_app_cons in H. discriminate H.
Qed.

Section Conversion.
Context (E : env) (d pdf_path : string).

Local Abbreviation zip_path := (Path.join d "images.zip").

(** The listing of the pages that a conversion has written. *)
Lemma zip_listing_pages (f : gmap string node) imgs : forall i,
  (forall k img, imgs !! k = Some img ->
     f !! page_path d (S (i + k)) = Some (File (jpeg_encode E img))) ->
  zip_listing f (map (page_path d) (seq (S i) (length imgs))) i = page_entries_from E i imgs.
Proof.
  induction imgs as [|img imgs IH]; intros i H; [done|].
  simpl. pose proof (H 0 img eq_refl) as H0. rewrite Nat.add_0_r in H0. rewrite H0.
  simpl. f_equal. apply IH. intros k img' Hk.
  replace (S (S i + k)) with (S (i + S k)) by lia. by apply H.
Qed.

(** The conversion, when every page can be written. *)
Lemma convert_run w images f :
  pdf2image E (fs w) pdf_path d = inr (images, f) ->
  (forall n, 1 <= n <= length images -> f !! page_path d n <> Some Dir) ->
  exists w',
    convert_pdf_to_images E pdf_path d w
      = (Ret (map (page_path d) (seq 1 (length images))), w') /\
    (forall k img, images !! k = Some img ->
       fs w' !! page_path d (S k) = Some (File (jpeg_encode E img))) /\
    (forall q, (forall n, 1 <= n <= length images -> q <> page_path d n) ->
       fs w' !! q = f !! q).
Proof.
  intros Hr Hnd. unfold convert_pdf_to_images.
  set (w0 := emit (Log INFO ("Convirtiendo PDF: " +:+ pdf_path)) w).
  assert (Hr0 : pdf2image E (fs w0) pdf_path d = inr (images, f)) by done.
  pose proof (convert_from_path_ok E pdf_path d w0 images f Hr0) as Hc.
  set (w1 := set_fs f _) in Hc.
  destruct (save_pages_content E d images 0 [] w1) as (w2 & Hrun & Hnew & Hold).
  { intros n Hn. apply Hnd. lia. }
  eexists. split; [|split].
  - apply try_ret_run.
    rewrite (bind_ret_run _ _ _ _ _ (log_run _ _ _)).
    rewrite (bind_ret_run _ _ _ _ _ Hc).
    rewrite (bind_ret_run _ _ _ _ _ Hrun).
    rewrite (bind_ret_run _ _ _ _ _ (log_run _ _ _)). reflexivity.
  - intros k img Hk. simpl. by apply (Hnew k img).
  - intros q Hq. simpl. rewrite Hold; [done|]. intros n Hn. apply Hq. lia.
Qed.

(** Rasterization and archive, when every page and the archive can be
    written: the outcome follows from the pages and the codec. *)
Lemma rasterize_and_archive_run w images f :
  pdf2image E (fs w) pdf_path d = inr (images, f) ->
  (forall n, 1 <= n <= length images -> f !! page_path d n <> Some Dir) ->
  f !! zip_path <> Some Dir ->
  exists w',
    rasterize_and_archive E pdf_path d w
      = (match images with
         | [] => Raise (HTTPException 500 "No se pudieron generar imágenes del PDF")
         | _ :: _ =>
             match zip_encode E (page_entries E images) with
             | inr (_ :: _) =>
                 Ret {| fr_path := zip_path;
                        fr_media_type := "application/zip";
                        fr_filename := "converted_images.zip";
                        fr_background := cleanup_directory E d |}
             | _ => Raise (HTTPException 500 "No se pudo crear el archivo ZIP")
             end
         end, w') /\
    (forall b, images <> [] -> zip_encode E (page_entries E images) = inr b ->
       fs w' !! zip_path = Some (File b)).
Proof.
  intros Hr Hnd Hz. unfold rasterize_and_archive.
  destruct (convert_run w images f Hr Hnd) as (w1 & Hc & Hnew & Hold).
  rewrite (bind_ret_run _ _ _ _ _ Hc).
  assert (Hm : forall X (a b : X),
            match images with [] => a | _ :: _ => b end
            = if is_empty images then a else b) by (intros; by destruct images).
  rewrite Hm.
  replace (is_empty (map (page_path d) (seq 1 (length images)))) with (is_empty images)
    by by destruct images.
  destruct (is_empty images) eqn:Hemp.
  { exists w1. split; [done|]. intros b Hne. by destruct images. }
  assert (Hz1 : fs w1 !! zip_path <> Some Dir).
  { rewrite Hold; [done|]. intros n _. apply archive_is_no_page. }
  destruct (create_zip_file_opened E (map (page_path d) (seq 1 (length images))) zip_path
              w1 Hz1) as (ok & w2 & Hzip & _ & _ & Henc).
  rewrite (bind_ret_run _ _ _ _ _ Hzip).
  assert (Hes : zip_listing (<[zip_path := File []]> (fs w1))
                  (map (page_path d) (seq 1 (length images))) 0 = page_entries E images).
  { apply zip_listing_pages. intros k img Hk. simpl.
    rewrite lookup_insert_ne by apply archive_is_no_page. by apply Hnew. }
  rewrite Hes in Henc.
  destruct (zip_encode E (page_entries E images)) as [[msg residue]|[|b body]];
    destruct Henc as [-> Hfs]; simpl.
  - exists w2. split; [done|]. intros b _ [=].
  - exists w2. split; [done|]. intros b _ [= <-]. rewrite Hfs.
    apply lookup_insert_eq.
  - assert (Hf : fs w2 !! zip_path = Some (File (b :: body))).
    { rewrite Hfs. apply lookup_insert_eq. }
    rewrite (bind_ret_run _ _ _ _ _ (missing_or_empty_file E _ _ _ Hf)). simpl.
    rewrite (bind_ret_run _ _ _ _ _ (getsize_file E _ _ _ Hf)).
    rewrite (bind_ret_run _ _ _ _ _ (log_run _ _ _)).
    eexists. split; [done|]. by intros b' _ [= <-].
Qed.

End Conversion.

(** ** A request, from the source to the response *)

Section Requests.
Context (E : env).

Local Abbreviation d := (workspace E).
Local Abbreviation pdf_path := (Path.join (workspace E) "input.pdf").

Lemma fresh_after_makedirs w :
  fresh_workspace E w ->
  makedirs d w = (Ret tt, set_fs (<[d := Dir]> (fs w)) w) /\
  fs (set_fs (<[d := Dir]> (fs w)) w) !! pdf_path = None.
Proof.
  intros Hfresh. split.
  - apply makedirs_fresh, Hfresh, under_self.
  - simpl. rewrite lookup_insert_ne by (symmetry; apply join_input_neq).
    by apply Hfresh, under_workspace.
Qed.

(** The source of a request into a fresh workspace: the document is stored
    under [input.pdf], or the request is refused. *)
Lemma resolve_source_run pdf pdf_url w1 :
  one_source pdf pdf_url = true ->
  fs w1 !! pdf_path = None ->
  exists w2,
    match source_bytes E pdf pdf_url with
    | Some data =>
        resolve_source E pdf pdf_url d w1 = (Ret pdf_path, w2) /\
        fs w2 = <[pdf_path := File data]> (fs w1)
    | None =>
        resolve_source E pdf pdf_url d w1
          = (Raise (HTTPException 400 (refusal_detail pdf pdf_url)), w2)
    end.
Proof.
  intros Hone Hp.
  assert (Hnd : fs w1 !! pdf_path <> Some Dir) by by rewrite Hp.
  unfold source_bytes, refusal_detail. destruct (truthy_url pdf_url) eqn:Hurl.
  - unfold resolve_source. rewrite Hurl.
    rewrite (bind_ret_run _ _ _ _ _ (log_run _ _ _)).
    destruct (download_run E (default "" pdf_url) pdf_path
                (emit (Log INFO ("Procesando URL: " +:+ default "" pdf_url)) w1) Hnd)
      as (w2 & Hdl & Hfs).
    rewrite (bind_ret_run _ _ _ _ _ Hdl). exists w2.
    by destruct (fetched E (default "" pdf_url)) as [[|b data]|].
  - destruct pdf as [upload|]; [|unfold one_source in Hone; by rewrite Hurl in Hone].
    destruct (Str.endswith (Str.lower (filename upload)) ".pdf") eqn:Hpdf.
    + destruct (file upload) as [|b data] eqn:Hc; simpl.
      * eexists. by apply resolve_upload_empty.
      * eexists. rewrite <- Hc.
        rewrite (resolve_upload_stored E upload pdf_url Hurl w1 Hpdf); [done| |done].
        by rewrite Hc.
    + simpl. eexists. by apply resolve_upload_bad_name.
Qed.

(** A request whose source brings a document goes on with the
    rasterization of the stored document, under the [except] clauses. *)
Lemma source_stored pdf pdf_url w data :
  one_source pdf pdf_url = true -> fresh_workspace E w ->
  source_bytes E pdf pdf_url = Some data ->
  exists w2,
    fs w2 = with_source E (fs w) data /\
    convert_pdf E pdf pdf_url w
      = try_except (rasterize_and_archive E pdf_path d) (on_error E d) w2.
Proof.
  intros Hone Hfresh Hsrc. destruct (fresh_after_makedirs w Hfresh) as [Hmk Hp].
  destruct (resolve_source_run pdf pdf_url _ Hone Hp) as (w2 & Hrun).
  rewrite Hsrc in Hrun. destruct Hrun as [Hrun Hfs].
  exists w2. split; [done|].
  rewrite (convert_pdf_one_source E _ _ Hone), (bind_ret_run _ _ _ _ _ Hmk).
  rewrite (try_bind_ret_run _ _ _ _ _ _ Hrun).
  assert (Hv : verify_pdf E pdf_path w2 = (Ret tt, w2)).
  { assert (Hne : exists b rest, data = b :: rest).
    { unfold source_bytes in Hsrc. destruct (truthy_url pdf_url).
      - destruct (fetched E _) as [[|b rest]|]; try done. injection Hsrc as <-. eauto.
      - destruct pdf as [upload|]; [|done]. destruct (Str.endswith _ _); [|done].
        destruct (file upload) as [|b rest]; [done|]. injection Hsrc as <-. eauto. }
    destruct Hne as (b & rest & ->).
    apply (verify_pdf_file E _ _ b rest). rewrite Hfs. apply lookup_insert_eq. }
  by rewrite (try_bind_ret_run _ _ _ _ _ _ Hv).
Qed.

(** In a fresh workspace a tidy rasterizer leaves no directory in the way
    of a page or of the archive. *)
Lemma residual_has_no_directory w data pdf images f :
  tidy E -> fresh_workspace E w ->
  pdf2image E (with_source E (fs w) data) pdf d = inr (images, f) ->
  (forall n, f !! page_path d n <> Some Dir) /\
  f !! Path.join d "images.zip" <> Some Dir.
Proof.
  intros [Ht _] Hfresh Hr.
  pose proof (Ht (with_source E (fs w) data) pdf d) as (_ & Hdir & _).
  unfold rasterizer_residual in Hdir. rewrite Hr in Hdir.
  assert (Hin : forall p, under d p = true -> p <> d -> p <> pdf_path -> f !! p <> Some Dir).
  { intros p Hu Hpd Hpp Hf. apply Hdir in Hf. unfold with_source in Hf.
    rewrite !lookup_insert_ne in Hf by done. by rewrite (Hfresh p Hu) in Hf. }
  split.
  - intros n. apply Hin.
    + apply under_page, workspace_nonempty.
    + unfold page_path. intros H. apply (f_equal String.length) in H.
      revert H. unfold Path.join. rewrite page_name_no_root.
      destruct (String.eqb d "" || Str.endswith d "/");
        rewrite ?str_length_app; unfold page_name; rewrite ?str_length_app; simpl; lia.
    + intros H. by apply (input_is_no_page d n).
  - apply Hin.
    + apply under_archive, workspace_nonempty.
    + intros H. apply (f_equal String.length) in H. revert H. unfold Path.join. simpl.
      destruct (String.eqb d "" || Str.endswith d "/");
        rewrite ?str_length_app; simpl; lia.
    + intros H. apply join_inj in H; done.
Qed.

End Requests.

(** X10.  A request into a fresh workspace whose source brings a document
    and whose document the rasterizer turns into pages is answered by what
    the codec makes of the pages: the archive of the entries
    [page_001.jpg], [page_002.jpg], ... with the JPEG encodings of the pages
    in page order, sent as [converted_images.zip]; a 500 when there is no
    page, and a 500 when the codec fails or yields nothing.  This holds for
    an upload as for a URL. *)
Theorem request_conversion (E : env) (pdf : option UploadFile)
    (pdf_url : option string) (w : world) (data : bytes) (images : list image)
    (f : gmap string node) :
  one_source pdf pdf_url = true ->
  fresh_workspace E w ->
  tidy E ->
  source_bytes E pdf pdf_url = Some data ->
  pdf2image E (with_source E (fs w) data) (Path.join (workspace E) "input.pdf")
    (workspace E) = inr (images, f) ->
  (post_convert E pdf pdf_url w).1 = conversion_response E images.
Proof.
  intros Hone Hfresh Ht Hsrc Hr.
  destruct (source_stored E pdf pdf_url w data Hone Hfresh Hsrc) as (w2 & Hfs & Hconv).
  destruct (residual_has_no_directory E w data _ images f Ht Hfresh Hr) as [Hpages Hzip].
  rewrite <- Hfs in Hr.
  destruct (rasterize_and_archive_run E (workspace E) _ w2 images f Hr)
    as (w3 & Hrun & Hbody); [by intros n _|done|].
  unfold post_convert, conversion_response. rewrite Hconv.
  destruct images as [|img images'].
  { rewrite (try_raise_run _ _ _ _ _ Hrun).
    by destruct (on_error_world E (workspace E)
                   (HTTPException 500 "No se pudieron generar imágenes del PDF") w3)
      as (w0 & w4 & -> & _). }
  destruct (zip_encode E (page_entries E (img :: images'))) as [[msg residue]|[|b body]] eqn:Henc.
  - rewrite (try_raise_run _ _ _ _ _ Hrun).
    by destruct (on_error_world E (workspace E)
                   (HTTPException 500 "No se pudo crear el archivo ZIP") w3)
      as (w0 & w4 & -> & _).
  - rewrite (try_raise_run _ _ _ _ _ Hrun).
    by destruct (on_error_world E (workspace E)
                   (HTTPException 500 "No se pudo crear el archivo ZIP") w3)
      as (w0 & w4 & -> & _).
  - rewrite (try_ret_run _ _ _ _ _ Hrun). simpl.
    by rewrite (Hbody (b :: body)).
Qed.

(** X11.  When the rasterizer fails on the stored document, the request is
    answered 500 with the fixed message of the handler, whatever the error
    was: [convert_pdf_to_images] has caught it and answered the empty list,
    so the text of the error is not sent to the client. *)
Theorem rasterizer_error_is_generic (E : env) (pdf : option UploadFile)
    (pdf_url : option string) (w : world) (data : bytes) (msg : string)
    (f : gmap string node) :
  one_source pdf pdf_url = true ->
  fresh_workspace E w ->
  source_bytes E pdf pdf_url = Some data ->
  pdf2image E (with_source E (fs w) data) (Path.join (workspace E) "input.pdf")
    (workspace E) = inl (msg, f) ->
  (post_convert E pdf pdf_url w).1
    = Failure 500 "No se pudieron generar imágenes del PDF".
Proof.
  intros Hone Hfresh Hsrc Hr.
  destruct (source_stored E pdf pdf_url w data Hone Hfresh Hsrc) as (w2 & Hfs & Hconv).
  rewrite <- Hfs in Hr.
  destruct (convert_rasterizer_error E _ _ w2 msg f Hr) as (w3 & Hc).
  assert (Hrun : rasterize_and_archive E (Path.join (workspace E) "input.pdf")
                   (workspace E) w2
                 = (Raise (HTTPException 500 "No se pudieron generar imágenes del PDF"), w3)).
  { unfold rasterize_and_archive. by rewrite (bind_ret_run _ _ _ _ _ Hc). }
  unfold post_convert. rewrite Hconv, (try_raise_run _ _ _ _ _ Hrun).
  by destruct (on_error_world E (workspace E)
                 (HTTPException 500 "No se pudieron generar imágenes del PDF") w3)
    as (w0 & w4 & -> & _).
Qed.


(** ** The events of a request *)

Section EmitsRules.
Context {A B : Type} (P : event -> Prop).

Lemma emits_silent (m : M A) : (forall w, trace (m w).2 = trace w) -> emits_only P m.
Proof. intros H w. exists []. by rewrite H. Qed.

Lemma emits_ret (a : A) : emits_only P (ret a).
Proof. by apply emits_silent. Qed.

Lemma emits_raise (e : exn) : emits_only P (@raise A e).
Proof. by apply emits_silent. Qed.

Lemma emits_bind (m : M A) (k : A -> M B) :
  emits_only P m -> (forall a, emits_only P (k a)) -> emits_only P (bind m k).
Proof.
  intros Hm Hk w. unfold bind. destruct (Hm w) as (l1 & H1 & HP1).
  destruct (m w) as [[a|e] w1]; simpl in H1.
  - destruct (Hk a w1) as (l2 & H2 & HP2). exists (l2 ++ l1).
    rewrite H2, H1, app_assoc. split; [done|]. by apply Forall_app.
  - by exists l1.
Qed.

Lemma emits_try (m : M A) (h : exn -> M A) :
  emits_only P m -> (forall e, emits_only P (h e)) -> emits_only P (try_except m h).
Proof.
  intros Hm Hh w. unfold try_except. destruct (Hm w) as (l1 & H1 & HP1).
  destruct (m w) as [[a|e] w1]; simpl in H1.
  - by exists l1.
  - destruct (Hh e w1) as (l2 & H2 & HP2). exists (l2 ++ l1).
    rewrite H2, H1, app_assoc. split; [done|]. by apply Forall_app.
Qed.

End EmitsRules.

Section EmitsPrimitives.
Context (P : event -> Prop).
Hypothesis P_log : forall lvl msg, P (Log lvl msg).

Lemma emits_log lvl msg : emits_only P (log lvl msg).
Proof. intros w. exists [Log lvl msg]. split; [done|]. by constructor. Qed.

Lemma emits_path_exists p : emits_only P (path_exists p).
Proof. by apply emits_silent. Qed.

Lemma emits_open_wb p : emits_only P (open_wb p).
Proof. apply emits_silent. intros w. unfold open_wb. by destruct (fs w !! p) as [[|d]|]. Qed.

Lemma emits_file_write p d : emits_only P (file_write p d).
Proof. apply emits_silent. intros w. unfold file_write. by destruct (fs w !! p) as [[|d']|]. Qed.

Lemma emits_os_remove p : emits_only P (os_remove p).
Proof. apply emits_silent. intros w. unfold os_remove. by destruct (fs w !! p) as [[|d]|]. Qed.

Lemma emits_makedirs p : emits_only P (makedirs p).
Proof. apply emits_silent. intros w. unfold makedirs. by destruct (fs w !! p) as [[|d]|]. Qed.

Lemma emits_getsize E p : emits_only P (getsize E p).
Proof. apply emits_silent. intros w. unfold getsize. by destruct (fs w !! p) as [[|d]|]. Qed.

Lemma emits_zipf_write p n : emits_only P (zipf_write p n).
Proof. apply emits_silent. intros w. unfold zipf_write. by destruct (fs w !! p) as [[|d]|]. Qed.

Lemma emits_raise_for_status r : emits_only P (raise_for_status r).
Proof. unfold raise_for_status. destruct (_ && _); [apply emits_raise|apply emits_ret]. Qed.

Lemma emits_rmtree E d : emits_only P (rmtree E d).
Proof.
  apply emits_silent. intros w. unfold rmtree.
  destruct (fs w !! d) as [[|b]|]; [|done|done]. by destruct (rmtree_fault E (fs w) d) as [[msg f]|].
Qed.

Lemma emits_requests_get E url : P (HttpGet url) -> emits_only P (requests_get E url).
Proof.
  intros HP w. exists [HttpGet url]. split; [|by constructor].
  unfold requests_get. by destruct (http_get E url).
Qed.

Lemma emits_convert_from_path E p o :
  (forall n, P (Rasterize p o n)) -> emits_only P (convert_from_path E p o).
Proof.
  intros HP w. exists [Rasterize p o (fs w !! p)]. split; [|by constructor].
  unfold convert_from_path. by destruct (pdf2image E (fs w) p o) as [[msg f]|[images f]].
Qed.

Lemma emits_zip_close E z es : P (Archive z es) -> emits_only P (zip_close E z es).
Proof.
  intros HP w. exists [Archive z es]. split; [|by constructor].
  unfold zip_close, bind, file_write.
  destruct (zip_encode E es) as [[msg residue]|b]; simpl;
    by destruct (fs w !! z) as [[|d]|].
Qed.

Lemma emits_write_chunks p cs : emits_only P (write_chunks p cs).
Proof.
  induction cs as [|c cs IH]; simpl; [apply emits_ret|].
  apply emits_bind; [|done]. destruct (is_empty c); [apply emits_ret|apply emits_file_write].
Qed.

Lemma emits_download E url p :
  P (HttpGet url) -> emits_only P (download_pdf_from_url E url p).
Proof.
  intros HP. unfold download_pdf_from_url, iter_content_into. apply emits_try.
  - apply emits_bind; [apply emits_log|intros _].
    apply emits_bind; [by apply emits_requests_get|intros r].
    apply emits_bind; [apply emits_raise_for_status|intros _].
    apply emits_bind; [destruct (_ && _); [apply emits_log|apply emits_ret]|intros _].
    apply emits_bind; [apply emits_open_wb|intros _].
    apply emits_bind.
    { apply emits_bind; [apply emits_write_chunks|intros _].
      destruct (broken r); [apply emits_raise|apply emits_ret]. }
    intros _. apply emits_bind; [apply emits_getsize|intros size].
    destruct (size =? 0).
    + apply emits_bind; [apply emits_log|intros _; apply emits_ret].
    + apply emits_bind; [apply emits_getsize|intros size'].
      apply emits_bind; [apply emits_log|intros _; apply emits_ret].
  - intros e. apply emits_bind; [apply emits_log|intros _].
    apply emits_bind; [apply emits_path_exists|intros present].
    apply emits_bind; [|intros _; apply emits_ret].
    destruct present; [apply emits_os_remove|apply emits_ret].
Qed.

Lemma emits_save_pages E o imgs : forall i acc, emits_only P (save_pages E o imgs i acc).
Proof.
  induction imgs as [|img imgs IH]; intros i acc; simpl; [apply emits_ret|].
  apply emits_bind.
  { unfold image_save, write_file.
    apply emits_bind; [apply emits_open_wb|intros _; apply emits_file_write]. }
  intros _. apply emits_bind; [apply emits_log|intros _; apply IH].
Qed.

Lemma emits_convert E p o :
  (forall n, P (Rasterize p o n)) -> emits_only P (convert_pdf_to_images E p o).
Proof.
  intros HP. unfold convert_pdf_to_images. apply emits_try.
  - apply emits_bind; [apply emits_log|intros _].
    apply emits_bind; [by apply emits_convert_from_path|intros images].
    apply emits_bind; [apply emits_save_pages|intros paths].
    apply emits_bind; [apply emits_log|intros _; apply emits_ret].
  - intros e. apply emits_bind; [apply emits_log|intros _; apply emits_ret].
Qed.

Lemma emits_zip_pages ps : forall i acc, emits_only P (zip_pages ps i acc).
Proof.
  induction ps as [|p ps IH]; intros i acc; simpl; [apply emits_ret|].
  apply emits_bind; [apply emits_path_exists|intros present].
  destruct present; [|apply IH].
  apply emits_bind; [apply emits_zipf_write|intros entry].
  apply emits_bind; [apply emits_log|intros _; apply IH].
Qed.

Lemma emits_create_zip E ps z :
  (forall es, P (Archive z es)) -> emits_only P (create_zip_file E ps z).
Proof.
  intros HP. unfold create_zip_file. apply emits_try.
  - apply emits_bind; [apply emits_log|intros _].
    apply emits_bind; [apply emits_open_wb|intros _].
    apply emits_bind; [apply emits_zip_pages|intros entries].
    apply emits_bind; [by apply emits_zip_close|intros _].
    apply emits_bind; [apply emits_path_exists|intros present].
    apply emits_bind.
    { destruct present; [|apply emits_ret].
      apply emits_bind; [apply emits_getsize|intros size; apply emits_ret]. }
    intros nonempty. destruct nonempty.
    + apply emits_bind; [apply emits_getsize|intros size].
      apply emits_bind; [apply emits_log|intros _; apply emits_ret].
    + apply emits_bind; [apply emits_log|intros _; apply emits_ret].
  - intros e. apply emits_bind; [apply emits_log|intros _; apply emits_ret].
Qed.

Lemma emits_cleanup E d : P (Cleanup d) -> emits_only P (cleanup_directory E d).
Proof.
  intros HP w. unfold cleanup_directory.
  assert (Hbody : emits_only P
            (try_except
               (present <- path_exists d ;;
                if present then rmtree E d ;; log INFO ("Directorio limpiado: " +:+ d)
                else ret tt)
               (fun e => log WARNING ("No se pudo limpiar directorio " +:+ d +:+ ": "
                                      +:+ str_exn e)))).
  { apply emits_try; [|intros e; apply emits_log].
    apply emits_bind; [apply emits_path_exists|intros present].
    destruct present; [|apply emits_ret].
    apply emits_bind; [apply emits_rmtree|intros _; apply emits_log]. }
  destruct (Hbody (emit (Cleanup d) w)) as (l & Hl & HPl).
  exists (l ++ [Cleanup d]). rewrite Hl. simpl. rewrite <- app_assoc. split; [done|].
  apply Forall_app. split; [done|]. by constructor.
Qed.

Lemma emits_missing_or_empty E p : emits_only P (missing_or_empty E p).
Proof.
  unfold missing_or_empty. apply emits_bind; [apply emits_path_exists|intros present].
  destruct (negb present); [apply emits_ret|].
  apply emits_bind; [apply emits_getsize|intros size; apply emits_ret].
Qed.

Lemma emits_verify_pdf E p : emits_only P (verify_pdf E p).
Proof.
  unfold verify_pdf. apply emits_bind; [apply emits_missing_or_empty|intros bad].
  destruct bad; [apply emits_raise|apply emits_ret].
Qed.

Lemma emits_resolve_source E pdf pdf_url d :
  (truthy_url pdf_url = true -> P (HttpGet (default "" pdf_url))) ->
  emits_only P (resolve_source E pdf pdf_url d).
Proof.
  intros HP. unfold resolve_source. destruct (truthy_url pdf_url).
  - apply emits_bind; [apply emits_log|intros _].
    apply emits_bind; [by apply emits_download, HP|intros ok].
    destruct (negb ok); [apply emits_raise|apply emits_ret].
  - destruct pdf as [upload|]; [|apply emits_raise].
    apply emits_bind; [apply emits_log|intros _].
    destruct (negb _); [apply emits_raise|].
    destruct (length (file upload) =? 0); [apply emits_raise|].
    apply emits_bind; [|intros _; apply emits_ret].
    unfold write_file. apply emits_bind; [apply emits_open_wb|intros _; apply emits_file_write].
Qed.

Lemma emits_rasterize_and_archive E p d :
  (forall n, P (Rasterize p d n)) ->
  (forall es, P (Archive (Path.join d "images.zip") es)) ->
  emits_only P (rasterize_and_archive E p d).
Proof.
  intros HPr HPa. unfold rasterize_and_archive.
  apply emits_bind; [by apply emits_convert|intros paths].
  destruct (is_empty paths); [apply emits_raise|].
  apply emits_bind; [by apply emits_create_zip|intros ok].
  destruct (negb ok); [apply emits_raise|].
  apply emits_bind; [apply emits_missing_or_empty|intros bad].
  destruct bad; [apply emits_raise|].
  apply emits_bind; [apply emits_getsize|intros size].
  apply emits_bind; [apply emits_log|intros _; apply emits_ret].
Qed.

Lemma emits_on_error E d e : P (Cleanup d) -> emits_only P (on_error E d e).
Proof.
  intros HP. destruct e as [s detail|msg]; simpl.
  - apply emits_bind; [by apply emits_cleanup|intros _; apply emits_raise].
  - apply emits_bind; [apply emits_log|intros _].
    apply emits_bind; [by apply emits_cleanup|intros _; apply emits_raise].
Qed.

End EmitsPrimitives.

(** X12.  A request into a fresh workspace whose source brings no document
    is answered 400, with the message of its source: the download has
    failed or brought nothing; the name of the upload does not end in
    [.pdf]; the upload is empty (the name is tested first).  Neither the
    rasterizer nor the archiver has been called. *)
Theorem source_refused (E : env) (pdf : option UploadFile)
    (pdf_url : option string) (w : world) :
  one_source pdf pdf_url = true ->
  fresh_workspace E w ->
  source_bytes E pdf pdf_url = None ->
  (post_convert E pdf pdf_url w).1 = Failure 400 (refusal_detail pdf pdf_url) /\
  exists l, trace (post_convert E pdf pdf_url w).2 = l ++ trace w /\
            Forall before_rasterizer l.
Proof.
  intros Hone Hfresh Hsrc. destruct (fresh_after_makedirs E w Hfresh) as [Hmk Hp].
  set (w1 := set_fs _ w) in *.
  destruct (resolve_source_run E pdf pdf_url w1 Hone Hp) as (w2 & Hrun).
  rewrite Hsrc in Hrun.
  assert (Hlog : forall lvl msg, before_rasterizer (Log lvl msg)) by done.
  destruct (emits_resolve_source before_rasterizer Hlog E pdf pdf_url (workspace E)
              (fun _ => I) w1) as (l1 & H1 & HP1).
  rewrite Hrun in H1. simpl in H1.
  destruct (emits_on_error before_rasterizer Hlog E (workspace E)
              (HTTPException 400 (refusal_detail pdf pdf_url)) I w2) as (l2 & H2 & HP2).
  unfold post_convert.
  rewrite (convert_pdf_one_source E _ _ Hone), (bind_ret_run _ _ _ _ _ Hmk).
  rewrite (try_bind_raise_run _ _ _ _ _ _ Hrun).
  destruct (on_error_world E (workspace E)
              (HTTPException 400 (refusal_detail pdf pdf_url)) w2) as (w0 & w3 & Herr & _).
  rewrite Herr in *. simpl in *. split; [done|].
  exists (l2 ++ l1). rewrite H2, H1, app_assoc. split; [done|]. by apply Forall_app.
Qed.

(** A bind whose continuation is only run on the values that the first
    part returns. *)
Lemma emits_bind_post {A B} (P : event -> Prop) (Q : A -> Prop) (m : M A) (k : A -> M B) :
  emits_only P m ->
  (forall w a w', m w = (Ret a, w') -> Q a) ->
  (forall a, Q a -> emits_only P (k a)) ->
  emits_only P (bind m k).
Proof.
  intros Hm HQ Hk w. unfold bind. destruct (Hm w) as (l1 & H1 & HP1).
  destruct (m w) as [[a|e] w1] eqn:Hrun; simpl in H1.
  - destruct (Hk a (HQ _ _ _ Hrun) w1) as (l2 & H2 & HP2). exists (l2 ++ l1).
    rewrite H2, H1, app_assoc. split; [done|]. by apply Forall_app.
  - by exists l1.
Qed.

(** [resolve_source] returns the path of [input.pdf] in the directory it
    was given. *)
Lemma resolve_source_path E pdf pdf_url d w p w' :
  resolve_source E pdf pdf_url d w = (Ret p, w') -> p = Path.join d "input.pdf".
Proof.
  unfold resolve_source. destruct (truthy_url pdf_url).
  - intros H. apply bind_ret_inv in H as ([] & w0 & _ & H).
    apply bind_ret_inv in H as (ok & w2 & _ & H).
    destruct ok; simpl in H; [|discriminate]. by injection H as <- _.
  - destruct pdf as [upload|]; [|discriminate]. intros H.
    apply bind_ret_inv in H as ([] & w0 & _ & H).
    destruct (negb _); [discriminate|].
    destruct (length (file upload) =? 0); [discriminate|].
    apply bind_ret_inv in H as ([] & w2 & _ & H). by injection H as <- _.
Qed.

(** X13.  Every event of a request is its own: besides log records, a
    request causes at most requests to the URL it names (none when it names
    no URL), the rasterization of [input.pdf] of its workspace into its
    workspace, the archive [images.zip] of its workspace, and the cleanup of
    its workspace.  Nothing that was in the trace is dropped. *)
Theorem request_events (E : env) (pdf : option UploadFile)
    (pdf_url : option string) (w : world) :
  exists l, trace (post_convert E pdf pdf_url w).2 = l ++ trace w /\
            Forall (request_event E pdf_url) l.
Proof.
  destruct (one_source pdf pdf_url) eqn:Hone.
  2:{ rewrite (post_convert_rejected E _ _ w Hone). by exists []. }
  set (P := request_event E pdf_url).
  assert (Hlog : forall lvl msg, P (Log lvl msg)) by done.
  assert (Hget : truthy_url pdf_url = true -> P (HttpGet (default "" pdf_url))).
  { destruct pdf_url as [u|]; [|done]. simpl. intros Hu. split; [done|].
    intros ->. discriminate Hu. }
  assert (Hclean : emits_only P (cleanup_directory E (workspace E)))
    by by apply emits_cleanup.
  assert (Hconv : emits_only P (convert_pdf E pdf pdf_url)).
  { rewrite (convert_pdf_one_source E _ _ Hone).
    apply emits_bind; [by apply emits_makedirs|intros _].
    apply emits_try; [|intros e; by apply emits_on_error].
    apply (emits_bind_post P (fun p => p = Path.join (workspace E) "input.pdf")).
    - by apply emits_resolve_source.
    - intros w0 p w'. apply resolve_source_path.
    - intros p ->. apply emits_bind; [by apply emits_verify_pdf|intros _].
      by apply emits_rasterize_and_archive. }
  destruct (Hconv w) as (l1 & H1 & HP1). unfold post_convert.
  destruct (convert_pdf E pdf pdf_url w) as [[r|[s detail|msg]] w1] eqn:Hrun;
    simpl in H1; [|by exists l1..].
  assert (Hb : fr_background r = cleanup_directory E (workspace E)).
  { rewrite (convert_pdf_one_source E _ _ Hone) in Hrun.
    apply bind_ret_inv in Hrun as ([] & w0 & _ & Hrun).
    pose proof (guarded_block_outcome E pdf pdf_url w0) as Hblock. simpl in Hblock.
    unfold try_except in Hrun.
    destruct ((pdf_path <- resolve_source E pdf pdf_url (workspace E) ;;
               verify_pdf E pdf_path ;;
               rasterize_and_archive E pdf_path (workspace E)) w0) as [[r'|e] w2].
    - injection Hrun as -> ->. by destruct Hblock as [-> _].
    - destruct (on_error_world E (workspace E) e w2) as (wa & wb & Herr & _). congruence. }
  rewrite Hb. destruct (Hclean w1) as (l2 & H2 & HP2). simpl.
  exists (l2 ++ l1). rewrite H2, H1, app_assoc. split; [done|]. by apply Forall_app.
Qed.

(** X14.  A second cleanup changes nothing: once [cleanup_directory] has run
    and the removal has not failed, running it again leaves the file
    system as it is, whether the directory was there, was missing, or was a
    regular file. *)
Theorem cleanup_twice (E : env) (directory : string) (w : world) :
  rmtree_fault E (fs w) directory = None ->
  fs (cleanup_directory E directory (cleanup_directory E directory w).2).2
    = fs (cleanup_directory E directory w).2.
Proof.
  intros Hnf. destruct (fs w !! directory) as [[|b]|] eqn:Hd.
  - rewrite (cleanup_removed E directory w Hd Hnf). simpl.
    rewrite cleanup_missing; [done|]. simpl. apply remove_tree_under, under_self.
  - rewrite (cleanup_not_a_directory E directory w b Hd). simpl.
    by rewrite (cleanup_not_a_directory E directory _ b).
  - rewrite (cleanup_missing E directory w Hd). simpl.
    by rewrite cleanup_missing.
Qed.

(** ** Witnesses *)

(** Witness of X2: the second page of the sample document. *)
Lemma convert_pdf_to_images_contents_witness :
  fs (convert_pdf_to_images sample_env "temp/3f2a/input.pdf" "temp/3f2a" stored_world).2
    !! page_path "temp/3f2a" 2 = Some (File [Byte.x02]).
Proof.
  assert (Hnd : forall n, 1 <= n <= length sample_pages ->
                  fs stored_world !! page_path "temp/3f2a" n <> Some Dir).
  { intros n Hn. simpl in Hn.
    assert (Hcases : n = 1 \/ n = 2 \/ n = 3) by lia.
    destruct Hcases as [->|[->| ->]]; by vm_compute. }
  exact (proj1 (convert_pdf_to_images_contents sample_env "temp/3f2a/input.pdf"
                  "temp/3f2a" stored_world sample_pages (fs stored_world) eq_refl Hnd)
           1 [Byte.x02] eq_refl).
Defined.

(** Witness of X3: a file outside the workspace, after a conversion. *)
Lemma request_stays_in_workspace_witness :
  fs (post_convert sample_env (Some sample_upload) None shared_world).2
    !! "scans/cover.jpg" = Some (File [Byte.x01]).
Proof.
  assert (Hid : plain_id (uuid4 sample_env)) by done.
  exact (eq_trans
           (request_stays_in_workspace sample_env (Some sample_upload) None shared_world
              "scans/cover.jpg" sample_env_tidy Hid eq_refl eq_refl)
           eq_refl).
Defined.

(** Witness of X4: the archive is gone after a conversion. *)
Lemma workspace_emptied_witness :
  fs (post_convert sample_env (Some sample_upload) None empty_world).2
    !! "temp/3f2a/images.zip" = None.
Proof.
  assert (Hc : workspace_created sample_env (Some sample_upload) None empty_world).
  { split; [reflexivity|]. intros d. simpl. by rewrite lookup_empty. }
  exact (workspace_emptied sample_env (Some sample_upload) None empty_world
           "temp/3f2a/images.zip" sample_env_tidy Hc (fun _ => eq_refl) eq_refl).
Defined.

(** Witness of X6: the stored sample upload passes the re-check. *)
Lemma source_recheck_passes_witness :
  let run := resolve_source sample_env (Some sample_upload) None "temp/3f2a" session_world in
  run.1 = Ret "temp/3f2a/input.pdf" /\
  verify_pdf sample_env "temp/3f2a/input.pdf" run.2 = (Ret tt, run.2).
Proof.
  split; [reflexivity|].
  apply (source_recheck_passes sample_env (Some sample_upload) None "temp/3f2a" session_world).
  reflexivity.
Defined.

(** Witness of X7: the archive of one file passes the re-check. *)
Lemma archive_recheck_passes_witness :
  let run := create_zip_file sample_env ["scans/cover.jpg"] "out.zip" scans_world in
  run.1 = Ret true /\
  missing_or_empty sample_env "out.zip" run.2 = (Ret false, run.2).
Proof.
  split; [reflexivity|].
  apply (archive_recheck_passes sample_env ["scans/cover.jpg"] "out.zip" scans_world).
  reflexivity.
Defined.

(** Witness of X8: the path of the workspace is taken by a file. *)
Lemma workspace_blocked_witness :
  post_convert sample_env (Some sample_upload) None blocked_world
    = (Failure 500 "Internal Server Error", blocked_world).
Proof.
  exact (workspace_blocked sample_env (Some sample_upload) None blocked_world [Byte.x00]
           eq_refl eq_refl).
Defined.

(** Witness of X10: the sample upload is answered by the archive of its
    three pages. *)
Lemma request_conversion_witness :
  (post_convert sample_env (Some sample_upload) None empty_world).1
    = Download 200 "application/zip" "converted_images.zip"
        [Byte.x50; Byte.x4b; Byte.x01; Byte.x02; Byte.x03].
Proof.
  exact (request_conversion sample_env (Some sample_upload) None empty_world sample_pdf
           sample_pages (with_source sample_env ∅ sample_pdf)
           eq_refl (fresh_empty_world sample_env) sample_env_tidy eq_refl eq_refl).
Defined.

(** Witness of X11: the failing rasterizer. *)
Lemma rasterizer_error_is_generic_witness :
  (post_convert failing_rasterizer_env (Some sample_upload) None empty_world).1
    = Failure 500 "No se pudieron generar imágenes del PDF".
Proof.
  exact (rasterizer_error_is_generic failing_rasterizer_env (Some sample_upload) None
           empty_world sample_pdf "Unable to get page count."
           (with_source failing_rasterizer_env ∅ sample_pdf)
           eq_refl (fresh_empty_world failing_rasterizer_env) eq_refl eq_refl).
Defined.

(** Witness of X12: an upload whose name does not end in [.pdf]. *)
Lemma source_refused_witness :
  (post_convert sample_env (Some text_upload) None empty_world).1
    = Failure 400 "El archivo debe ser PDF".
Proof.
  exact (proj1 (source_refused sample_env (Some text_upload) None empty_world
                  eq_refl (fresh_empty_world sample_env) eq_refl)).
Defined.

(** Witness of X14: two cleanups of a workspace that holds a document. *)
Lemma cleanup_twice_witness :
  fs (cleanup_directory sample_env "temp/3f2a"
        (cleanup_directory sample_env "temp/3f2a" used_world).2).2
    = fs (cleanup_directory sample_env "temp/3f2a" used_world).2.
Proof.
  exact (cleanup_twice sample_env "temp/3f2a" used_world eq_refl).
Defined.

(** ** Sessions *)

Lemma startswith_spec (p : string) : forall s,
  Str.startswith s p = true <-> exists r, s = p +:+ r.
Proof.
  induction p as [|a p IH]; intros s.
  - split; [intros _; by exists s|by destruct s].
  - destruct s as [|b s]; simpl.
    + split; [done|]. intros [r H]. by rewrite str_app_cons in H.
    + destruct (Ascii.eqb_spec a b) as [->|Hab].
      * rewrite IH. split; intros [r H]; exists r.
        -- by rewrite str_app_cons, H.
        -- rewrite str_app_cons in H. by injection H.
      * split; [done|]. intros [r H]. rewrite str_app_cons in H. by injection H.
Qed.

Lemma contains_slash_inside (q r : string) : Str.contains (q +:+ "/" +:+ r) "/" = true.
Proof.
  induction q as [|c q IH].
  - change ("" +:+ "/" +:+ r) with (String "/" r). by destruct r.
  - rewrite str_app_cons. cbn [Str.contains]. rewrite IH. by destruct (Str.startswith _ _).
Qed.

Lemma contains_slash_tail c s :
  Str.contains (String c s) "/" = false -> c <> "/"%char /\ Str.contains s "/" = false.
Proof.
  cbn [Str.contains]. destruct (Str.startswith (String c s) "/") eqn:Hs; [done|].
  intros H. split; [|done]. intros ->. simpl in Hs. by destruct s.
Qed.

(** Two strings without a slash that are followed by a slash in the same
    string are the same. *)
Lemma first_slash : forall u1 u2 r1 r2,
  Str.contains u1 "/" = false -> Str.contains u2 "/" = false ->
  u1 +:+ "/" +:+ r1 = u2 +:+ "/" +:+ r2 -> u1 = u2.
Proof.
  induction u1 as [|c1 u1 IH]; intros [|c2 u2] r1 r2 H1 H2 H.
  - done.
  - apply contains_slash_tail in H2 as [Hc _]. rewrite str_app_cons in H.
    injection H as H _. by destruct Hc.
  - apply contains_slash_tail in H1 as [Hc _]. rewrite str_app_cons in H.
    injection H as H _. by destruct Hc.
  - apply contains_slash_tail in H1 as [_ H1]. apply contains_slash_tail in H2 as [_ H2].
    rewrite !str_app_cons in H. injection H as -> H. f_equal. by apply (IH u2 r1 r2).
Qed.

Lemma app_ends_slash (a s : string) : forall q,
  s <> "" -> a +:+ s = q +:+ "/" -> exists q', s = q' +:+ "/".
Proof.
  induction a as [|c a IH]; intros q Hs H; [by exists q|].
  rewrite str_app_cons in H. destruct q as [|c' q].
  - injection H as _ H. apply (f_equal String.length) in H.
    rewrite str_length_app in H. destruct s; [done|]. simpl in H. lia.
  - rewrite str_app_cons in H. injection H as _ H. by apply (IH q).
Qed.

(** The workspace of a session and the prefix of what lies below it. *)
Lemma workspace_form (E : env) :
  plain_id (uuid4 E) ->
  workspace E = "temp/" +:+ uuid4 E /\
  dir_prefix (workspace E) = "temp/" +:+ uuid4 E +:+ "/".
Proof.
  intros [Hne Hns].
  assert (Hw : workspace E = "temp/" +:+ uuid4 E).
  { unfold workspace, Path.join, TEMP_DIR.
    destruct (Str.startswith (uuid4 E) "/") eqn:Hs.
    - apply startswith_spec in Hs as [r Hr].
      pose proof (contains_slash_inside "" r) as Hc.
      change ("" +:+ "/" +:+ r) with ("/" +:+ r) in Hc. congruence.
    - reflexivity. }
  split; [done|]. unfold dir_prefix. rewrite Hw.
  destruct (Str.endswith ("temp/" +:+ uuid4 E) "/") eqn:He.
  - apply endswith_spec in He as [q Hq]. exfalso.
    destruct (uuid4 E) as [|c u] eqn:Hu; [done|].
    assert (Hlast : forall s q, String c s = q +:+ "/" -> Str.contains (String c s) "/" = true).
    { intros s q0 ->. change "/" with ("/" +:+ "") at 1. apply contains_slash_inside. }
    destruct (app_ends_slash "temp/" (String c u) q) as [q' Hq']; [done|done|].
 by rewrite (Hlast _ _ Hq') in Hns.
  - by rewrite str_app_assoc.
Qed.

(** The workspaces of two sessions are disjoint. *)
Lemma workspaces_disjoint (E1 E2 : env) (p : string) :
  plain_id (uuid4 E1) -> plain_id (uuid4 E2) -> uuid4 E1 <> uuid4 E2 ->
  under (workspace E2) p = true -> under (workspace E1) p = false.
Proof.
  intros H1 H2 Hneq Hu2.
  destruct (workspace_form E1 H1) as [Hw1 Hp1], (workspace_form E2 H2) as [Hw2 Hp2].
  destruct H1 as [_ Hs1], H2 as [_ Hs2].
  destruct (under (workspace E1) p) eqn:Hu1; [exfalso|done].
  unfold under in Hu1, Hu2. rewrite Hp1, Hw1 in Hu1. rewrite Hp2, Hw2 in Hu2.
  apply orb_true_iff in Hu1 as [Ha|Ha]; apply orb_true_iff in Hu2 as [Hb|Hb].
  - apply String.eqb_eq in Ha, Hb. rewrite Ha in Hb. by apply str_app_inv_head in Hb.
  - apply String.eqb_eq in Ha. apply startswith_spec in Hb as [r Hr]. rewrite Ha in Hr.
    rewrite !str_app_assoc in Hr. apply (str_app_inv_head "temp/") in Hr.
    by rewrite Hr, contains_slash_inside in Hs1.
  - apply String.eqb_eq in Hb. apply startswith_spec in Ha as [r Hr]. rewrite Hb in Hr.
    rewrite !str_app_assoc in Hr. apply (str_app_inv_head "temp/") in Hr.
    by rewrite Hr, contains_slash_inside in Hs2.
  - apply startswith_spec in Ha as [r1 Hr1]. apply startswith_spec in Hb as [r2 Hr2].
    rewrite Hr1 in Hr2. rewrite !str_app_assoc in Hr2.
    apply (str_app_inv_head "temp/") in Hr2. by apply first_slash in Hr2.
Qed.

(** X15.  Sessions do not interfere: a request leaves alone whatever lies
    in the workspace of another session, its stored document, its pages and
    its archive, whatever the request does and however it ends.  The
    session identifiers name one path component each, as those drawn by
    [uuid.uuid4] do, and differ. *)
Theorem sessions_do_not_interfere (E1 E2 : env) (pdf : option UploadFile)
    (pdf_url : option string) (w : world) (p : string) :
  tidy E1 ->
  plain_id (uuid4 E1) -> plain_id (uuid4 E2) -> uuid4 E1 <> uuid4 E2 ->
  under (workspace E2) p = true ->
  fs (post_convert E1 pdf pdf_url w).2 !! p = fs w !! p.
Proof.
  intros Ht H1 H2 Hneq Hu2.
  pose proof (workspaces_disjoint E1 E2 p H1 H2 Hneq Hu2) as Hp.
  assert (Hpd : p <> workspace E1) by (intros ->; by rewrite under_self in Hp).
  destruct (one_source pdf pdf_url) eqn:Hone;
    [|by rewrite (post_convert_rejected E1 _ _ w Hone)].
  destruct (fs w !! workspace E1) as [[|b]|] eqn:Hw.
  - destruct (makedirs_run (workspace E1) w) as (w1 & Hmk & _ & _ & Hother);
      [by rewrite Hw|].
    destruct (request_world E1 pdf pdf_url w w1 Ht Hone Hmk)
      as (wb & w0 & (Hframe & _) & Hfs & Hc).
    by rewrite (cleanup_frame E1 _ _ _ Ht Hc p Hp), Hfs, (Hframe p Hp), (Hother p Hpd).
  - destruct (makedirs_blocked _ _ _ Hw) as [msg Hmk].
    unfold post_convert. rewrite (convert_pdf_one_source E1 _ _ Hone).
    by rewrite (bind_raise_run _ _ _ _ _ Hmk).
  - destruct (makedirs_run (workspace E1) w) as (w1 & Hmk & _ & _ & Hother);
      [by rewrite Hw|].
    destruct (request_world E1 pdf pdf_url w w1 Ht Hone Hmk)
      as (wb & w0 & (Hframe & _) & Hfs & Hc).
    by rewrite (cleanup_frame E1 _ _ _ Ht Hc p Hp), Hfs, (Hframe p Hp), (Hother p Hpd).
Qed.

(** Witness of X15: the document of another session, after a conversion. *)
Lemma sessions_do_not_interfere_witness :
  fs (post_convert sample_env (Some sample_upload) None busy_world).2
    !! "temp/9c1d/input.pdf" = Some (File sample_pdf).
Proof.
  assert (H1 : plain_id (uuid4 sample_env)) by done.
  assert (H2 : plain_id (uuid4 other_env)) by done.
  assert (Hneq : uuid4 sample_env <> uuid4 other_env) by done.
  exact (eq_trans
           (sessions_do_not_interfere sample_env other_env (Some sample_upload) None
              busy_world "temp/9c1d/input.pdf" sample_env_tidy H1 H2 Hneq eq_refl)
           eq_refl).
Defined.
